(** * Personal Library Manager: the catalogue core of [library_manager.py]

    A shallow embedding of the classes [Book] and [LibraryManager] and the
    properties of the catalogue they maintain: persistence, removal, search
    and statistics.

    Conventions of the embedding.
    - Python values are dynamically typed: the fields of a [Book] hold a
      [pyval], whatever the annotations of [__init__] say.  Floats are left
      out of [pyval]; the only float of the program, the percentage of the
      statistics, is an exact rational here.
    - A [str] is a [String.string] whose characters are the code points
      below 256, on which [str.lower()] works one character at a time.
      Module [Unicode] has [str.lower()] on lists of code points for the
      Greek letters too, where it does not.
    - A raised exception is a value: pure code returns a [result], code of
      [LibraryManager] runs in the monad [M] of the manager's state, which
      keeps the state reached when the exception was raised.
    - [input()] and the file system are the environment: what the user typed
      and how a write ended are arguments of the operations.
    - [print] is a [message] appended to the console of the state. *)

From Stdlib Require Import List String Ascii ZArith NArith QArith Bool Lia.
From Stdlib Require Import Permutation Sorted.
Import ListNotations.

Set Implicit Arguments.
Set Warnings "-register-all".
Local Open Scope Z_scope.
Local Open Scope list_scope.

(* ================================================================== *)
(** * Python values and the builtins the program uses *)
(* ================================================================== *)

Module Py.

(** The exceptions the program can meet. *)
Inductive exn : Type :=
| JSONDecodeError
| KeyError (key : string)
| TypeError
| AttributeError
| ValueError
| IndexError
| OSError
| ZeroDivisionError
| EOFError
| UnicodeDecodeError
| RecursionError.

Definition is_JSONDecodeError_or_KeyError (e : exn) : bool :=
  match e with JSONDecodeError | KeyError _ => true | _ => false end.

(** [json.JSONDecodeError] and [UnicodeDecodeError] are subclasses of
    [ValueError]. *)
Definition is_ValueError (e : exn) : bool :=
  match e with
  | ValueError | JSONDecodeError | UnicodeDecodeError => true
  | _ => false
  end.

(** [IOError] is the name Python 3 keeps for [OSError]. *)
Definition is_IOError (e : exn) : bool :=
  match e with OSError => true | _ => false end.

(** Values that [json.load] builds and [json.dump] writes.  A [PDict]
    keeps its items in insertion order, as a Python [dict] does. *)
Inductive pyval : Type :=
| PNone
| PBool (b : bool)
| PInt (z : Z)
| PStr (s : string)
| PList (items : list pyval)
| PDict (items : list (string * pyval)).

Inductive result (A : Type) : Type :=
| Ok (a : A)
| Raise (e : exn).
Arguments Ok {A} a.
Arguments Raise {A} e.

Definition rbind {A B} (r : result A) (k : A -> result B) : result B :=
  match r with Ok a => k a | Raise e => Raise e end.

(** ** Strings *)

(** [str.lower()] on one code point below 256: the letters A-Z and the
    capital letters of Latin-1 (all of 192..222 but the sign at 215) move
    up by 32. *)
Definition lower_char (c : ascii) : ascii :=
  let n := N_of_ascii c in
  if ((65 <=? n) && (n <=? 90))%N
     || ((192 <=? n) && (n <=? 222) && negb (n =? 215))%N
  then ascii_of_N (n + 32) else c.

Fixpoint lower (s : string) : string :=
  match s with
  | EmptyString => EmptyString
  | String c s' => String (lower_char c) (lower s')
  end.

(** [sub in s] on strings. *)
Fixpoint str_in (sub s : string) : bool :=
  String.prefix sub s
  || match s with
     | EmptyString => false
     | String _ s' => str_in sub s'
     end.

(** [v.lower()]: only a [str] has the method. *)
Definition lower_method (v : pyval) : result string :=
  match v with
  | PStr s => Ok (lower s)
  | _ => Raise AttributeError
  end.

(** ** Truth value, subscription, iteration *)

Definition truthy (v : pyval) : bool :=
  match v with
  | PNone => false
  | PBool b => b
  | PInt z => negb (z =? 0)
  | PStr s => negb (String.eqb s EmptyString)
  | PList l => match l with [] => false | _ => true end
  | PDict d => match d with [] => false | _ => true end
  end.

Fixpoint dict_get (d : list (string * pyval)) (key : string) : option pyval :=
  match d with
  | [] => None
  | (k, v) :: d' => if String.eqb k key then Some v else dict_get d' key
  end.

(** [data[key]] with a [str] key. *)
Definition getitem (data : pyval) (key : string) : result pyval :=
  match data with
  | PDict d =>
      match dict_get d key with
      | Some v => Ok v
      | None => Raise (KeyError key)
      end
  | _ => Raise TypeError
  end.

Fixpoint chars (s : string) : list pyval :=
  match s with
  | EmptyString => []
  | String c s' => PStr (String c EmptyString) :: chars s'
  end.

(** The items [for x in data] runs through. *)
Definition iterate (data : pyval) : result (list pyval) :=
  match data with
  | PList l => Ok l
  | PDict d => Ok (map (fun kv => PStr (fst kv)) d)
  | PStr s => Ok (chars s)
  | PNone | PBool _ | PInt _ => Raise TypeError
  end.

(** ** Lists *)

Definition len {A} (l : list A) : Z := Z.of_nat (List.length l).

(** [l[i]], with Python's negative indices. *)
Definition index {A} (l : list A) (i : Z) : result A :=
  let j := if i <? 0 then i + len l else i in
  if (0 <=? j) && (j <? len l) then
    match nth_error l (Z.to_nat j) with
    | Some a => Ok a
    | None => Raise IndexError
    end
  else Raise IndexError.

(** ** Dictionaries keyed by values: [genres] of the statistics *)

Definition hashable (v : pyval) : bool :=
  match v with
  | PList _ | PDict _ => false
  | _ => true
  end.

Definition as_number (v : pyval) : option Z :=
  match v with
  | PBool b => Some (if b then 1 else 0)
  | PInt z => Some z
  | _ => None
  end.

(** [k1 == k2] on hashable values; [True == 1] and [False == 0]. *)
Definition key_eqb (k1 k2 : pyval) : bool :=
  match k1, k2 with
  | PNone, PNone => true
  | PStr s1, PStr s2 => String.eqb s1 s2
  | _, _ =>
      match as_number k1, as_number k2 with
      | Some z1, Some z2 => z1 =? z2
      | _, _ => false
      end
  end.

(** [d.get(k, 0)] *)
Fixpoint counter_get (d : list (pyval * Z)) (k : pyval) : Z :=
  match d with
  | [] => 0
  | (k', n) :: d' => if key_eqb k' k then n else counter_get d' k
  end.

(** [d[k] = n]: an existing key keeps its place, a new one goes last. *)
Fixpoint counter_set (d : list (pyval * Z)) (k : pyval) (n : Z)
  : list (pyval * Z) :=
  match d with
  | [] => [(k, n)]
  | (k', n') :: d' =>
      if key_eqb k' k then (k', n) :: d' else (k', n') :: counter_set d' k n
  end.

(** ** [sorted(items, key=lambda x: x[1], reverse=True)]

    [sorted] is stable, with [reverse=True] too: items of equal key keep
    their order.  A stable sort has one possible result, so an insertion
    sort stands for it. *)
Fixpoint insert_desc {A} (x : A * Z) (l : list (A * Z)) : list (A * Z) :=
  match l with
  | [] => [x]
  | y :: l' =>
      if snd y <=? snd x then x :: y :: l' else y :: insert_desc x l'
  end.

Fixpoint sorted_desc {A} (l : list (A * Z)) : list (A * Z) :=
  match l with
  | [] => []
  | x :: l' => insert_desc x (sorted_desc l')
  end.

(** ** True division of two [int]s, as an exact rational *)
Definition truediv (a b : Z) : result Q :=
  if b =? 0 then Raise ZeroDivisionError
  else Ok (inject_Z a / inject_Z b)%Q.

End Py.
Import Py.

(* ================================================================== *)
(** * class Book *)
(* ================================================================== *)

Module Book.
Local Open Scope string_scope.

(** A [Book] object.  [oid] is the identity of the object: the class
    defines no [__eq__], so [==] on books is [is], and this is what
    [list.remove] compares. *)
Record t : Type := mk {
  oid : nat;
  title : pyval;
  author : pyval;
  year : pyval;
  genre : pyval;
  read : pyval
}.

(** [__init__] *)
Definition init (self : nat) (title author year genre read : pyval) : t :=
  mk self title author year genre read.

(** [to_dict] *)
Definition to_dict (self : t) : pyval :=
  PDict [ ("title", title self);
          ("author", author self);
          ("year", year self);
          ("genre", genre self);
          ("read", read self) ].

(** [from_dict]; [self] is the identity the new object gets. *)
Definition from_dict (self : nat) (data : pyval) : result t :=
  rbind (getitem data "title") (fun title =>
  rbind (getitem data "author") (fun author =>
  rbind (getitem data "year") (fun year =>
  rbind (getitem data "genre") (fun genre =>
  rbind (getitem data "read") (fun read =>
  Ok (init self title author year genre read)))))).

(** The five field values, without the identity. *)
Definition fields (b : t) : pyval * pyval * pyval * pyval * pyval :=
  (title b, author b, year b, genre b, read b).

(** A Book Record of the data model: text, text, integer, text, boolean. *)
Definition well_typed (b : t) : bool :=
  match title b, author b, year b, genre b, read b with
  | PStr _, PStr _, PInt _, PStr _, PBool _ => true
  | _, _, _, _, _ => false
  end.

End Book.

(* ================================================================== *)
(** * class LibraryManager *)
(* ================================================================== *)

(** What the program prints, one constructor per [print] of a method (the
    three lines of a header, and of the search menu, count as one). *)
Inductive message : Type :=
| Header (caption : string)
| Animation (caption : string)
| LoadFailed          (* Error loading library file. Starting with empty library. *)
| SaveFailed          (* Error saving library to file. *)
| BookAdded           (* Book added successfully! *)
| NoBookWithTitle     (* No book found with that title. *)
| MultipleFound       (* Multiple books found with that title: *)
| Numbered (i : Z) (b : Book.t)
| BookRemoved         (* Book removed successfully! *)
| InvalidChoice       (* Invalid choice. Please try again. *)
| InvalidNumber       (* Please enter a valid number. *)
| SearchBy            (* Search by: 1. Title 2. Author *)
| EnterOneOrTwo       (* Please enter 1 or 2. *)
| NoMatching          (* No matching books found. *)
| MatchingBooks       (* Matching Books: *)
| LibraryEmpty        (* Your library is empty. *)
| NoBooks             (* No books in the library. *)
| TotalBooks (n : Z)
| PercentageRead (p : Q)
| BooksByGenre
| GenreCount (g : pyval) (n : Z).

Module LibraryManager.
Local Open Scope string_scope.
Local Open Scope list_scope.
Local Open Scope Z_scope.

Section Manager.

(** The text of a file, and [json.dump] and [json.load] on it.
    [json_load content] is what [open(self.filename, 'r')] and
    [json.load(file)] give on a file that holds [content]: the value
    read, or the exception raised, which is [JSONDecodeError] for text
    that is no JSON and can be another one: [UnicodeDecodeError] for
    bytes that are no text in the encoding, [ValueError] for a number of
    more digits than [int] converts, [RecursionError] for nesting beyond
    the recursion limit, [OSError] for a file that cannot be opened. *)
Variable text : Type.
Variable json_dump : pyval -> text.
Variable json_load : text -> result pyval.

(** The manager and its surroundings: [self.books], the file named
    [self.filename] ([None]: no such file), the identity the next object
    gets, and what has been printed. *)
Record state : Type := mkState {
  books : list Book.t;
  file : option text;
  next_oid : nat;
  console : list message
}.

(** How [open(self.filename, 'w')] and the write go: well, or with an
    [IOError] that leaves [remains] on the disk. *)
Inductive write_outcome : Type :=
| Written
| WriteFailed (remains : option text).

(** ** The monad of the methods *)

Inductive res (A : Type) : Type :=
| Done (a : A) (s : state)
| Fail (e : exn) (s : state).
Arguments Done {A} a s.
Arguments Fail {A} e s.

Definition M (A : Type) : Type := state -> res A.

Definition ret {A} (a : A) : M A := fun s => Done a s.

Definition bind {A B} (m : M A) (k : A -> M B) : M B :=
  fun s => match m s with
           | Done a s' => k a s'
           | Fail e s' => Fail e s'
           end.

Definition raise {A} (e : exn) : M A := fun s => Fail e s.

Definition lift {A} (r : result A) : M A :=
  match r with Ok a => ret a | Raise e => raise e end.

(** [try: body  except <catches>: handler] *)
Definition try_except {A} (body : M A) (catches : exn -> bool)
  (handler : M A) : M A :=
  fun s => match body s with
           | Done a s' => Done a s'
           | Fail e s' => if catches e then handler s' else Fail e s'
           end.

Notation "x <- m ;; k" := (bind m (fun x => k))
  (at level 61, m at next level, right associativity).
Notation "m ;; k" := (bind m (fun _ => k))
  (at level 61, right associativity).

Definition final_state {A} (r : res A) : state :=
  match r with Done _ s => s | Fail _ s => s end.

(** ** State and environment *)

Definition get_books : M (list Book.t) := fun s => Done (books s) s.

Definition set_books (bs : list Book.t) : M unit :=
  fun s => Done tt (mkState bs (file s) (next_oid s) (console s)).

Definition get_file : M (option text) := fun s => Done (file s) s.

Definition print (m : message) : M unit :=
  fun s => Done tt (mkState (books s) (file s) (next_oid s) (console s ++ [m])).

(** The identity of a new object. *)
Definition new_object : M nat :=
  fun s => Done (next_oid s)
             (mkState (books s) (file s) (S (next_oid s)) (console s)).

(** [with open(self.filename, 'w') as file: file.write(content)] *)
Definition write_file (w : write_outcome) (content : text) : M unit :=
  fun s => match w with
           | Written =>
               Done tt (mkState (books s) (Some content) (next_oid s) (console s))
           | WriteFailed remains =>
               Fail OSError (mkState (books s) remains (next_oid s) (console s))
           end.

(** [for i, book in enumerate(l, i): print(f"{i}. {book}")] *)
Fixpoint print_numbered (i : Z) (l : list Book.t) : M unit :=
  match l with
  | [] => ret tt
  | book :: l' => print (Numbered i book) ;; print_numbered (i + 1) l'
  end.

(** [[x for x in l if test(x)]] with a test that may raise. *)
Fixpoint select (test : Book.t -> result bool) (l : list Book.t)
  : result (list Book.t) :=
  match l with
  | [] => Ok []
  | x :: l' =>
      rbind (test x) (fun keep =>
      rbind (select test l') (fun rest =>
      Ok (if keep then x :: rest else rest)))
  end.

(** [l.remove(x)] on a list of books: the first item that is [x] goes. *)
Fixpoint remove_object (x : Book.t) (l : list Book.t) : option (list Book.t) :=
  match l with
  | [] => None
  | y :: l' =>
      if Nat.eqb (Book.oid y) (Book.oid x) then Some l'
      else option_map (cons y) (remove_object x l')
  end.

Definition list_remove (x : Book.t) : M unit :=
  bs <- get_books ;;
  match remove_object x bs with
  | Some bs' => set_books bs'
  | None => raise ValueError
  end.

(** ** The methods *)

Definition print_header (caption : string) : M unit := print (Header caption).

Definition loading_animation (caption : string) : M unit :=
  print (Animation caption).

(** [[Book.from_dict(book_data) for book_data in data]] *)
Fixpoint books_from (items : list pyval) : M (list Book.t) :=
  match items with
  | [] => ret []
  | book_data :: items' =>
      self <- new_object ;;
      book <- lift (Book.from_dict self book_data) ;;
      rest <- books_from items' ;;
      ret (book :: rest)
  end.

Definition load_library : M unit :=
  existing <- get_file ;;
  match existing with
  | Some content =>
      try_except
        (data <- lift (json_load content) ;;
         items <- lift (iterate data) ;;
         new_books <- books_from items ;;
         set_books new_books ;;
         loading_animation "Loading your library")
        is_JSONDecodeError_or_KeyError
        (print LoadFailed ;;
         set_books [])
  | None => set_books []
  end.

Definition save_library (w : write_outcome) : M unit :=
  try_except
    (bs <- get_books ;;
     write_file w (json_dump (PList (map Book.to_dict bs))) ;;
     loading_animation "Saving your library")
    is_IOError
    (print SaveFailed).

(** [__init__]: the manager starts with no book and loads the file. *)
Definition init (disk : option text) : res unit :=
  load_library (mkState [] disk 0 []).

(** [add_book], with the five values its prompts collect. *)
Definition add_book (title author : string) (year : Z) (genre : string)
  (read : bool) (w : write_outcome) : M unit :=
  print_header "Add a Book" ;;
  self <- new_object ;;
  let new_book :=
    Book.init self (PStr title) (PStr author) (PInt year) (PStr genre)
      (PBool read) in
  bs <- get_books ;;
  set_books (bs ++ [new_book]) ;;
  save_library w ;;
  print BookAdded.

(** The [while True] of [remove_book].  [inputs] holds what
    [int(input(...))] gives at each turn, [None] where it raises
    [ValueError]; when the input has run out, [input] raises [EOFError].
    The result tells whether the method has returned. *)
Fixpoint choose_and_remove (found_books : list Book.t)
  (inputs : list (option Z)) (w : write_outcome) : M unit :=
  match inputs with
  | [] => raise EOFError
  | typed :: inputs' =>
      returned <-
        try_except
          (choice <- match typed with
                     | Some n => ret n
                     | None => raise ValueError
                     end ;;
           if (1 <=? choice) && (choice <=? len found_books) then
             book_to_remove <- lift (index found_books (choice - 1)) ;;
             list_remove book_to_remove ;;
             save_library w ;;
             print BookRemoved ;;
             ret true
           else
             print InvalidChoice ;;
             ret false)
          is_ValueError
          (print InvalidNumber ;;
           ret false) ;;
      if returned : bool then ret tt
      else choose_and_remove found_books inputs' w
  end.

(** [remove_book]; [title] is the stripped line the user typed. *)
Definition remove_book (title : string) (inputs : list (option Z))
  (w : write_outcome) : M unit :=
  print_header "Remove a Book" ;;
  bs <- get_books ;;
  found_books <-
    lift (select (fun book =>
                    rbind (lower_method (Book.title book)) (fun t =>
                    Ok (String.eqb t (lower title)))) bs) ;;
  match found_books with
  | [] => print NoBookWithTitle
  | _ :: _ =>
      if 1 <? len found_books then
        print MultipleFound ;;
        print_numbered 1 found_books ;;
        choose_and_remove found_books inputs w
      else
        first <- lift (index found_books 0) ;;
        list_remove first ;;
        save_library w ;;
        print BookRemoved
  end.

(** The [while True] of [search_books]: until the choice is 1 or 2. *)
Fixpoint ask_field (inputs : list (option Z)) : M Z :=
  match inputs with
  | [] => raise EOFError
  | None :: inputs' => print InvalidNumber ;; ask_field inputs'
  | Some choice :: inputs' =>
      if (choice =? 1) || (choice =? 2) then ret choice
      else print EnterOneOrTwo ;; ask_field inputs'
  end.

(** [search_books]; [typed] is the stripped line the user typed. *)
Definition search_books (inputs : list (option Z)) (typed : string) : M unit :=
  print_header "Search for a Book" ;;
  print SearchBy ;;
  choice <- ask_field inputs ;;
  let search_term := lower typed in
  bs <- get_books ;;
  results <-
    lift (if choice =? 1 then
            select (fun book =>
                      rbind (lower_method (Book.title book)) (fun t =>
                      Ok (str_in search_term t))) bs
          else
            select (fun book =>
                      rbind (lower_method (Book.author book)) (fun a =>
                      Ok (str_in search_term a))) bs) ;;
  match results with
  | [] => print NoMatching
  | _ :: _ => print MatchingBooks ;; print_numbered 1 results
  end.

Definition display_all_books : M unit :=
  print_header "Your Library" ;;
  bs <- get_books ;;
  match bs with
  | [] => print LibraryEmpty
  | _ :: _ => print_numbered 1 bs
  end.

(** [for book in bs: genres[book.genre] = genres.get(book.genre, 0) + 1];
    a [list] or a [dict] is no key: [TypeError]. *)
Fixpoint count_genres (bs : list Book.t) (genres : list (pyval * Z))
  : result (list (pyval * Z)) :=
  match bs with
  | [] => Ok genres
  | book :: bs' =>
      let g := Book.genre book in
      if hashable g then
        count_genres bs' (counter_set genres g (counter_get genres g + 1))
      else Raise TypeError
  end.

Fixpoint print_genres (items : list (pyval * Z)) : M unit :=
  match items with
  | [] => ret tt
  | (g, count) :: items' => print (GenreCount g count) ;; print_genres items'
  end.

Definition display_statistics : M unit :=
  print_header "Library Statistics" ;;
  bs <- get_books ;;
  let total_books := len bs in
  if total_books =? 0 then print NoBooks
  else
    let read_books := len (filter (fun book => truthy (Book.read book)) bs) in
    ratio <- lift (truediv read_books total_books) ;;
    let percentage_read := (ratio * 100)%Q in
    print (TotalBooks total_books) ;;
    print (PercentageRead percentage_read) ;;
    genres <- lift (count_genres bs []) ;;
    print BooksByGenre ;;
    print_genres (sorted_desc genres).

End Manager.

Arguments Written {text}.
Arguments Done {text A} a s.
Arguments Fail {text A} e s.

End LibraryManager.

(* ================================================================== *)
(** * A disk to run the manager on *)
(* ================================================================== *)

(** File texts up to what [json.load] sees in them: the JSON text of a
    value, or text that is not JSON, or one of three files that
    [json.load] fails on otherwise: bytes that are no text in the
    encoding, a number of more digits than [int] converts, and nesting
    beyond the recursion limit.  The general statements below hold for
    any texts and any [json_dump], [json_load]; this instance serves to
    run the methods on concrete files. *)
Module Disk.

Inductive text : Type :=
| NotJson (s : string)
| Json (data : pyval)
| NotText
| LongNumber
| TooDeep.

Definition json_dump (data : pyval) : text := Json data.

Definition json_load (content : text) : result pyval :=
  match content with
  | Json data => Ok data
  | NotJson _ => Raise JSONDecodeError
  | NotText => Raise UnicodeDecodeError
  | LongNumber => Raise ValueError
  | TooDeep => Raise RecursionError
  end.

Definition state : Type := LibraryManager.state text.

Definition load_library := LibraryManager.load_library json_load.
Definition save_library := LibraryManager.save_library json_dump.
Definition add_book := LibraryManager.add_book json_dump.
Definition remove_book := LibraryManager.remove_book json_dump.
Definition search_books := @LibraryManager.search_books text.
Definition display_all_books := @LibraryManager.display_all_books text.
Definition display_statistics := @LibraryManager.display_statistics text.

End Disk.

(* ================================================================== *)
(** * The vocabulary of the statements *)
(* ================================================================== *)

Module Spec.
Import LibraryManager.

(** The lines [print_numbered] writes. *)
Fixpoint numbered (i : Z) (l : list Book.t) : list message :=
  match l with
  | [] => []
  | book :: l' => Numbered i book :: numbered (i + 1) l'
  end.

Definition genre_lines (items : list (pyval * Z)) : list message :=
  map (fun item => GenreCount (fst item) (snd item)) items.

(** The text of a field that holds a [str]; the empty text otherwise. *)
Definition text_of (v : pyval) : string :=
  match v with PStr s => s | _ => EmptyString end.

(** Equality of two texts when case is ignored. *)
Definition same_ignoring_case (a b : string) : Prop := lower a = lower b.

(** [term] occurs in [s] when case is ignored: some stretch of [s] is
    [term] up to case. *)
Definition occurs_ignoring_case (term s : string) : Prop :=
  exists before stretch after : string,
    s = (before ++ stretch ++ after)%string
    /\ same_ignoring_case stretch term.

(** The test of [remove_book] on a record with a text title. *)
Definition title_is (title : string) (b : Book.t) : bool :=
  String.eqb (lower (text_of (Book.title b))) (lower title).

(** The field a search looks at: the title for choice 1, else the author. *)
Definition searched_field (choice : Z) (b : Book.t) : pyval :=
  if choice =? 1 then Book.title b else Book.author b.

(** The test of [search_books] on a record with text fields. *)
Definition field_has (choice : Z) (typed : string) (b : Book.t) : bool :=
  str_in (lower typed) (lower (text_of (searched_field choice b))).

(** All the identities of a catalogue differ, and are below the next one. *)
Definition distinct_objects (bs : list Book.t) : Prop :=
  NoDup (map Book.oid bs).

Definition well_formed {text} (s : state text) : Prop :=
  distinct_objects (books s)
  /\ Forall (fun b => (Book.oid b < next_oid s)%nat) (books s).

Definition all_well_typed (bs : list Book.t) : Prop :=
  Forall (fun b => Book.well_typed b = true) bs.

(** From [s] to [s'] the catalogue stayed as it was or lost one object, and
    no object was made. *)
Definition shrunk {text} (s s' : state text) : Prop :=
  next_oid s' = next_oid s
  /\ (books s' = books s
      \/ exists chosen, remove_object chosen (books s) = Some (books s')).

(** The file holds the serialization of the catalogue in memory. *)
Definition in_sync {text} (json_dump : pyval -> text) (s : state text) : Prop :=
  file s = Some (json_dump (PList (map Book.to_dict (books s)))).

(** The state after some more lines on the console. *)
Definition printing {text} (out : list message) (s : state text) : state text :=
  mkState (books s) (file s) (next_oid s) (console s ++ out).

(** The state with another catalogue in memory. *)
Definition with_books {text} (bs : list Book.t) (s : state text) : state text :=
  mkState bs (file s) (next_oid s) (console s).

(** The state [save_library] leaves: the file written and the animation
    shown, or what the failed write left and the error reported. *)
Definition saved {text} (json_dump : pyval -> text) (w : write_outcome text)
  (s : state text) : state text :=
  match w with
  | Written =>
      mkState (books s) (Some (json_dump (PList (map Book.to_dict (books s)))))
        (next_oid s) (console s ++ [Animation "Saving your library"])
  | WriteFailed remains =>
      mkState (books s) remains (next_oid s) (console s ++ [SaveFailed])
  end.

(** A method that at most prints: whether it returns or raises, the state
    it leaves is the one it started in with more lines on the console. *)
Definition only_prints {text A} (m : M text A) : Prop :=
  forall s, exists out, final_state (m s) = printing out s.

(** The catalogue without the object [x]. *)
Definition without (x : Book.t) (bs : list Book.t) : list Book.t :=
  filter (fun b => negb (Nat.eqb (Book.oid b) (Book.oid x))) bs.

(** A choice that is no position of the list of candidates. *)
Definition no_choice (found_books : list Book.t) (typed : option Z) : Prop :=
  match typed with
  | Some n => n < 1 \/ len found_books < n
  | None => True
  end.

(** The records whose [read] counts as true, and the percentage of the
    statistics: the rational [read_books / total_books * 100]. *)
Definition read_count (bs : list Book.t) : Z :=
  len (filter (fun b => truthy (Book.read b)) bs).

Definition percentage (bs : list Book.t) : Q :=
  (inject_Z (read_count bs) / inject_Z (len bs) * 100)%Q.

Definition is_text (v : pyval) : bool :=
  match v with PStr _ => true | _ => false end.

(** Counts that go down, or stay, along the list. *)
Definition descending {A} (l : list (A * Z)) : Prop :=
  StronglySorted (fun x y => snd y <= snd x) l.

(** A counter whose keys are all texts. *)
Definition text_keyed (d : list (pyval * Z)) : Prop :=
  Forall (fun item => is_text (fst item) = true) d.

(** The loop of [count_genres] on keys that can all be hashed. *)
Definition tally (keys : list pyval) (acc : list (pyval * Z))
  : list (pyval * Z) :=
  fold_left (fun d g => counter_set d g (counter_get d g + 1)) keys acc.

(** How often the key [k] occurs in a list of keys. *)
Definition count_in (k : pyval) (keys : list pyval) : Z :=
  len (filter (fun g => key_eqb g k) keys).

Definition all_text (keys : list pyval) : Prop :=
  Forall (fun g => is_text g = true) keys.

(** [x] comes before [y] in [l]. *)
Definition precedes {A} (x y : A) (l : list A) : Prop :=
  exists l1 l2 l3, l = l1 ++ x :: l2 ++ y :: l3.

(** In [l], [x] turns up before [y] ever does. *)
Definition first_seen_before {A} (x y : A) (l : list A) : Prop :=
  exists l1 l2, l = l1 ++ x :: l2 /\ ~ In x l1 /\ ~ In y l1.

(** How often the genre [g] occurs in a catalogue. *)
Definition occurrences (g : pyval) (bs : list Book.t) : Z :=
  len (filter (fun b => key_eqb (Book.genre b) g) bs).

(** The five keys of a serialized record. *)
Definition five_keys : list string :=
  ["title"; "author"; "year"; "genre"; "read"]%string.

Definition has_five_keys (d : list (string * pyval)) : bool :=
  forallb (fun key => match dict_get d key with Some _ => true | None => false end)
    five_keys.

Definition is_mapping (v : pyval) : bool :=
  match v with PDict _ => true | _ => false end.

Definition complete_mapping (v : pyval) : bool :=
  match v with PDict d => has_five_keys d | _ => false end.

(** The field values [from_dict] reads in a mapping with the five keys. *)
Definition fields_in (v : pyval) : pyval * pyval * pyval * pyval * pyval :=
  let at_key key :=
    match v with
    | PDict d => match dict_get d key with Some x => x | None => PNone end
    | _ => PNone
    end in
  (at_key "title", at_key "author", at_key "year", at_key "genre",
   at_key "read")%string.

End Spec.

(* ================================================================== *)
(** * Catalogues and files to run the methods on *)
(* ================================================================== *)

Module Examples.
Import LibraryManager.
Local Open Scope string_scope.

Definition dune_a : Book.t :=
  Book.mk 0 (PStr "Dune") (PStr "A") (PInt 1965) (PStr "SF") (PBool false).

Definition dune_b : Book.t :=
  Book.mk 1 (PStr "Dune") (PStr "B") (PInt 1966) (PStr "SF") (PBool true).

Definition emma : Book.t :=
  Book.mk 2 (PStr "Emma") (PStr "Jane Austen") (PInt 1815) (PStr "Novel")
    (PBool true).

(** The catalogue of the ambiguous removal. *)
Definition two_dunes : Disk.state := mkState [dune_a; dune_b] None 2 [].

Definition three_books : Disk.state :=
  mkState [dune_a; dune_b; emma] None 3 [].

(** A record that is entered twice: two objects with the same values. *)
Definition emma_again : Book.t :=
  Book.mk 3 (PStr "Emma") (PStr "Jane Austen") (PInt 1815) (PStr "Novel")
    (PBool true).

Definition emma_twice : Disk.state :=
  mkState [emma; dune_a; emma_again] None 4 [].

(** Genres in the order SF, Fantasy, SF, Fantasy. *)
Definition of_genre (self : nat) (genre : string) : Book.t :=
  Book.mk self (PStr "T") (PStr "A") (PInt 2000) (PStr genre) (PBool false).

Definition four_genres : Disk.state :=
  mkState [of_genre 0 "SF"; of_genre 1 "Fantasy"; of_genre 2 "SF";
           of_genre 3 "Fantasy"] None 4 [].

Definition no_books : Disk.state := mkState [] None 0 [].

(** A record whose genre is a list, as a file can hold it. *)
Definition listed_genre : Disk.state :=
  mkState [Book.mk 0 (PStr "T") (PStr "A") (PInt 2000) (PList [PStr "SF"])
             (PBool false)] None 1 [].

(** A new manager on a disk. *)
Definition fresh (disk : option Disk.text) : Disk.state := mkState [] disk 0 [].

(** A mapping with the five keys and a year that is a text. *)
Definition text_year : pyval :=
  PDict [("title", PStr "Dune"); ("author", PStr "A");
         ("year", PStr "nineteen sixty-five"); ("genre", PStr "SF");
         ("read", PBool false)].

(** A mapping without the key [year]. *)
Definition no_year : pyval :=
  PDict [("title", PStr "Dune"); ("author", PStr "A"); ("genre", PStr "SF");
         ("read", PBool false)].

End Examples.

(* ================================================================== *)
(** * The prompts of [add_book] *)
(* ================================================================== *)

(** The two [while True] loops of [add_book], which ask for the year and
    for the read status.  They touch nothing of the manager: each is a
    function of what is typed, to the lines it prints and the value it
    ends with. *)
Module Prompts.
Local Open Scope string_scope.
Local Open Scope list_scope.
Local Open Scope Z_scope.

(** [str.isspace()] on one code point below 256: tab to carriage return,
    the four separators 28..31, the space, and the code points 133 and
    160. *)
Definition is_space (c : ascii) : bool :=
  let n := N_of_ascii c in
  (((9 <=? n) && (n <=? 13)) || ((28 <=? n) && (n <=? 32))
   || (n =? 133) || (n =? 160))%N.

Fixpoint lstrip (s : string) : string :=
  match s with
  | EmptyString => EmptyString
  | String c s' => if is_space c then lstrip s' else s
  end.

Fixpoint rstrip (s : string) : string :=
  match s with
  | EmptyString => EmptyString
  | String c s' =>
      match rstrip s' with
      | EmptyString => if is_space c then EmptyString else String c EmptyString
      | String _ _ as kept => String c kept
      end
  end.

(** [s.strip()] *)
Definition strip (s : string) : string := rstrip (lstrip s).

(** The lines the loops print. *)
Inductive complaint : Type :=
| InvalidYear     (* Please enter a valid year (positive integer). *)
| YesOrNo.        (* Please enter 'yes' or 'no'. *)

(** The loop for the year.  [inputs] holds what [int(input(...))] gives
    at each turn, [None] where it raises [ValueError]; when the input has
    run out, [input] raises [EOFError]. *)
Fixpoint ask_year (inputs : list (option Z)) : list complaint * result Z :=
  match inputs with
  | [] => ([], Raise EOFError)
  | typed :: inputs' =>
      let attempt :=
        rbind (match typed with
               | Some n => Ok n
               | None => Raise ValueError
               end) (fun year =>
        if year <? 0 then Raise ValueError else Ok year) in
      match attempt with
      | Ok year => ([], Ok year)
      | Raise e =>
          if is_ValueError e then
            let (out, r) := ask_year inputs' in (InvalidYear :: out, r)
          else ([], Raise e)
      end
  end.

(** The loop for the read status; [inputs] holds the lines typed. *)
Fixpoint ask_read (inputs : list string) : list complaint * result bool :=
  match inputs with
  | [] => ([], Raise EOFError)
  | line :: inputs' =>
      let read_input := strip (lower line) in
      if String.eqb read_input "yes" || String.eqb read_input "no" then
        ([], Ok (String.eqb read_input "yes"))
      else
        let (out, r) := ask_read inputs' in (YesOrNo :: out, r)
  end.

End Prompts.

(* ================================================================== *)
(** * More vocabulary *)
(* ================================================================== *)

Module More.
Import LibraryManager Spec.
Local Open Scope string_scope.
Local Open Scope list_scope.
Local Open Scope Z_scope.

(** The sum of the counts of a list of genre counts. *)
Definition total_count (items : list (pyval * Z)) : Z :=
  fold_right Z.add 0 (map snd items).

(** An answer the year loop turns down: no integer, or one below zero. *)
Definition refused_year (typed : option Z) : Prop :=
  match typed with
  | Some n => n < 0
  | None => True
  end.

(** An answer the loop of [search_books] turns down. *)
Definition refused_field (typed : option Z) : Prop :=
  match typed with
  | Some n => n <> 1 /\ n <> 2
  | None => True
  end.

(** What the read loop makes of a line. *)
Definition answer (line : string) : string := Prompts.strip (lower line).

Definition refused_answer (line : string) : Prop :=
  answer line <> "yes" /\ answer line <> "no".

(** A text that neither starts nor ends with a space. *)
Definition trimmed (s : string) : Prop :=
  Prompts.lstrip s = s /\ Prompts.rstrip s = s.

(** A text made of spaces only. *)
Fixpoint blank (s : string) : bool :=
  match s with
  | EmptyString => true
  | String c s' => Prompts.is_space c && blank s'
  end.

(** The mapping [to_dict] gives for the five values of [v]. *)
Definition five_items (v : pyval) : pyval :=
  match fields_in v with
  | (title, author, year, genre, read) =>
      PDict [("title", title); ("author", author); ("year", year);
             ("genre", genre); ("read", read)]
  end.

(** A record as [add_book] makes it. *)
Definition new_record (self : nat) (title author : string) (year : Z)
  (genre : string) (read : bool) : Book.t :=
  Book.init self (PStr title) (PStr author) (PInt year) (PStr genre)
    (PBool read).

(** What [search_books] prints for its results. *)
Definition search_report (results : list Book.t) : list message :=
  match results with
  | [] => [NoMatching]
  | _ :: _ => MatchingBooks :: numbered 1 results
  end.

(** More catalogues to run the methods on. *)
Definition numbered_title : Disk.state :=
  mkState [Examples.dune_a;
           Book.mk 1 (PInt 1984) (PStr "George Orwell") (PInt 1949)
             (PStr "Novel") (PBool true)] None 2 [].

(** A record of a file with a sixth key, and the file that holds it after
    a well-formed record. *)
Definition with_rating : pyval :=
  PDict [("rating", PInt 5); ("title", PStr "Dune"); ("author", PStr "B");
         ("year", PInt 1966); ("genre", PStr "SF"); ("read", PBool true)].

Definition rated_disk : Disk.state :=
  Examples.fresh
    (Some (Disk.Json (PList [Book.to_dict Examples.dune_a; with_rating]))).

End More.

(* ================================================================== *)
(** * [str.lower()] beyond code point 255 *)
(* ================================================================== *)

(** A [str] as the list of its code points, for the letters A-Z and a-z,
    the digits, the space and the Greek letters from alpha to omega, in
    capitals (913..929 and 931..937) and in small letters (945..969, with
    the final sigma at 962).  On other code points [lower] is [None]:
    they are not covered. *)
Module Unicode.
Local Open Scope N_scope.

Definition latin_capital (c : N) : bool := (65 <=? c) && (c <=? 90).

Definition latin_small (c : N) : bool := (97 <=? c) && (c <=? 122).

Definition greek_capital (c : N) : bool :=
  ((913 <=? c) && (c <=? 929)) || ((931 <=? c) && (c <=? 937)).

Definition greek_small (c : N) : bool := (945 <=? c) && (c <=? 969).

Definition cased (c : N) : bool :=
  latin_capital c || latin_small c || greek_capital c || greek_small c.

Definition covered (c : N) : bool :=
  cased c || ((48 <=? c) && (c <=? 57)) || (c =? 32).

Definition is_cased (neighbour : option N) : bool :=
  match neighbour with
  | Some c => cased c
  | None => false
  end.

(** The lower case of [c] between [before] and [after].  The capital
    sigma (931) becomes the final sigma (962) when a cased letter comes
    before it and none after it, the small sigma (963) otherwise; none of
    the covered code points is one that this test skips. *)
Definition lower_point (before : option N) (c : N) (after : option N) : N :=
  if c =? 931 then
    if is_cased before && negb (is_cased after) then 962 else 963
  else if latin_capital c || greek_capital c then c + 32
  else c.

Fixpoint lower_after (before : option N) (s : list N) : option (list N) :=
  match s with
  | [] => Some []
  | c :: s' =>
      if covered c then
        option_map (cons (lower_point before c (hd_error s')))
          (lower_after (Some c) s')
      else None
  end.

(** [s.lower()] *)
Definition lower (s : list N) : option (list N) := lower_after None s.

Fixpoint starts_with (sub s : list N) : bool :=
  match sub, s with
  | [], _ => true
  | _ :: _, [] => false
  | a :: sub', b :: s' => (a =? b) && starts_with sub' s'
  end.

(** [sub in s] *)
Fixpoint contains (sub s : list N) : bool :=
  starts_with sub s
  || match s with
     | [] => false
     | _ :: s' => contains sub s'
     end.

(** [[field for field in fields if search_term in field.lower()]] *)
Fixpoint matching (search_term : list N) (fields : list (list N))
  : option (list (list N)) :=
  match fields with
  | [] => Some []
  | field :: fields' =>
      match lower field, matching search_term fields' with
      | Some lowered, Some rest =>
          Some (if contains search_term lowered then field :: rest else rest)
      | _, _ => None
      end
  end.

(** The search of [search_books] on the texts of the searched field:
    the term is put in lower case, then the comprehension runs. *)
Definition search (typed : list N) (fields : list (list N))
  : option (list (list N)) :=
  match lower typed with
  | Some search_term => matching search_term fields
  | None => None
  end.

(** The code points of a text of the 8-bit model. *)
Definition points (s : string) : list N :=
  map N_of_ascii (list_ascii_of_string s).

(** A text of the 8-bit model with covered code points only. *)
Definition plain (s : string) : bool :=
  forallb covered (points s).



End Unicode.

(* ================================================================== *)
(** * Strings: [lower] and [in] *)
(* ================================================================== *)

Section Strings.
Local Open Scope string_scope.

Lemma prefix_iff (sub s : string) :
  String.prefix sub s = true <-> exists rest, s = sub ++ rest.
Proof.
  revert sub; induction s as [|c s IH]; intros [|a sub]; simpl.
  - split; [exists EmptyString; reflexivity | reflexivity].
  - split; [discriminate | intros [rest H]; discriminate].
  - split; [exists (String c s); reflexivity | reflexivity].
  - destruct (ascii_dec a c) as [->|Hne].
    + rewrite IH. split; intros [rest H]; exists rest.
      * now rewrite H.
      * now injection H.
    + split; [discriminate | intros [rest H]; injection H; congruence].
Qed.

Lemma str_in_iff (sub s : string) :
  str_in sub s = true <-> exists before rest, s = before ++ sub ++ rest.
Proof.
  induction s as [|c s IH].
  - change (str_in sub EmptyString) with (String.prefix sub EmptyString || false)%bool.
    rewrite orb_false_r, prefix_iff. split.
    + intros [rest H]. exists EmptyString, rest. exact H.
    + intros [[|b before] [rest H]]; simpl in H; [eauto | discriminate].
  - change (str_in sub (String c s))
      with (String.prefix sub (String c s) || str_in sub s)%bool.
    rewrite orb_true_iff, prefix_iff, IH. split.
    + intros [[rest H] | [before [rest H]]].
      * exists EmptyString, rest. exact H.
      * exists (String c before), rest. simpl. now rewrite H.
    + intros [[|b before] [rest H]]; simpl in H.
      * left. eauto.
      * right. injection H as _ H. eauto.
Qed.


Lemma lower_app (a b : string) : lower (a ++ b) = lower a ++ lower b.
Proof. induction a as [|c a IH]; simpl; [reflexivity | now rewrite IH]. Qed.

Lemma lower_length (s : string) : String.length (lower s) = String.length s.
Proof. induction s as [|c s IH]; simpl; [reflexivity | now rewrite IH]. Qed.

(** A text whose lower-case form splits in two splits the same way. *)
Lemma lower_split (s x y : string) :
  lower s = x ++ y ->
  exists s1 s2, s = s1 ++ s2 /\ lower s1 = x /\ lower s2 = y.
Proof.
  revert x; induction s as [|c s IH]; intros [|a x]; simpl; intro H.
  - exists EmptyString, EmptyString. now subst.
  - discriminate.
  - exists EmptyString, (String c s). now subst.
  - injection H as Ha H. destruct (IH _ H) as (s1 & s2 & -> & H1 & H2).
    exists (String c s1), s2. simpl. now subst.
Qed.

Lemma lower_char_idempotent (c : ascii) : lower_char (lower_char c) = lower_char c.
Proof.
  destruct c as [[] [] [] [] [] [] [] []]; reflexivity.
Qed.

Lemma lower_idempotent (s : string) : lower (lower s) = lower s.
Proof.
  induction s as [|c s IH]; simpl; [reflexivity|].
  now rewrite lower_char_idempotent, IH.
Qed.

(** On texts of code points below 256, where [lower] works one character
    at a time, the test of [search_books] decides occurrence up to
    case. *)
Lemma str_in_lower_iff (term s : string) :
  str_in (lower term) (lower s) = true <-> Spec.occurs_ignoring_case term s.
Proof.
  rewrite str_in_iff. unfold Spec.occurs_ignoring_case, Spec.same_ignoring_case.
  split.
  - intros (x & y & H).
    destruct (lower_split _ _ _ H) as (before & s2 & -> & <- & H2).
    destruct (lower_split _ _ _ H2) as (stretch & rest & -> & H3 & <-).
    now exists before, stretch, rest.
  - intros (before & stretch & rest & -> & H).
    exists (lower before), (lower rest). now rewrite !lower_app, H.
Qed.

End Strings.

(* ================================================================== *)
(** * [lower] and [in] on code points *)
(* ================================================================== *)

Section Code_points.

(** On a covered code point below 256 the lower case does not look at
    the neighbours, and is that of the 8-bit model. *)
Lemma lower_point_plain (before after : option N) (c : ascii) :
  Unicode.covered (N_of_ascii c) = true ->
  Unicode.lower_point before (N_of_ascii c) after = N_of_ascii (lower_char c).
Proof.
  destruct c as [[] [] [] [] [] [] [] []]; intro H;
    vm_compute in H; try discriminate H; reflexivity.
Qed.

Lemma lower_after_points (before : option N) (s : string) :
  Unicode.plain s = true ->
  Unicode.lower_after before (Unicode.points s)
  = Some (Unicode.points (lower s)).
Proof.
  revert before. induction s as [|c s IH]; intros before H.
  - reflexivity.
  - unfold Unicode.plain in H. cbn [Unicode.points list_ascii_of_string map forallb] in H.
    apply andb_prop in H. destruct H as [Hc Hs].
    cbn [Unicode.points list_ascii_of_string map Unicode.lower_after lower].
    rewrite Hc. fold (Unicode.points s). rewrite (IH _ Hs).
    cbn [option_map]. now rewrite (lower_point_plain _ _ _ Hc).
Qed.

(** On plain text [str.lower()] is the one of the 8-bit model. *)
Lemma lower_points (s : string) :
  Unicode.plain s = true ->
  Unicode.lower (Unicode.points s) = Some (Unicode.points (lower s)).
Proof. apply lower_after_points. Qed.

Lemma lower_plain (s : string) :
  Unicode.plain s = true -> Unicode.plain (lower s) = true.
Proof.
  unfold Unicode.plain, Unicode.points.
  induction s as [|c s IH]; [reflexivity|].
  cbn [list_ascii_of_string map forallb lower]. intro H.
  apply andb_prop in H. destruct H as [Hc Hs]. rewrite (IH Hs), andb_true_r.
  clear - Hc. destruct c as [[] [] [] [] [] [] [] []];
    vm_compute in Hc; try discriminate Hc; reflexivity.
Qed.

Lemma starts_with_points (sub s : string) :
  Unicode.starts_with (Unicode.points sub) (Unicode.points s)
  = String.prefix sub s.
Proof.
  revert s. induction sub as [|a sub IH]; intros [|b s]; try reflexivity.
  cbn [Unicode.points list_ascii_of_string map Unicode.starts_with String.prefix].
  fold (Unicode.points sub). fold (Unicode.points s). rewrite IH.
  destruct (ascii_dec a b) as [->|Hne].
  - now rewrite N.eqb_refl.
  - destruct (N.eqb_spec (N_of_ascii a) (N_of_ascii b)) as [E|_]; [|reflexivity].
    exfalso. apply Hne.
    now rewrite <- (ascii_N_embedding a), <- (ascii_N_embedding b), E.
Qed.

(** [in] on code points is [in] of the 8-bit model. *)
Lemma contains_points (sub s : string) :
  Unicode.contains (Unicode.points sub) (Unicode.points s) = str_in sub s.
Proof.
  induction s as [|c s IH].
  - change (Unicode.points EmptyString) with (@nil N).
    cbn [Unicode.contains str_in].
    change (@nil N) with (Unicode.points EmptyString).
    now rewrite starts_with_points.
  - change (Unicode.contains (Unicode.points sub) (Unicode.points (String c s)))
      with (Unicode.starts_with (Unicode.points sub) (Unicode.points (String c s))
            || Unicode.contains (Unicode.points sub) (Unicode.points s)).
    change (str_in sub (String c s))
      with (String.prefix sub (String c s) || str_in sub s).
    now rewrite starts_with_points, IH.
Qed.

(** On plain text the search on code points keeps the fields that the
    test of [search_books] in the 8-bit model keeps. *)
Lemma search_points (typed : string) (fields : list string) :
  Unicode.plain typed = true ->
  forallb Unicode.plain fields = true ->
  Unicode.search (Unicode.points typed) (map Unicode.points fields)
  = Some (map Unicode.points
            (filter (fun field => str_in (lower typed) (lower field)) fields)).
Proof.
  intros Htyped Hfields. unfold Unicode.search.
  rewrite (lower_points _ Htyped).
  induction fields as [|field fields IH]; [reflexivity|].
  cbn [forallb] in Hfields. apply andb_prop in Hfields.
  destruct Hfields as [Hfield Hrest].
  cbn [map Unicode.matching filter].
  rewrite (lower_points _ Hfield), (IH Hrest), contains_points.
  now destruct (str_in (lower typed) (lower field)).
Qed.

End Code_points.

(* ================================================================== *)
(** * Lists of books: comprehensions and [list.remove] *)
(* ================================================================== *)

Section Catalogue.
Import LibraryManager Spec.

(** A comprehension whose test never raises is a [filter]. *)
Lemma select_filter (test : Book.t -> result bool) (p : Book.t -> bool)
  (l : list Book.t) :
  (forall x, In x l -> test x = Ok (p x)) ->
  select test l = Ok (filter p l).
Proof.
  induction l as [|x l IH]; intro H; simpl; [reflexivity|].
  rewrite (H x (or_introl eq_refl)). simpl.
  rewrite IH by (intros y Hy; apply H; now right). simpl.
  reflexivity.
Qed.

Lemma without_cons (x y : Book.t) (l : list Book.t) :
  without x (y :: l)
  = if Nat.eqb (Book.oid y) (Book.oid x) then without x l else y :: without x l.
Proof.
  unfold without. simpl. now destruct (Nat.eqb (Book.oid y) (Book.oid x)).
Qed.

Lemma without_absent (x : Book.t) (l : list Book.t) :
  ~ In (Book.oid x) (map Book.oid l) -> without x l = l.
Proof.
  induction l as [|y l IH]; intro H; [reflexivity|].
  rewrite without_cons. simpl in H.
  destruct (Nat.eqb_spec (Book.oid y) (Book.oid x)) as [E|E].
  - exfalso. apply H. now left.
  - rewrite IH; [reflexivity | tauto].
Qed.

(** With distinct identities [l.remove(x)] leaves [l] without [x]. *)
Lemma remove_object_without (x : Book.t) (l : list Book.t) :
  distinct_objects l -> In x l ->
  remove_object x l = Some (without x l).
Proof.
  unfold distinct_objects.
  induction l as [|y l IH]; intros Hnd Hin; [contradiction|].
  simpl in Hnd. inversion Hnd as [|? ? Hy Hl]; subst.
  rewrite without_cons. simpl.
  destruct (Nat.eqb_spec (Book.oid y) (Book.oid x)) as [E|E].
  - f_equal. symmetry. apply without_absent. now rewrite <- E.
  - destruct Hin as [->|Hin]; [congruence|].
    now rewrite IH.
Qed.

Lemma without_length (x : Book.t) (l : list Book.t) :
  distinct_objects l -> In x l ->
  (List.length (without x l) + 1 = List.length l)%nat.
Proof.
  unfold distinct_objects.
  induction l as [|y l IH]; intros Hnd Hin; [contradiction|].
  simpl in Hnd. inversion Hnd as [|? ? Hy Hl]; subst.
  rewrite without_cons. 
  destruct (Nat.eqb_spec (Book.oid y) (Book.oid x)) as [E|E]; simpl.
  - rewrite without_absent by now rewrite <- E. lia.
  - destruct Hin as [->|Hin]; [congruence|].
    specialize (IH Hl Hin). lia.
Qed.

Lemma without_In (x b : Book.t) (l : list Book.t) :
  In b (without x l) <-> In b l /\ Book.oid b <> Book.oid x.
Proof.
  unfold without. rewrite filter_In, negb_true_iff, Nat.eqb_neq. tauto.
Qed.

(** The records with a text title: on them the test of [remove_book]
    does not raise. *)
Lemma title_test_total (title : string) (l : list Book.t) :
  all_well_typed l ->
  select (fun book =>
            rbind (lower_method (Book.title book)) (fun t =>
            Ok (String.eqb t (lower title)))) l
  = Ok (filter (title_is title) l).
Proof.
  intro Hwt. apply select_filter. intros x Hx.
  unfold all_well_typed in Hwt. rewrite Forall_forall in Hwt.
  specialize (Hwt x Hx). unfold Book.well_typed in Hwt. unfold title_is.
  destruct (Book.title x); try discriminate. reflexivity.
Qed.

Lemma field_test_total (choice : Z) (typed : string) (l : list Book.t) :
  all_well_typed l ->
  (if choice =? 1 then
     select (fun book =>
               rbind (lower_method (Book.title book)) (fun t =>
               Ok (str_in (lower typed) t))) l
   else
     select (fun book =>
               rbind (lower_method (Book.author book)) (fun a =>
               Ok (str_in (lower typed) a))) l)
  = Ok (filter (field_has choice typed) l).
Proof.
  intro Hwt. unfold all_well_typed in Hwt. rewrite Forall_forall in Hwt.
  unfold field_has, searched_field.
  destruct (choice =? 1); apply select_filter; intros x Hx;
    specialize (Hwt x Hx); unfold Book.well_typed in Hwt.
  - destruct (Book.title x); try discriminate. reflexivity.
  - destruct (Book.title x); try discriminate.
    destruct (Book.author x); try discriminate. reflexivity.
Qed.

End Catalogue.

(* ================================================================== *)
(** * Running the methods *)
(* ================================================================== *)

Section Runs.
Import LibraryManager Spec.

Variable text : Type.
Variable json_dump : pyval -> text.
Variable json_load : text -> result pyval.

Implicit Type s : state text.

Lemma printing_nil s : printing [] s = s.
Proof. destruct s. unfold printing. simpl. now rewrite app_nil_r. Qed.

Lemma printing_printing (out1 out2 : list message) s :
  printing out2 (printing out1 s) = printing (out1 ++ out2) s.
Proof. unfold printing. simpl. now rewrite app_assoc. Qed.

Lemma print_run (m : message) s : print m s = Done tt (printing [m] s).
Proof. reflexivity. Qed.

Lemma print_numbered_run (i : Z) (l : list Book.t) s :
  print_numbered i l s = Done tt (printing (numbered i l) s).
Proof.
  revert i s. induction l as [|b l IH]; intros i s; simpl.
  - unfold ret. now rewrite printing_nil.
  - unfold bind. rewrite print_run, IH, printing_printing. reflexivity.
Qed.

Lemma print_genres_run (items : list (pyval * Z)) s :
  print_genres items s = Done tt (printing (genre_lines items) s).
Proof.
  revert s. induction items as [|[g n] items IH]; intro s; simpl.
  - unfold ret. now rewrite printing_nil.
  - unfold bind. rewrite print_run, IH, printing_printing. reflexivity.
Qed.

(** [save_library] returns whatever the write does: it catches the
    [IOError]. *)
Lemma save_library_run (w : write_outcome text) s :
  save_library json_dump w s = Done tt (saved json_dump w s).
Proof. destruct w; reflexivity. Qed.

Lemma saved_books (w : write_outcome text) s :
  books (saved json_dump w s) = books s.
Proof. now destruct w. Qed.

Lemma saved_Written_in_sync s : in_sync json_dump (saved json_dump Written s).
Proof. reflexivity. Qed.

End Runs.

(* ================================================================== *)
(** * Removal *)
(* ================================================================== *)

Section Removal.
Import LibraryManager Spec.

Variable text : Type.
Variable json_dump : pyval -> text.

Implicit Type s : state text.

Lemma index_in_range {A} (l : list A) (j : Z) (a : A) :
  0 <= j -> nth_error l (Z.to_nat j) = Some a -> index l j = Ok a.
Proof.
  intros Hj Hnth. unfold index.
  assert (Hlt : (Z.to_nat j < List.length l)%nat)
    by (apply nth_error_Some; congruence).
  destruct (Z.ltb_spec j 0); [lia|].
  destruct (Z.leb_spec 0 j); [|lia].
  unfold len. destruct (Z.ltb_spec j (Z.of_nat (List.length l))); [|lia].
  simpl. now rewrite Hnth.
Qed.

(** A valid choice ends the loop: the chosen object leaves the catalogue,
    the catalogue is saved. *)
Lemma choose_and_remove_valid (found_books : list Book.t) (choice : Z)
  (inputs : list (option Z)) (w : write_outcome text) (chosen : Book.t) s :
  distinct_objects (books s) ->
  1 <= choice ->
  nth_error found_books (Z.to_nat (choice - 1)) = Some chosen ->
  In chosen (books s) ->
  choose_and_remove json_dump found_books (Some choice :: inputs) w s
  = Done tt (printing [BookRemoved]
               (saved json_dump w (with_books (without chosen (books s)) s))).
Proof.
  intros Hnd Hone Hnth Hin. simpl.
  assert (Hlen : choice <= len found_books).
  { assert ((Z.to_nat (choice - 1) < List.length found_books)%nat)
      by (apply nth_error_Some; congruence).
    unfold len. lia. }
  unfold bind at 1. unfold try_except, bind at 1. unfold ret at 1.
  destruct (Z.leb_spec 1 choice); [|lia].
  destruct (Z.leb_spec choice (len found_books)); [|lia].
  simpl. unfold bind at 1.
  rewrite (@index_in_range _ found_books (choice - 1) chosen) by (lia || assumption).
  simpl. unfold ret at 1. unfold bind at 1. unfold list_remove, bind at 1.
  unfold get_books at 1.
  rewrite (@remove_object_without chosen (books s) Hnd Hin).
  unfold set_books at 1. unfold bind at 1. rewrite save_library_run.
  unfold bind. rewrite print_run. reflexivity.
Qed.

(** Without a valid choice the loop runs until the input ends, and only
    prints. *)
Lemma choose_and_remove_no_choice (found_books : list Book.t)
  (inputs : list (option Z)) (w : write_outcome text) s :
  Forall (no_choice found_books) inputs ->
  exists out,
    choose_and_remove json_dump found_books inputs w s
    = Fail EOFError (printing out s).
Proof.
  intro H. revert s. induction H as [|typed inputs Hno _ IH]; intro s.
  - exists []. simpl. unfold raise. now rewrite printing_nil.
  - simpl. unfold bind at 1, try_except.
    destruct typed as [n|]; simpl in Hno.
    + unfold bind at 1, ret at 1.
      replace ((1 <=? n) && (n <=? len found_books)) with false
        by (symmetry; apply andb_false_iff;
            destruct Hno; [left; apply Z.leb_gt | right; apply Z.leb_gt]; lia).
      unfold bind at 1. rewrite print_run. unfold ret at 1.
      destruct (IH (printing [InvalidChoice] s)) as [out Hout].
      exists (InvalidChoice :: out). rewrite Hout, printing_printing.
      reflexivity.
    + destruct (IH (printing [InvalidNumber] s)) as [out Hout].
      exists (InvalidNumber :: out). rewrite printing_printing in Hout.
      exact Hout.
Qed.

(** [remove_book] by the number of candidates. *)
Lemma remove_book_cases (title : string) (inputs : list (option Z))
  (w : write_outcome text) s :
  all_well_typed (books s) ->
  let found_books := filter (title_is title) (books s) in
  let asked := printing [Header "Remove a Book"] s in
  remove_book json_dump title inputs w s
  = match found_books with
    | [] => Done tt (printing [NoBookWithTitle] asked)
    | [only] =>
        bind (list_remove only) (fun _ =>
        bind (save_library json_dump w) (fun _ =>
        print BookRemoved)) asked
    | _ :: _ :: _ =>
        choose_and_remove json_dump found_books inputs w
          (printing (MultipleFound :: numbered 1 found_books) asked)
    end.
Proof.
  intros Hwt found_books asked.
  unfold remove_book, bind at 1. unfold print_header.
  rewrite print_run. unfold bind at 1, get_books at 1.
  unfold bind at 1.
  change (books (printing [Header "Remove a Book"] s)) with (books s).
  rewrite title_test_total by assumption.
  fold found_books. fold asked.
  change (lift (Ok found_books) asked) with (Done found_books asked).
  cbv iota beta.
  destruct found_books as [|only [|second rest]].
  - apply print_run.
  - reflexivity.
  - assert (Hlen : (1 <? len (only :: second :: rest)) = true).
    { apply Z.ltb_lt. unfold len. simpl List.length. lia. }
    rewrite Hlen. unfold bind at 1. rewrite print_run.
    unfold bind at 1. rewrite print_numbered_run, printing_printing.
    reflexivity.
Qed.

(** C4. [remove_book] on a catalogue of Book Records with distinct
    identities.  The candidates are the records whose title is the given
    one when case is ignored, in catalogue order.  With no candidate the
    method reports it and changes neither catalogue nor file.  With one
    candidate that object leaves the catalogue and [save_library] runs.
    With several, the candidates are listed in catalogue order and the
    choice loop starts on an unchanged catalogue and file; as long as no
    valid choice comes, nothing is removed. *)
Theorem remove_book_trichotomy (title : string) (inputs : list (option Z))
  (w : write_outcome text) s :
  all_well_typed (books s) ->
  distinct_objects (books s) ->
  let found_books := filter (title_is title) (books s) in
  let asked := printing [Header "Remove a Book"] s in
  (forall b, In b found_books <->
             In b (books s)
             /\ same_ignoring_case (text_of (Book.title b)) title)
  /\ match found_books with
     | [] =>
         remove_book json_dump title inputs w s
         = Done tt (printing [NoBookWithTitle] asked)
     | [only] =>
         In only (books s)
         /\ remove_book json_dump title inputs w s
            = Done tt (printing [BookRemoved]
                         (saved json_dump w
                            (with_books (without only (books s)) asked)))
     | _ :: _ :: _ =>
         remove_book json_dump title inputs w s
         = choose_and_remove json_dump found_books inputs w
             (printing (MultipleFound :: numbered 1 found_books) asked)
         /\ (Forall (no_choice found_books) inputs ->
             exists out,
               remove_book json_dump title inputs w s
               = Fail EOFError (printing out s))
     end.
Proof.
  intros Hwt Hnd found_books asked. split.
  - intro b. unfold found_books, title_is, same_ignoring_case.
    now rewrite filter_In, String.eqb_eq.
  - rewrite remove_book_cases by assumption.
    fold found_books. fold asked. cbv zeta.
    destruct found_books as [|only [|second rest]] eqn:Hfound.
    + reflexivity.
    + assert (Hin : In only (books s)).
      { assert (H : In only found_books) by (rewrite Hfound; now left).
        unfold found_books in H. now apply filter_In in H. }
      split; [exact Hin|].
      unfold bind at 1, list_remove, bind at 1, get_books at 1.
      change (books asked) with (books s).
      rewrite (@remove_object_without only (books s) Hnd Hin).
      unfold set_books at 1. unfold bind at 1. rewrite save_library_run.
      rewrite print_run. reflexivity.
    + split; [reflexivity|].
      intro Hno.
      destruct (choose_and_remove_no_choice w
                  (printing (MultipleFound :: numbered 1 (only :: second :: rest)) asked)
                  Hno) as [out Hout].
      rewrite Hout. unfold asked. rewrite !printing_printing. eauto.
Qed.

(** C5. The candidate the user picks is removed as an object: on a
    catalogue of Book Records with distinct identities and two candidates
    or more, a valid choice takes the chosen object, and nothing else, out
    of the catalogue (the other candidates of the same title stay, each in
    its place), after the candidates were listed in catalogue order; the
    catalogue is then saved. *)
Theorem remove_book_removes_chosen_object (title : string) (choice : Z)
  (inputs : list (option Z)) (w : write_outcome text) (chosen : Book.t) s :
  all_well_typed (books s) ->
  distinct_objects (books s) ->
  let found_books := filter (title_is title) (books s) in
  (2 <= List.length found_books)%nat ->
  1 <= choice ->
  nth_error found_books (Z.to_nat (choice - 1)) = Some chosen ->
  remove_book json_dump title (Some choice :: inputs) w s
  = Done tt
      (printing [BookRemoved]
         (saved json_dump w
            (with_books (without chosen (books s))
               (printing (Header "Remove a Book" :: MultipleFound
                          :: numbered 1 found_books) s))))
  /\ In chosen (books s)
  /\ (forall b, In b (without chosen (books s)) <->
                In b (books s) /\ Book.oid b <> Book.oid chosen)
  /\ (List.length (without chosen (books s)) + 1 = List.length (books s))%nat.
Proof.
  intros Hwt Hnd found_books Htwo Hone Hnth.
  assert (Hin : In chosen (books s)).
  { apply nth_error_In in Hnth. unfold found_books in Hnth.
    now apply filter_In in Hnth. }
  split; [|split; [exact Hin|split]].
  - rewrite remove_book_cases by assumption. fold found_books. cbv zeta.
    destruct found_books as [|first [|second rest]] eqn:Hfound;
      [simpl in Htwo; lia | simpl in Htwo; lia |].
    rewrite !printing_printing.
    rewrite (@choose_and_remove_valid _ choice inputs w chosen); auto.
  - intro b. apply without_In.
  - now apply without_length.
Qed.

End Removal.

(* ================================================================== *)
(** * The file follows the catalogue *)
(* ================================================================== *)

Section Synchrony.
Import LibraryManager Spec.

Variable text : Type.
Variable json_dump : pyval -> text.

Implicit Type s : state text.

Ltac step_in H :=
  unfold bind, try_except, ret, raise, lift, print, list_remove, get_books,
    set_books in H; simpl in H.

(** When the choice loop returns, one object has left the catalogue and
    the file holds what remains. *)
Lemma choose_and_remove_done (found_books : list Book.t)
  (inputs : list (option Z)) s s' :
  choose_and_remove json_dump found_books inputs Written s = Done tt s' ->
  in_sync json_dump s'
  /\ exists chosen, remove_object chosen (books s) = Some (books s').
Proof.
  revert s. induction inputs as [|typed inputs IH]; intros s H.
  - discriminate H.
  - simpl in H. unfold bind at 1, try_except in H.
    destruct typed as [n|].
    + unfold bind at 1, ret at 1 in H.
      destruct ((1 <=? n) && (n <=? len found_books)).
      * unfold bind at 1 in H.
        destruct (index found_books (n - 1)) as [chosen|e]; simpl in H.
        -- unfold ret at 1, bind at 1, list_remove, bind at 1, get_books at 1 in H.
           destruct (remove_object chosen (books s)) as [bs'|] eqn:Hrm.
           ++ unfold set_books at 1, bind at 1 in H.
              rewrite save_library_run in H. step_in H.
              injection H as <-. split; [reflexivity|].
              exists chosen. exact Hrm.
           ++ step_in H. apply IH in H. exact H.
        -- unfold raise in H.
           destruct e; simpl in H; try discriminate H; now apply IH in H.
      * step_in H. apply IH in H. exact H.
    + step_in H. apply IH in H. exact H.
Qed.

Lemma remove_book_done (title : string) (inputs : list (option Z)) s s' :
  remove_book json_dump title inputs Written s = Done tt s' ->
  (books s' = books s /\ file s' = file s)
  \/ (in_sync json_dump s'
      /\ exists chosen, remove_object chosen (books s) = Some (books s')).
Proof.
  unfold remove_book, bind at 1. unfold print_header. rewrite print_run.
  unfold bind at 1, get_books at 1, bind at 1.
  change (books (printing [Header "Remove a Book"] s)) with (books s).
  destruct (select _ (books s)) as [found_books|e]; [|discriminate].
  change (lift (Ok found_books) ?st) with (Done found_books st).
  cbv iota beta.
  destruct found_books as [|first rest].
  - rewrite print_run. intro H. injection H as <-. left. now split.
  - destruct (1 <? len (first :: rest)).
    + unfold bind at 1. rewrite print_run. unfold bind at 1.
      rewrite print_numbered_run. intro H.
      apply choose_and_remove_done in H. right. exact H.
    + unfold bind at 1.
      change (lift (index (first :: rest) 0) ?st) with (Done first st).
      cbv iota beta.
      unfold bind at 1, list_remove, bind at 1, get_books at 1.
      change (books (printing [Header "Remove a Book"] s)) with (books s).
      destruct (remove_object first (books s)) as [bs'|] eqn:Hrm;
        [|discriminate].
      unfold set_books at 1, bind at 1. rewrite save_library_run, print_run.
      intro H. injection H as <-. right. split; [reflexivity|].
      exists first. exact Hrm.
Qed.

(** [add_book] always returns: the new record is last in the catalogue
    and [save_library] has run. *)
Lemma add_book_run (title author : string) (year : Z) (genre : string)
  (read : bool) (w : write_outcome text) s :
  add_book json_dump title author year genre read w s
  = Done tt
      (printing [BookAdded]
         (saved json_dump w
            (mkState
               (books s
                ++ [Book.init (next_oid s) (PStr title) (PStr author)
                      (PInt year) (PStr genre) (PBool read)])
               (file s) (S (next_oid s))
               (console s ++ [Header "Add a Book"])))).
Proof.
  unfold add_book, bind at 1, print_header. rewrite print_run.
  unfold bind at 1, new_object at 1. unfold bind at 1, get_books at 1.
  unfold bind at 1, set_books at 1. unfold bind at 1.
  rewrite save_library_run, print_run. reflexivity.
Qed.

(** C3. After an [add_book] or a [remove_book] whose write went well, the
    file holds exactly [json.dump] of the list of the [to_dict] of the
    books in memory, in their order: [add_book] returns with the new record
    last and the file in that state; [remove_book], when it returns, has
    either found no record of the title and touched nothing, or taken one
    object out and left the file in that state. *)
Theorem file_in_sync_after_add_and_remove :
  (forall (title author : string) (year : Z) (genre : string) (read : bool) s,
      exists s',
        add_book json_dump title author year genre read Written s = Done tt s'
        /\ books s'
           = books s
             ++ [Book.init (next_oid s) (PStr title) (PStr author) (PInt year)
                   (PStr genre) (PBool read)]
        /\ in_sync json_dump s')
  /\ (forall (title : string) (inputs : list (option Z)) s s',
         remove_book json_dump title inputs Written s = Done tt s' ->
         (books s' = books s /\ file s' = file s)
         \/ (in_sync json_dump s'
             /\ exists chosen,
                 remove_object chosen (books s) = Some (books s'))).
Proof.
  split.
  - intros. eexists. rewrite add_book_run. split; [reflexivity|].
    split; reflexivity.
  - intros title inputs s s'. apply remove_book_done.
Qed.

End Synchrony.

(* ================================================================== *)
(** * Deserialization and loading *)
(* ================================================================== *)

Section Deserialization.
Import LibraryManager Spec.
Local Open Scope string_scope.

(** [from_dict] on a mapping: the five values as they are, or the
    [KeyError] of a key that is absent. *)
Lemma from_dict_mapping (self : nat) (d : list (string * pyval)) :
  match Book.from_dict self (PDict d) with
  | Ok b =>
      has_five_keys d = true
      /\ Book.oid b = self
      /\ Book.fields b = fields_in (PDict d)
  | Raise e =>
      has_five_keys d = false
      /\ exists key, e = KeyError key /\ In key five_keys /\ dict_get d key = None
  end.
Proof.
  unfold Book.from_dict, getitem, has_five_keys, fields_in, five_keys.
  simpl forallb.
  destruct (dict_get d "title") eqn:H1; simpl;
    [|split; [reflexivity | exists "title"; simpl; tauto]].
  destruct (dict_get d "author") eqn:H2; simpl;
    [|split; [reflexivity | exists "author"; simpl; tauto]].
  destruct (dict_get d "year") eqn:H3; simpl;
    [|split; [reflexivity | exists "year"; simpl; tauto]].
  destruct (dict_get d "genre") eqn:H4; simpl;
    [|split; [reflexivity | exists "genre"; simpl; tauto]].
  destruct (dict_get d "read") eqn:H5; simpl;
    [|split; [reflexivity | exists "read"; simpl; tauto]].
  repeat split.
Qed.

(** [to_dict] gives a mapping with the five keys and the field values. *)
Lemma to_dict_complete (b : Book.t) :
  complete_mapping (Book.to_dict b) = true
  /\ fields_in (Book.to_dict b) = Book.fields b.
Proof. split; reflexivity. Qed.

(** C9, as the code has it.  On a mapping, [from_dict] fails exactly when
    one of the five keys is absent, and then with the [KeyError] of an
    absent key; otherwise it succeeds and the record holds the five values
    of the mapping as they are: no value is checked or converted, of
    whatever type it is. *)
Theorem from_dict_contract (self : nat) (d : list (string * pyval)) :
  match Book.from_dict self (PDict d) with
  | Ok b =>
      (forall key, In key five_keys -> dict_get d key <> None)
      /\ Book.oid b = self
      /\ Book.fields b = fields_in (PDict d)
  | Raise e =>
      exists key, e = KeyError key /\ In key five_keys /\ dict_get d key = None
  end.
Proof.
  pose proof (from_dict_mapping self d) as H.
  destruct (Book.from_dict self (PDict d)) as [b|e].
  - destruct H as (Hfive & Hoid & Hfields). split; [|now split].
    intros key Hkey. unfold has_five_keys in Hfive.
    rewrite forallb_forall in Hfive. specialize (Hfive key Hkey).
    destruct (dict_get d key); [discriminate | discriminate Hfive].
  - destruct H as (_ & H). exact H.
Qed.

End Deserialization.

Section Loading.
Import LibraryManager Spec.

Variable text : Type.
Variable json_dump : pyval -> text.
Variable json_load : text -> result pyval.

Implicit Type s : state text.

(** The comprehension of [load_library] on complete mappings: one new
    object for each, with the values of the mapping. *)
Lemma books_from_complete (items : list pyval) s :
  forallb complete_mapping items = true ->
  exists bs,
    books_from items s
    = Done bs (mkState (books s) (file s) (next_oid s + List.length items)
                 (console s))
    /\ map Book.fields bs = map fields_in items
    /\ map Book.oid bs = seq (next_oid s) (List.length items).
Proof.
  revert s. induction items as [|item items IH]; intros s H.
  - exists []. simpl. unfold ret. rewrite Nat.add_0_r. now destruct s.
  - simpl in H. apply andb_true_iff in H as [Hitem Hitems].
    destruct item as [| | | | |d]; try discriminate Hitem. simpl in Hitem.
    simpl books_from. unfold bind at 1, new_object at 1.
    unfold bind at 1.
    pose proof (from_dict_mapping (next_oid s) d) as Hfd.
    destruct (Book.from_dict (next_oid s) (PDict d)) as [b|e].
    + destruct Hfd as (_ & Hoid & Hfields).
      change (lift (Ok b) ?st) with (Done b st). cbv iota beta.
      unfold bind at 1.
      destruct (IH (mkState (books s) (file s) (S (next_oid s)) (console s))
                  Hitems) as (bs & Hrun & Hf & Ho).
      simpl in Hrun. rewrite Hrun. cbv iota beta. exists (b :: bs).
      unfold ret. simpl.
      rewrite Hoid, Hfields, Hf, Ho.
      replace (next_oid s + S (List.length items))%nat
        with (S (next_oid s + List.length items))%nat by lia.
      auto.
    + destruct Hfd as [Hfalse _]. congruence.
Qed.

(** On mappings of which one lacks a key, the comprehension raises
    [KeyError]. *)
Lemma books_from_incomplete (items : list pyval) s :
  forallb is_mapping items = true ->
  forallb complete_mapping items = false ->
  exists key n,
    books_from items s
    = Fail (KeyError key) (mkState (books s) (file s) n (console s)).
Proof.
  revert s. induction items as [|item items IH]; intros s Hmap Hinc.
  - discriminate Hinc.
  - simpl in Hmap. apply andb_true_iff in Hmap as [Hitem Hitems].
    destruct item as [| | | | |d]; try discriminate Hitem.
    simpl in Hinc.
    simpl books_from. unfold bind at 1, new_object at 1.
    unfold bind at 1.
    pose proof (from_dict_mapping (next_oid s) d) as Hfd.
    destruct (Book.from_dict (next_oid s) (PDict d)) as [b|e].
    + destruct Hfd as (Hfive & _). rewrite Hfive in Hinc. simpl in Hinc.
      change (lift (Ok b) ?st) with (Done b st). cbv iota beta.
      unfold bind at 1.
      destruct (IH (mkState (books s) (file s) (S (next_oid s)) (console s))
                  Hitems Hinc) as (key & n & Hrun).
      simpl in Hrun. rewrite Hrun. eauto.
    + destruct Hfd as (_ & key & -> & _).
      exists key, (S (next_oid s)). reflexivity.
Qed.

(** [load_library] on a file that parses to a list. *)
Lemma load_library_list (content : text) (items : list pyval) s :
  file s = Some content ->
  json_load content = Ok (PList items) ->
  load_library json_load s
  = match books_from items s with
    | Done new_books s1 =>
        Done tt (printing [Animation "Loading your library"]
                   (with_books new_books s1))
    | Fail e s1 =>
        if is_JSONDecodeError_or_KeyError e
        then Done tt (with_books [] (printing [LoadFailed] s1))
        else Fail e s1
    end.
Proof.
  intros Hfile Hparse.
  unfold load_library, bind at 1, get_file at 1. rewrite Hfile.
  unfold try_except, bind at 1. rewrite Hparse.
  change (lift (Ok (PList items)) s) with (Done (PList items) s).
  cbv iota beta.
  unfold bind at 1. change (lift (iterate (PList items)) s) with (Done items s).
  cbv iota beta. unfold bind at 1.
  destruct (books_from items s) as [new_books s1|e s1]; reflexivity.
Qed.

(** [load_library] on a file that parses to a list of mappings. *)
Lemma load_library_mappings (content : text) (items : list pyval) s :
  file s = Some content ->
  json_load content = Ok (PList items) ->
  forallb is_mapping items = true ->
  if forallb complete_mapping items then
    exists s',
      load_library json_load s = Done tt s'
      /\ map Book.fields (books s') = map fields_in items
      /\ map Book.oid (books s') = seq (next_oid s) (List.length items)
      /\ next_oid s' = (next_oid s + List.length items)%nat
      /\ file s' = file s
      /\ console s' = console s ++ [Animation "Loading your library"]
  else
    exists n,
      load_library json_load s
      = Done tt (mkState [] (file s) n (console s ++ [LoadFailed])).
Proof.
  intros Hfile Hparse Hmap.
  rewrite (@load_library_list content items s Hfile Hparse).
  destruct (forallb complete_mapping items) eqn:Hall.
  - destruct (@books_from_complete items s Hall) as (bs & Hrun & Hf & Ho).
    rewrite Hrun. eexists. split; [reflexivity|]. simpl. auto.
  - destruct (@books_from_incomplete items s Hmap Hall) as (key & n & Hrun).
    rewrite Hrun. exists n. reflexivity.
Qed.

(** C2, as the code has it.  [load_library] returns, with no exception,
    on a missing file, on a file on which [json.load] raises
    [JSONDecodeError] (text that is no JSON) and on a file that parses to
    a list of mappings.  A missing file gives the empty catalogue and no
    report; a [JSONDecodeError], or a mapping that lacks one of the five
    keys, gives the empty catalogue and the report of the failure; a list
    of mappings that all have the five keys is loaded whole, in file
    order, with the values as they are, whatever their types.  Nothing is
    said of the other exceptions of [open] and [json.load], nor of
    documents that are no list of mappings. *)
Theorem load_library_outcomes s :
  (file s = None ->
   load_library json_load s = Done tt (with_books [] s))
  /\ (forall content,
        file s = Some content ->
        json_load content = Raise JSONDecodeError ->
        load_library json_load s
        = Done tt (with_books [] (printing [LoadFailed] s)))
  /\ (forall content items,
        file s = Some content ->
        json_load content = Ok (PList items) ->
        forallb is_mapping items = true ->
        if forallb complete_mapping items then
          exists s',
            load_library json_load s = Done tt s'
            /\ map Book.fields (books s') = map fields_in items
            /\ file s' = file s
            /\ console s' = console s ++ [Animation "Loading your library"]
        else
          exists n,
            load_library json_load s
            = Done tt (mkState [] (file s) n (console s ++ [LoadFailed]))).
Proof.
  split; [|split].
  - intro Hfile. unfold load_library, bind, get_file. now rewrite Hfile.
  - intros content Hfile Hparse.
    unfold load_library, bind at 1, get_file at 1. rewrite Hfile.
    unfold try_except, bind at 1. now rewrite Hparse.
  - intros content items Hfile Hparse Hmap.
    pose proof (@load_library_mappings content items s Hfile Hparse Hmap) as H.
    destruct (forallb complete_mapping items); [|exact H].
    destruct H as (s' & Hrun & Hf & _ & _ & Hfile' & Hcon). eauto.
Qed.

Hypothesis json_load_dump : forall data, json_load (json_dump data) = Ok data.

(** C1. With a [json] that reads back what it writes, saving a catalogue
    and loading the file that results, in the same manager or in a new
    one, gives a catalogue with the same records: the same five values
    each, in the same order. *)
Theorem save_then_load_round_trip s (memory : list Book.t) (next : nat)
  (shown : list message) :
  let written := final_state (save_library json_dump Written s) in
  save_library json_dump Written s = Done tt written
  /\ exists loaded,
      load_library json_load (mkState memory (file written) next shown)
      = Done tt loaded
      /\ map Book.fields (books loaded) = map Book.fields (books s).
Proof.
  intro written. subst written. rewrite save_library_run.
  split; [reflexivity|].
  set (items := map Book.to_dict (books s)).
  assert (Hmap : forallb is_mapping items = true).
  { unfold items. apply forallb_forall. intros x Hx.
    apply in_map_iff in Hx as (b & <- & _). reflexivity. }
  assert (Hall : forallb complete_mapping items = true).
  { unfold items. apply forallb_forall. intros x Hx.
    apply in_map_iff in Hx as (b & <- & _). reflexivity. }
  pose proof (@load_library_mappings (json_dump (PList items)) items
                (mkState memory (Some (json_dump (PList items))) next shown)
                eq_refl (json_load_dump _) Hmap) as H.
  rewrite Hall in H. destruct H as (loaded & Hrun & Hf & _).
  exists loaded. split; [exact Hrun|].
  rewrite Hf. unfold items. rewrite map_map. apply map_ext.
  intro b. reflexivity.
Qed.

End Loading.

(* ================================================================== *)
(** * The queries *)
(* ================================================================== *)

Section Queries.
Import LibraryManager Spec.

Variable text : Type.

Implicit Type s : state text.

(** ** Methods that only print *)

Lemma only_prints_ret {A} (a : A) : only_prints (ret (text:=text) a).
Proof. intro s. exists []. simpl. now rewrite printing_nil. Qed.

Lemma only_prints_raise {A} (e : exn) : only_prints (raise (text:=text) (A:=A) e).
Proof. intro s. exists []. simpl. now rewrite printing_nil. Qed.

Lemma only_prints_lift {A} (r : result A) : only_prints (lift (text:=text) r).
Proof. destruct r; [apply only_prints_ret | apply only_prints_raise]. Qed.

Lemma only_prints_print (m : message) : only_prints (print (text:=text) m).
Proof. intro s. exists [m]. reflexivity. Qed.

Lemma only_prints_get_books : only_prints (get_books (text:=text)).
Proof. intro s. exists []. simpl. now rewrite printing_nil. Qed.

Lemma only_prints_bind {A B} (m : M text A) (k : A -> M text B) :
  only_prints m -> (forall a, only_prints (k a)) -> only_prints (bind m k).
Proof.
  intros Hm Hk s. unfold bind. destruct (Hm s) as [out1 H1].
  destruct (m s) as [a s1|e s1]; simpl in H1; subst s1.
  - destruct (Hk a (printing out1 s)) as [out2 H2].
    exists (out1 ++ out2). now rewrite H2, printing_printing.
  - exists out1. reflexivity.
Qed.

Lemma only_prints_print_numbered (i : Z) (l : list Book.t) :
  only_prints (print_numbered (text:=text) i l).
Proof.
  intro s. exists (numbered i l). now rewrite print_numbered_run.
Qed.

Lemma only_prints_print_genres (items : list (pyval * Z)) :
  only_prints (print_genres (text:=text) items).
Proof.
  intro s. exists (genre_lines items). now rewrite print_genres_run.
Qed.

Lemma only_prints_ask_field (inputs : list (option Z)) :
  only_prints (ask_field (text:=text) inputs).
Proof.
  induction inputs as [|[choice|] inputs IH]; simpl.
  - apply only_prints_raise.
  - destruct ((choice =? 1) || (choice =? 2)).
    + apply only_prints_ret.
    + apply only_prints_bind; [apply only_prints_print | intros _; exact IH].
  - apply only_prints_bind; [apply only_prints_print | intros _; exact IH].
Qed.

Create HintDb frame.

#[local] Hint Resolve only_prints_ret only_prints_raise only_prints_lift
  only_prints_print only_prints_get_books only_prints_print_numbered
  only_prints_print_genres only_prints_ask_field : frame.

Ltac frame :=
  repeat first
    [ apply only_prints_bind; [|intro]
    | solve [auto with frame]
    | match goal with
      | |- only_prints (match ?x with _ => _ end) => destruct x
      | |- only_prints (if ?c then _ else _) => destruct c
      end ].

Lemma only_prints_search_books (inputs : list (option Z)) (typed : string) :
  only_prints (search_books (text:=text) inputs typed).
Proof. unfold search_books, print_header. frame. Qed.

Lemma only_prints_display_all_books : only_prints (display_all_books (text:=text)).
Proof. unfold display_all_books, print_header. frame. Qed.

Lemma only_prints_display_statistics :
  only_prints (display_statistics (text:=text)).
Proof. unfold display_statistics, print_header. frame. Qed.

(** C10. [search_books], [display_all_books] and [display_statistics]
    leave the manager as it was but for the console: whatever was typed,
    and whether they return or raise, the catalogue in memory (the list
    and each record in it), the file and the next identity are those of
    before. *)
Theorem queries_only_print (inputs : list (option Z)) (typed : string) s :
  let unchanged (s' : state text) :=
    books s' = books s /\ file s' = file s /\ next_oid s' = next_oid s
    /\ exists out, console s' = console s ++ out in
  unchanged (final_state (search_books inputs typed s))
  /\ unchanged (final_state (display_all_books s))
  /\ unchanged (final_state (display_statistics s)).
Proof.
  intro unchanged.
  assert (H : forall m : M text unit, only_prints m -> unchanged (final_state (m s))).
  { intros m Hm. destruct (Hm s) as [out ->]. unfold unchanged. simpl. eauto. }
  split; [|split]; apply H.
  - apply only_prints_search_books.
  - apply only_prints_display_all_books.
  - apply only_prints_display_statistics.
Qed.

(** ** Search *)

(** The prompt for the field ends with 1 or 2, having only printed. *)
Lemma ask_field_done (inputs : list (option Z)) (choice : Z) s asked :
  ask_field inputs s = Done choice asked ->
  (choice = 1 \/ choice = 2) /\ exists out, asked = printing out s.
Proof.
  intro H. split.
  - revert s H. induction inputs as [|[c|] inputs IH]; intros s H; simpl in H.
    + discriminate H.
    + destruct (Z.eqb_spec c 1) as [E1|E1]; simpl in H.
      * injection H as <- _. now left.
      * destruct (Z.eqb_spec c 2) as [E2|E2]; simpl in H.
        -- injection H as <- _. now right.
        -- unfold bind in H. rewrite print_run in H. now apply IH in H.
    + unfold bind in H. rewrite print_run in H. now apply IH in H.
  - destruct (only_prints_ask_field inputs s) as [out Hout].
    rewrite H in Hout. simpl in Hout. eauto.
Qed.


End Queries.

(* ================================================================== *)
(** * Statistics *)
(* ================================================================== *)

Section Statistics.
Import LibraryManager Spec.

Variable text : Type.

Implicit Type s : state text.

Lemma count_genres_raises (bs : list Book.t) (genres : list (pyval * Z))
  (e : exn) :
  count_genres bs genres = Raise e -> e = TypeError.
Proof.
  revert genres. induction bs as [|b bs IH]; intros genres H; simpl in H.
  - discriminate H.
  - destruct (hashable (Book.genre b)); [eauto | congruence].
Qed.

(** [display_statistics], step by step. *)
Lemma display_statistics_run s :
  display_statistics s
  = if len (books s) =? 0 then
      Done tt (printing [Header "Library Statistics"; NoBooks] s)
    else
      match count_genres (books s) [] with
      | Ok genres =>
          Done tt
            (printing ([Header "Library Statistics";
                        TotalBooks (len (books s));
                        PercentageRead (percentage (books s));
                        BooksByGenre]
                       ++ genre_lines (sorted_desc genres)) s)
      | Raise e =>
          Fail e
            (printing [Header "Library Statistics";
                       TotalBooks (len (books s));
                       PercentageRead (percentage (books s))] s)
      end.
Proof.
  unfold display_statistics, print_header, bind at 1. rewrite print_run.
  unfold bind at 1, get_books at 1.
  change (books (printing [Header "Library Statistics"] s)) with (books s).
  destruct (len (books s) =? 0) eqn:Hzero.
  - rewrite print_run, printing_printing. reflexivity.
  - unfold bind at 1, truediv. rewrite Hzero.
    change (lift (Ok ?q) ?st) with (Done q st). cbv iota beta.
    unfold bind at 1. rewrite print_run. unfold bind at 1. rewrite print_run.
    unfold bind at 1.
    change (books (printing [Header "Library Statistics"] s)) with (books s).
    destruct (count_genres (books s) []) as [genres|e].
    + change (lift (Ok genres) ?st) with (Done genres st). cbv iota beta.
      unfold bind. rewrite print_run, print_genres_run, !printing_printing.
      reflexivity.
    + unfold lift, raise. rewrite !printing_printing. reflexivity.
Qed.

(** C7. [display_statistics] guards its division.  On the empty catalogue
    it returns after the line that says there is no book, with no total,
    no percentage and no division; on any catalogue it never raises
    [ZeroDivisionError]; on a catalogue that is not empty the total is not
    zero and the percentage shown is the count of read records divided by
    the total, times 100. *)
Theorem display_statistics_guards_division s :
  (books s = [] ->
   display_statistics s
   = Done tt (printing [Header "Library Statistics"; NoBooks] s))
  /\ (forall e s', display_statistics s = Fail e s' -> e <> ZeroDivisionError)
  /\ (books s <> [] ->
      len (books s) <> 0
      /\ exists out,
          console (final_state (display_statistics s))
          = console s
            ++ [Header "Library Statistics";
                TotalBooks (len (books s));
                PercentageRead
                  (inject_Z (read_count (books s))
                   / inject_Z (len (books s)) * 100)%Q]
            ++ out).
Proof.
  rewrite display_statistics_run. split; [|split].
  - intros ->. reflexivity.
  - intros e s'. destruct (len (books s) =? 0); [discriminate|].
    destruct (count_genres (books s) []) as [genres|e0] eqn:Hcount;
      [discriminate|].
    intro H. injection H as <- _.
    apply count_genres_raises in Hcount. now subst e0.
  - intro Hne.
    assert (Hlen : len (books s) <> 0).
    { unfold len. destruct (books s); [congruence | simpl; lia]. }
    split; [exact Hlen|].
    destruct (Z.eqb_spec (len (books s)) 0) as [E|_]; [contradiction|].
    destruct (count_genres (books s) []) as [genres|e0].
    + exists (BooksByGenre :: genre_lines (sorted_desc genres)). reflexivity.
    + exists []. reflexivity.
Qed.

End Statistics.

(* ================================================================== *)
(** * [sorted] with [reverse=True]: descending, a permutation, stable *)
(* ================================================================== *)

Section StableSort.
Import Spec.

Variable A : Type.

Implicit Types (x y : A * Z) (l : list (A * Z)).

Lemma insert_desc_perm x l : Permutation (insert_desc x l) (x :: l).
Proof.
  induction l as [|y l IH]; simpl; [reflexivity|].
  destruct (snd y <=? snd x); [reflexivity|].
  rewrite IH. apply perm_swap.
Qed.

Lemma sorted_desc_perm l : Permutation (sorted_desc l) l.
Proof.
  induction l as [|x l IH]; simpl; [reflexivity|].
  rewrite insert_desc_perm. now apply perm_skip.
Qed.

Lemma insert_desc_descending x l :
  descending l -> descending (insert_desc x l).
Proof.
  unfold descending. induction l as [|y l IH]; intro H; simpl.
  - constructor; constructor.
  - inversion H as [|? ? Hl Hy]; subst.
    destruct (Z.leb_spec (snd y) (snd x)) as [Hle|Hlt].
    + constructor; [exact H|]. constructor; [exact Hle|].
      rewrite Forall_forall in Hy |- *. intros z Hz.
      specialize (Hy z Hz). lia.
    + constructor; [now apply IH|].
      rewrite Forall_forall in Hy |- *. intros z Hz.
      apply (Permutation_in _ (insert_desc_perm x l)) in Hz.
      destruct Hz as [<-|Hz]; [lia | now apply Hy].
Qed.

Lemma sorted_desc_descending l : descending (sorted_desc l).
Proof.
  induction l as [|x l IH]; simpl; [constructor|].
  now apply insert_desc_descending.
Qed.

(** Stability: the items of one count keep their order. *)
Lemma insert_desc_stable (n : Z) x l :
  filter (fun y => snd y =? n) (insert_desc x l)
  = filter (fun y => snd y =? n) (x :: l).
Proof.
  induction l as [|y l IH]; [reflexivity|].
  simpl insert_desc. destruct (Z.leb_spec (snd y) (snd x)) as [Hle|Hlt].
  - reflexivity.
  - simpl filter at 1. rewrite IH. simpl.
    destruct (Z.eqb_spec (snd x) n) as [Ex|Ex];
      destruct (Z.eqb_spec (snd y) n) as [Ey|Ey]; try reflexivity.
    lia.
Qed.

Lemma sorted_desc_stable (n : Z) l :
  filter (fun y => snd y =? n) (sorted_desc l)
  = filter (fun y => snd y =? n) l.
Proof.
  induction l as [|x l IH]; [reflexivity|].
  simpl sorted_desc. rewrite insert_desc_stable. simpl. now rewrite IH.
Qed.

End StableSort.

Section Precedence.
Import Spec.

Variable A : Type.

Implicit Types (x y : A) (l : list A).

Lemma precedes_cons a x y l : precedes x y l -> precedes x y (a :: l).
Proof.
  intros (l1 & l2 & l3 & ->). now exists (a :: l1), l2, l3.
Qed.

Lemma precedes_head x y l : In y l -> precedes x y (x :: l).
Proof.
  intro H. apply in_split in H as (l2 & l3 & ->). now exists [], l2, l3.
Qed.

Lemma precedes_filter (p : A -> bool) x y l :
  precedes x y l -> p x = true -> p y = true -> precedes x y (filter p l).
Proof.
  intros (l1 & l2 & l3 & ->) Hx Hy.
  exists (filter p l1), (filter p l2), (filter p l3).
  rewrite filter_app. simpl. rewrite Hx, filter_app. simpl. now rewrite Hy.
Qed.

Lemma precedes_of_filter (p : A -> bool) x y l :
  precedes x y (filter p l) -> precedes x y l.
Proof.
  intros (l1 & l2 & l3 & H). revert l1 H.
  induction l as [|a l IH]; intros l1 H.
  - destruct l1; discriminate H.
  - simpl in H. destruct (p a).
    + destruct l1 as [|b l1]; simpl in H; injection H as -> H.
      * apply precedes_head.
        assert (Hy : In y (filter p l)) by (rewrite H; apply in_elt).
        now apply filter_In in Hy.
      * apply precedes_cons. now apply (IH l1).
    + apply precedes_cons. now apply (IH l1).
Qed.

Lemma precedes_snoc a x y l :
  precedes x y (l ++ [a]) -> precedes x y l \/ (In x l /\ y = a).
Proof.
  intros (l1 & l2 & l3 & H).
  destruct l3 as [|z l3] using rev_ind.
  - replace (l1 ++ x :: l2 ++ [y]) with ((l1 ++ x :: l2) ++ [y]) in H
      by (now rewrite <- app_assoc).
    apply app_inj_tail in H as [-> ->]. right. split; [apply in_elt | reflexivity].
  - replace (l1 ++ x :: l2 ++ y :: l3 ++ [z])
      with ((l1 ++ x :: l2 ++ y :: l3) ++ [z]) in H
      by (rewrite <- app_assoc; simpl; rewrite <- app_assoc; reflexivity).
    apply app_inj_tail in H as [-> _]. left. now exists l1, l2, l3.
Qed.

Lemma precedes_In x y l : precedes x y l -> In x l /\ In y l.
Proof.
  intros (l1 & l2 & l3 & ->). split.
  - apply in_elt.
  - apply in_or_app. right. right. apply in_elt.
Qed.

Lemma precedes_map {B} (f : A -> B) x y l :
  precedes x y l -> precedes (f x) (f y) (map f l).
Proof.
  intros (l1 & l2 & l3 & ->). exists (map f l1), (map f l2), (map f l3).
  rewrite map_app. simpl. now rewrite map_app.
Qed.

End Precedence.

(** Two items of one count are in the result in the order of the input. *)
Lemma sorted_desc_keeps_ties {A} (x y : A * Z) (l : list (A * Z)) :
  snd x = snd y ->
  Spec.precedes x y (sorted_desc l) -> Spec.precedes x y l.
Proof.
  intros Hxy H.
  apply (@precedes_of_filter _ (fun z => snd z =? snd x)).
  rewrite <- sorted_desc_stable.
  apply precedes_filter; [exact H | apply Z.eqb_refl |].
  rewrite Hxy. apply Z.eqb_refl.
Qed.

(* ================================================================== *)
(** * The counter of genres *)
(* ================================================================== *)

Section Counter.
Import LibraryManager Spec.

Implicit Types (d : list (pyval * Z)) (k g : pyval).

Lemma key_eqb_text k1 k2 :
  is_text k1 = true -> (key_eqb k1 k2 = true <-> k1 = k2).
Proof.
  destruct k1; try discriminate. intros _.
  destruct k2; simpl; try (split; [discriminate | congruence]).
  rewrite String.eqb_eq. split; congruence.
Qed.

Lemma key_eqb_text_false k1 k2 :
  is_text k1 = true -> k1 <> k2 -> key_eqb k1 k2 = false.
Proof.
  intros Ht Hne. destruct (key_eqb k1 k2) eqn:E; [|reflexivity].
  apply key_eqb_text in E; [contradiction | exact Ht].
Qed.

Lemma key_eqb_text_refl k : is_text k = true -> key_eqb k k = true.
Proof. intro Ht. now apply key_eqb_text. Qed.

Lemma counter_get_absent d k :
  text_keyed d -> ~ In k (map fst d) -> counter_get d k = 0.
Proof.
  induction 1 as [|[k' n] d Hk _ IH]; simpl; intro Hnot; [reflexivity|].
  rewrite key_eqb_text_false; [apply IH | exact Hk |]; tauto.
Qed.

Lemma counter_get_In d k n :
  text_keyed d -> NoDup (map fst d) ->
  (In (k, n) d <-> In k (map fst d) /\ counter_get d k = n).
Proof.
  induction 1 as [|[k' n'] d Hk Hd IH]; simpl; intro Hnd.
  - tauto.
  - inversion Hnd as [|? ? Hnot Hnd']; subst. simpl in Hk.
    destruct (key_eqb k' k) eqn:E.
    + apply key_eqb_text in E; [subst k'|exact Hk]. split.
      * intros [H|H]; [injection H as ->; tauto|].
        exfalso. apply Hnot. apply (in_map fst) in H. exact H.
      * intros [_ ->]. now left.
    + assert (k' <> k) by (intros ->; now rewrite key_eqb_text_refl in E).
      rewrite (IH Hnd'). split.
      * intros [Heq|H']; [congruence | tauto].
      * intros [[Heq|H'] Hget]; [congruence | tauto].
Qed.

Lemma counter_set_old d k n :
  text_keyed d -> In k (map fst d) ->
  map fst (counter_set d k n) = map fst d.
Proof.
  induction 1 as [|[k' n'] d Hk _ IH]; simpl; intro Hin; [contradiction|].
  destruct (key_eqb k' k) eqn:E; [reflexivity|].
  simpl. f_equal. apply IH. destruct Hin as [->|Hin]; [|exact Hin].
  now rewrite key_eqb_text_refl in E.
Qed.

Lemma counter_set_new d k n :
  text_keyed d -> ~ In k (map fst d) -> counter_set d k n = d ++ [(k, n)].
Proof.
  induction 1 as [|[k' n'] d Hk _ IH]; simpl; intro Hnot; [reflexivity|].
  rewrite key_eqb_text_false; [|exact Hk|tauto].
  f_equal. apply IH. tauto.
Qed.

Lemma counter_set_text_keyed d k n :
  text_keyed d -> is_text k = true -> text_keyed (counter_set d k n).
Proof.
  induction 1 as [|[k' n'] d Hk Hd IH]; simpl; intro Ht.
  - constructor; [exact Ht | constructor].
  - destruct (key_eqb k' k); constructor; auto. now apply IH.
Qed.

Lemma counter_get_set d k n k0 :
  text_keyed d -> is_text k = true ->
  counter_get (counter_set d k n) k0
  = if key_eqb k k0 then n else counter_get d k0.
Proof.
  intros Hd Ht. induction Hd as [|[k' n'] d Hk _ IH]; simpl.
  - reflexivity.
  - simpl in Hk. destruct (key_eqb k' k) eqn:E; simpl.
    + apply key_eqb_text in E; [subst k'|exact Hk].
      now destruct (key_eqb k k0).
    + destruct (key_eqb k' k0) eqn:E0; [|exact IH].
      apply key_eqb_text in E0; [subst k0|exact Hk].
      rewrite key_eqb_text_false; [reflexivity | exact Ht |].
      intros ->. now rewrite key_eqb_text_refl in E.
Qed.

Lemma In_dec_key k (ks : list pyval) :
  Forall (fun k' => is_text k' = true) ks -> In k ks \/ ~ In k ks.
Proof.
  induction 1 as [|k' ks Hk _ IH]; [now right|].
  destruct (key_eqb k' k) eqn:E.
  - apply key_eqb_text in E; [subst; left; now left | exact Hk].
  - destruct IH as [IH|IH]; [left; now right|].
    right. intros [->|H]; [|contradiction].
    now rewrite key_eqb_text_refl in E.
Qed.

Lemma text_keyed_keys d :
  text_keyed d -> Forall (fun k' => is_text k' = true) (map fst d).
Proof. unfold text_keyed. now rewrite Forall_map. Qed.

Lemma counter_set_keys d k n :
  text_keyed d -> is_text k = true ->
  (In k (map fst d) /\ map fst (counter_set d k n) = map fst d)
  \/ (~ In k (map fst d) /\ map fst (counter_set d k n) = map fst d ++ [k]).
Proof.
  intros Hd Ht.
  destruct (In_dec_key k (text_keyed_keys Hd)) as [Hin|Hnot].
  - left. split; [exact Hin | now apply counter_set_old].
  - right. split; [exact Hnot|].
    rewrite counter_set_new by assumption. rewrite map_app. reflexivity.
Qed.

Lemma tally_cons g (gs : list pyval) d :
  tally (g :: gs) d = tally gs (counter_set d g (counter_get d g + 1)).
Proof. reflexivity. Qed.

Lemma tally_text_keyed (gs : list pyval) d :
  all_text gs -> text_keyed d -> text_keyed (tally gs d).
Proof.
  intro Hgs. revert d. induction Hgs as [|g gs Hg _ IH]; intros d Hd.
  - exact Hd.
  - rewrite tally_cons. apply IH. now apply counter_set_text_keyed.
Qed.

Lemma count_in_cons k g (gs : list pyval) :
  count_in k (g :: gs) = (if key_eqb g k then 1 else 0) + count_in k gs.
Proof.
  unfold count_in, len. simpl. destruct (key_eqb g k); simpl List.length; lia.
Qed.

Lemma tally_counts (gs : list pyval) d k :
  all_text gs -> text_keyed d ->
  counter_get (tally gs d) k = counter_get d k + count_in k gs.
Proof.
  intro Hgs. revert d. induction Hgs as [|g gs Hg _ IH]; intros d Hd.
  - unfold count_in, len. simpl. lia.
  - rewrite tally_cons, IH by now apply counter_set_text_keyed.
    rewrite counter_get_set, count_in_cons by assumption.
    destruct (key_eqb g k) eqn:E; [|lia].
    apply key_eqb_text in E; [subst; lia | exact Hg].
Qed.

Lemma tally_keys_In (gs : list pyval) d k :
  all_text gs -> text_keyed d ->
  (In k (map fst (tally gs d)) <-> In k (map fst d) \/ In k gs).
Proof.
  intro Hgs. revert d. induction Hgs as [|g gs Hg _ IH]; intros d Hd.
  - simpl. tauto.
  - rewrite tally_cons, IH by now apply counter_set_text_keyed.
    destruct (@counter_set_keys d g (counter_get d g + 1) Hd Hg)
      as [[Hin ->]|[Hnot ->]]; simpl.
    + split; [tauto|]. intros [H|[<-|H]]; tauto.
    + rewrite in_app_iff. simpl. tauto.
Qed.

Lemma tally_keys_NoDup (gs : list pyval) d :
  all_text gs -> text_keyed d ->
  NoDup (map fst d) -> NoDup (map fst (tally gs d)).
Proof.
  intro Hgs. revert d. induction Hgs as [|g gs Hg _ IH]; intros d Hd Hnd.
  - exact Hnd.
  - rewrite tally_cons. apply IH; [now apply counter_set_text_keyed|].
    destruct (@counter_set_keys d g (counter_get d g + 1) Hd Hg)
      as [[Hin ->]|[Hnot ->]]; [exact Hnd|].
    apply NoDup_app; [exact Hnd | repeat constructor; simpl; tauto |].
    intros x Hx [<-|[]]. contradiction.
Qed.

(** The keys of the counter are in the order in which they were first
    seen. *)
Lemma tally_keys_order (gs : list pyval) d k1 k2 :
  all_text gs -> text_keyed d ->
  precedes k1 k2 (map fst (tally gs d)) ->
  precedes k1 k2 (map fst d)
  \/ (In k1 (map fst d) /\ ~ In k2 (map fst d))
  \/ (~ In k1 (map fst d) /\ ~ In k2 (map fst d)
      /\ first_seen_before k1 k2 gs).
Proof.
  intro Hgs. revert d. induction Hgs as [|g gs Hg _ IH]; intros d Hd H.
  - now left.
  - rewrite tally_cons in H.
    apply IH in H; [|now apply counter_set_text_keyed].
    assert (Hg' : In g (map fst (counter_set d g (counter_get d g + 1)))).
    { destruct (@counter_set_keys d g (counter_get d g + 1) Hd Hg)
        as [[Hin ->]|[Hnot ->]]; [exact Hin|].
      apply in_or_app. right. now left. }
    assert (Hsub : forall k, In k (map fst d) ->
                     In k (map fst (counter_set d g (counter_get d g + 1)))).
    { intros k Hk.
      destruct (@counter_set_keys d g (counter_get d g + 1) Hd Hg)
        as [[Hin ->]|[Hnot ->]]; [exact Hk|].
      apply in_or_app. now left. }
    destruct H as [H|[[H1 H2]|(H1 & H2 & l1 & l2 & -> & Hl1 & Hl2)]].
    + destruct (@counter_set_keys d g (counter_get d g + 1) Hd Hg)
        as [[Hin Hkeys]|[Hnot Hkeys]]; rewrite Hkeys in H.
      * now left.
      * apply precedes_snoc in H as [H|[H ->]]; [now left|].
        right. left. now split.
    + destruct (@counter_set_keys d g (counter_get d g + 1) Hd Hg)
        as [[Hin Hkeys]|[Hnot Hkeys]]; rewrite Hkeys in H1.
      * right. left. split; [exact H1 | auto].
      * apply in_app_or in H1 as [H1|[<-|[]]].
        -- right. left. split; [exact H1 | auto].
        -- right. right. split; [exact Hnot|]. split; [auto|].
           exists [], gs. repeat split; auto.
    + right. right. split; [auto|]. split; [auto|].
      exists (g :: l1), l2. split; [reflexivity|].
      split; intros [<-|Hin]; auto.
Qed.

End Counter.

Section GenreCounts.
Import LibraryManager Spec.

Variable text : Type.

Implicit Type s : state text.

Lemma well_typed_genres (bs : list Book.t) :
  all_well_typed bs -> all_text (map Book.genre bs).
Proof.
  unfold all_well_typed, all_text. rewrite Forall_map.
  apply Forall_impl. intros b H. unfold Book.well_typed in H.
  destruct (Book.title b), (Book.author b), (Book.year b), (Book.genre b);
    try discriminate H; reflexivity.
Qed.

Lemma count_genres_tally (bs : list Book.t) (acc : list (pyval * Z)) :
  all_text (map Book.genre bs) ->
  count_genres bs acc = Ok (tally (map Book.genre bs) acc).
Proof.
  revert acc. induction bs as [|b bs IH]; intros acc H; [reflexivity|].
  simpl in H. inversion H as [|? ? Hb Hbs]; subst. simpl count_genres.
  destruct (Book.genre b) eqn:Hg; try discriminate Hb. simpl hashable.
  cbv iota. rewrite IH by assumption. simpl map. rewrite tally_cons.
  now rewrite Hg.
Qed.

Lemma occurrences_count_in (k : pyval) (bs : list Book.t) :
  occurrences k bs = count_in k (map Book.genre bs).
Proof.
  unfold occurrences, count_in, len. f_equal.
  induction bs as [|b bs IH]; [reflexivity|]. simpl.
  destruct (key_eqb (Book.genre b) k); simpl; lia.
Qed.

Lemma count_in_positive (k : pyval) (gs : list pyval) :
  all_text gs -> (0 < count_in k gs <-> In k gs).
Proof.
  induction 1 as [|g gs Hg _ IH].
  - unfold count_in, len. simpl. split; [lia | tauto].
  - rewrite count_in_cons. simpl.
    assert (0 <= count_in k gs) by (unfold count_in, len; lia).
    destruct (key_eqb g k) eqn:E.
    + apply key_eqb_text in E; [subst | assumption]. split; [tauto | lia].
    + split.
      * intro Hpos. right. apply IH. lia.
      * intros [->|Hin]; [|apply IH in Hin; lia].
        now rewrite key_eqb_text_refl in E.
Qed.

(** C6. The genre lines of [display_statistics] on a catalogue of Book
    Records that is not empty: the method returns; each genre has one
    line, with the number of records of that genre; the lines go by
    descending count; and of two genres with the same count the one that
    turns up first in the catalogue comes first. *)
Theorem genre_counts_order s :
  books s <> [] ->
  all_well_typed (books s) ->
  exists genre_counts,
    display_statistics s
    = Done tt
        (printing ([Header "Library Statistics";
                    TotalBooks (len (books s));
                    PercentageRead (percentage (books s));
                    BooksByGenre]
                   ++ genre_lines genre_counts) s)
    /\ (forall g n,
           In (g, n) genre_counts <-> n = occurrences g (books s) /\ 0 < n)
    /\ NoDup (map fst genre_counts)
    /\ descending genre_counts
    /\ (forall g1 g2 n,
           precedes (g1, n) (g2, n) genre_counts ->
           first_seen_before g1 g2 (map Book.genre (books s))).
Proof.
  intros Hne Hwt.
  pose proof (well_typed_genres Hwt) as Hgs.
  set (gs := map Book.genre (books s)) in *.
  assert (Hacc : text_keyed []) by constructor.
  pose proof (tally_text_keyed Hgs Hacc) as Hr.
  pose proof (@tally_keys_NoDup gs [] Hgs Hacc (NoDup_nil _)) as Hnd.
  set (r := tally gs []) in *.
  exists (sorted_desc r). split; [|split; [|split; [|split]]].
  - rewrite display_statistics_run.
    destruct (Z.eqb_spec (len (books s)) 0) as [E|_].
    + exfalso. apply Hne. unfold len in E. destruct (books s); [reflexivity|].
      simpl in E. lia.
    + now rewrite (count_genres_tally (books s) [] Hgs).
  - intros g n.
    assert (Hperm : In (g, n) (sorted_desc r) <-> In (g, n) r).
    { split; apply Permutation_in;
        [apply sorted_desc_perm | symmetry; apply sorted_desc_perm]. }
    rewrite Hperm, (counter_get_In g n Hr Hnd).
    unfold r. rewrite tally_keys_In, tally_counts by assumption.
    rewrite occurrences_count_in. fold gs. simpl.
    rewrite <- (count_in_positive g Hgs). split.
    + intros [[[]|Hpos] <-]. split; [reflexivity | exact Hpos].
    + intros [-> Hpos]. split; [now right | reflexivity].
  - apply (Permutation_NoDup (l := map fst r)); [|exact Hnd].
    apply Permutation_map. symmetry. apply sorted_desc_perm.
  - apply sorted_desc_descending.
  - intros g1 g2 n H.
    apply sorted_desc_keeps_ties in H; [|reflexivity].
    apply (precedes_map fst) in H. simpl in H.
    apply (@tally_keys_order gs [] g1 g2 Hgs Hacc) in H.
    destruct H as [H|[[[] _]|(_ & _ & H)]]; [|exact H].
    destruct H as (l1 & l2 & l3 & H). destruct l1; discriminate H.
Qed.

End GenreCounts.

(* ================================================================== *)
(** * The identities of the catalogue stay distinct *)
(* ================================================================== *)

Section Identities.
Import LibraryManager Spec.

Variable text : Type.
Variable json_dump : pyval -> text.
Variable json_load : text -> result pyval.

Implicit Type s : state text.

Lemma from_dict_oid (self : nat) (data : pyval) (b : Book.t) :
  Book.from_dict self data = Ok b -> Book.oid b = self.
Proof.
  destruct data as [| | | | |d]; try discriminate.
  pose proof (from_dict_mapping self d) as H.
  destruct (Book.from_dict self (PDict d)); [|discriminate].
  intro E. injection E as <-. tauto.
Qed.

(** The objects of a comprehension get the next identities, in order;
    the catalogue is not touched meanwhile. *)
Lemma books_from_identities (items : list pyval) s :
  match books_from items s with
  | Done bs s' =>
      books s' = books s
      /\ next_oid s' = (next_oid s + List.length items)%nat
      /\ map Book.oid bs = seq (next_oid s) (List.length items)
  | Fail _ s' => books s' = books s /\ (next_oid s <= next_oid s')%nat
  end.
Proof.
  revert s. induction items as [|item items IH]; intro s.
  - simpl. auto.
  - simpl books_from. unfold bind at 1, new_object at 1. unfold bind at 1.
    destruct (Book.from_dict (next_oid s) item) as [b|e] eqn:Hfd.
    + apply from_dict_oid in Hfd.
      change (lift (Ok b) ?st) with (Done b st). cbv iota beta.
      unfold bind at 1.
      specialize (IH (mkState (books s) (file s) (S (next_oid s)) (console s))).
      destruct (books_from items _) as [bs s'|e s']; simpl in IH |- *.
      * destruct IH as (Hb & Hn & Ho). rewrite Hb, Hn, Ho, Hfd.
        repeat split. lia.
      * destruct IH as (Hb & Hn). split; [exact Hb | lia].
    + simpl. split; [reflexivity | lia].
Qed.

Lemma well_formed_seq (bs : list Book.t) (file' : option text) (n : nat)
  (out : list message) (first : nat) :
  map Book.oid bs = seq first (List.length bs) ->
  n = (first + List.length bs)%nat ->
  well_formed (mkState bs file' n out).
Proof.
  intros Hoid ->. split; simpl.
  - unfold distinct_objects. rewrite Hoid. apply seq_NoDup.
  - rewrite Forall_forall. intros b Hb.
    apply (in_map Book.oid) in Hb. rewrite Hoid in Hb.
    apply in_seq in Hb. lia.
Qed.

Lemma well_formed_empty (file' : option text) (n : nat) (out : list message) :
  well_formed (mkState [] file' n out).
Proof. split; constructor. Qed.

Lemma well_formed_weaken s s' :
  well_formed s -> books s' = books s -> (next_oid s <= next_oid s')%nat ->
  well_formed s'.
Proof.
  intros [Hnd Hlt] Hb Hn. split; rewrite Hb; [exact Hnd|].
  eapply Forall_impl; [|exact Hlt]. simpl. intros b H. lia.
Qed.

(** [load_library] leaves distinct identities. *)
Lemma load_library_well_formed s :
  well_formed s -> well_formed (final_state (load_library json_load s)).
Proof.
  intro Hwf. unfold load_library, bind at 1, get_file at 1.
  destruct (file s) as [content|] eqn:Hfile; [|apply well_formed_empty].
  unfold try_except, bind at 1.
  destruct (json_load content) as [data|e];
    [|unfold lift, raise;
      destruct (is_JSONDecodeError_or_KeyError e);
      [apply well_formed_empty | exact Hwf]].
  change (lift (Ok data) s) with (Done data s). cbv iota beta.
  unfold bind at 1.
  destruct (iterate data) as [items|e] eqn:Hiter.
  - change (lift (Ok items) s) with (Done items s). cbv iota beta.
    unfold bind at 1.
    pose proof (books_from_identities items s) as H.
    destruct (books_from items s) as [bs s'|e s'].
    + destruct H as (_ & Hn & Ho). simpl.
      assert (Hlen : List.length bs = List.length items).
      { rewrite <- (length_map Book.oid bs), Ho. apply length_seq. }
      apply (@well_formed_seq _ _ _ _ (next_oid s)); [now rewrite Hlen | lia].
    + destruct H as (Hb & Hn).
      destruct (is_JSONDecodeError_or_KeyError e); simpl.
      * apply well_formed_empty.
      * now apply (@well_formed_weaken s s' Hwf).
  - assert (e = TypeError) by (destruct data; simpl in Hiter; congruence).
    subst e. exact Hwf.
Qed.

(** A new manager has distinct identities. *)
Lemma init_well_formed (disk : option text) :
  well_formed (final_state (init json_load disk)).
Proof. apply load_library_well_formed. apply well_formed_empty. Qed.

(** [add_book] gives the new record an identity of its own. *)
Lemma add_book_well_formed (title author : string) (year : Z)
  (genre : string) (read : bool) (w : write_outcome text) s :
  well_formed s ->
  well_formed
    (final_state (add_book json_dump title author year genre read w s)).
Proof.
  intros [Hnd Hlt]. rewrite add_book_run.
  destruct w; (split; simpl;
    [ unfold distinct_objects; rewrite map_app; simpl;
      apply NoDup_app; [exact Hnd | repeat constructor; simpl; tauto |];
      intros x Hx [<-|[]]; apply in_map_iff in Hx as (b & Hb & Hin);
      rewrite Forall_forall in Hlt; specialize (Hlt b Hin); lia
    | apply Forall_app; split;
      [ eapply Forall_impl; [|exact Hlt]; simpl; intros b H; lia
      | repeat constructor ] ]).
Qed.

Lemma remove_object_sub (x : Book.t) (l l' : list Book.t) :
  remove_object x l = Some l' ->
  NoDup (map Book.oid l) ->
  NoDup (map Book.oid l') /\ incl l' l.
Proof.
  revert l'. induction l as [|y l IH]; intros l' H Hnd; simpl in H.
  - discriminate H.
  - simpl in Hnd. inversion Hnd as [|? ? Hy Hl]; subst.
    destruct (Nat.eqb (Book.oid y) (Book.oid x)).
    + injection H as <-. split; [exact Hl | now apply incl_tl].
    + destruct (remove_object x l) as [r|]; [|discriminate H].
      simpl in H. injection H as <-.
      destruct (IH r eq_refl Hl) as [Hr Hincl]. split.
      * simpl. constructor; [|exact Hr]. intro Hin. apply Hy.
        apply in_map_iff in Hin as (b & Hb & Hin). apply in_map_iff.
        exists b. split; [exact Hb | now apply Hincl].
      * intros b [<-|Hb]; [now left | right; now apply Hincl].
Qed.

(** Whatever is typed and however the write goes, the choice loop leaves
    the catalogue as it was or without one object. *)
Lemma choose_and_remove_final (found_books : list Book.t)
  (inputs : list (option Z)) (w : write_outcome text) s r :
  choose_and_remove json_dump found_books inputs w s = r ->
  shrunk s (final_state r).
Proof.
  revert s. induction inputs as [|typed inputs IH]; intros s H.
  - subst r. split; simpl; auto.
  - simpl in H. unfold bind at 1, try_except in H.
    destruct typed as [n|].
    + unfold bind at 1, ret at 1 in H.
      destruct ((1 <=? n) && (n <=? len found_books)).
      * unfold bind at 1 in H.
        destruct (index found_books (n - 1)) as [chosen|e]; simpl in H.
        -- unfold ret at 1, bind at 1, list_remove, bind at 1, get_books at 1 in H.
           destruct (remove_object chosen (books s)) as [bs'|] eqn:Hrm.
           ++ unfold set_books at 1, bind at 1 in H.
              rewrite save_library_run in H.
              unfold bind, ret in H. rewrite print_run in H. subst r.
              split; simpl; rewrite ?saved_books; destruct w; simpl; eauto.
           ++ unfold raise in H. simpl in H. now apply IH in H.
        -- unfold raise in H.
           destruct e; simpl in H;
             try (subst r; split; simpl; now auto); now apply IH in H.
      * simpl in H. now apply IH in H.
    + unfold raise in H. simpl in H. now apply IH in H.
Qed.

(** [remove_book] leaves the catalogue as it was or without one object. *)
Lemma remove_book_final (title : string) (inputs : list (option Z))
  (w : write_outcome text) s r :
  remove_book json_dump title inputs w s = r ->
  shrunk s (final_state r).
Proof.
  unfold remove_book, bind at 1. unfold print_header. rewrite print_run.
  unfold bind at 1, get_books at 1, bind at 1.
  change (books (printing [Header "Remove a Book"] s)) with (books s).
  destruct (select _ (books s)) as [found_books|e];
    [|intros <-; split; simpl; now auto].
  change (lift (Ok found_books) ?st) with (Done found_books st).
  cbv iota beta.
  destruct found_books as [|first rest].
  - rewrite print_run. intros <-. split; simpl; auto.
  - destruct (1 <? len (first :: rest)).
    + unfold bind at 1. rewrite print_run. unfold bind at 1.
      rewrite print_numbered_run. intro H.
      apply choose_and_remove_final in H. exact H.
    + unfold bind at 1.
      change (lift (index (first :: rest) 0) ?st) with (Done first st).
      cbv iota beta.
      unfold bind at 1, list_remove, bind at 1, get_books at 1.
      change (books (printing [Header "Remove a Book"] s)) with (books s).
      destruct (remove_object first (books s)) as [bs'|] eqn:Hrm;
        [|intros <-; split; simpl; now auto].
      unfold set_books at 1, bind at 1. rewrite save_library_run, print_run.
      intros <-. split; simpl; rewrite ?saved_books; destruct w; simpl; eauto.
Qed.

(** [remove_book] leaves distinct identities. *)
Lemma remove_book_well_formed (title : string) (inputs : list (option Z))
  (w : write_outcome text) s :
  well_formed s ->
  well_formed (final_state (remove_book json_dump title inputs w s)).
Proof.
  intros [Hnd Hlt].
  destruct (@remove_book_final title inputs w s _ eq_refl) as [Hn Hb].
  set (s' := final_state _) in *.
  destruct Hb as [Hb|[chosen Hrm]].
  - split; rewrite Hb, ?Hn; assumption.
  - destruct (remove_object_sub _ _ Hrm Hnd) as [Hnd' Hincl].
    split; [exact Hnd'|]. rewrite Hn.
    rewrite Forall_forall in Hlt |- *. intros b Hb. apply Hlt. now apply Hincl.
Qed.

End Identities.

(* ================================================================== *)
(** * The statements on concrete catalogues and files *)
(* ================================================================== *)

Section Runs_on_the_disk.
Import LibraryManager Spec Examples.
Local Open Scope string_scope.
Local Open Scope list_scope.
Local Open Scope Z_scope.

Lemma disk_reads_back data : Disk.json_load (Disk.json_dump data) = Ok data.
Proof. reflexivity. Qed.

Lemma examples_well_typed :
  all_well_typed (books two_dunes) /\ all_well_typed (books three_books)
  /\ all_well_typed (books emma_twice) /\ all_well_typed (books four_genres).
Proof. repeat split; repeat constructor. Qed.

Lemma examples_distinct :
  distinct_objects (books two_dunes) /\ distinct_objects (books three_books)
  /\ distinct_objects (books emma_twice).
Proof.
  repeat split; unfold distinct_objects; simpl;
    repeat (constructor; [simpl; intuition discriminate|]); constructor.
Qed.

(** The two Dunes saved and loaded again, in a new manager. *)
Lemma round_trip_of_two_dunes :
  (forall data, Disk.json_load (Disk.json_dump data) = Ok data)
  /\ exists loaded,
      Disk.load_library
        (fresh (file (final_state (Disk.save_library Written two_dunes))))
      = Done tt loaded
      /\ map Book.fields (books loaded) = map Book.fields [dune_a; dune_b].
Proof.
  split; [exact disk_reads_back|].
  exact (proj2 (save_then_load_round_trip Disk.json_dump Disk.json_load
                  disk_reads_back two_dunes [] 0 [])).
Defined.

(** [load_library] with no file, with text that is not JSON, with a record
    without its year, and with a well-formed file. *)
Lemma load_library_on_four_disks :
  Disk.load_library (fresh None) = Done tt (with_books [] (fresh None))
  /\ Disk.load_library (fresh (Some (Disk.NotJson "{]")))
     = Done tt (with_books []
                  (printing [LoadFailed] (fresh (Some (Disk.NotJson "{]")))))
  /\ (exists n,
        Disk.load_library
          (fresh (Some (Disk.Json (PList [Book.to_dict dune_a; no_year]))))
        = Done tt
            (mkState []
               (Some (Disk.Json (PList [Book.to_dict dune_a; no_year])))
               n [LoadFailed]))
  /\ (exists s',
        Disk.load_library
          (fresh (Some (Disk.Json (PList [Book.to_dict dune_a;
                                          Book.to_dict dune_b]))))
        = Done tt s'
        /\ map Book.fields (books s') = map Book.fields [dune_a; dune_b]
        /\ file s'
           = Some (Disk.Json (PList [Book.to_dict dune_a; Book.to_dict dune_b]))
        /\ console s' = [Animation "Loading your library"]).
Proof.
  split; [|split; [|split]].
  - exact (proj1 (load_library_outcomes Disk.json_load (fresh None)) eq_refl).
  - exact (proj1 (proj2 (load_library_outcomes Disk.json_load
                           (fresh (Some (Disk.NotJson "{]")))))
             (Disk.NotJson "{]") eq_refl eq_refl).
  - exact (proj2 (proj2 (load_library_outcomes Disk.json_load
                           (fresh (Some (Disk.Json
                                           (PList [Book.to_dict dune_a;
                                                   no_year]))))))
             _ _ eq_refl eq_refl eq_refl).
  - exact (proj2 (proj2 (load_library_outcomes Disk.json_load
                           (fresh (Some (Disk.Json
                                           (PList [Book.to_dict dune_a;
                                                   Book.to_dict dune_b]))))))
             _ _ eq_refl eq_refl eq_refl).
Defined.

(** After the second Dune is removed with a write that went well, the
    file holds the catalogue that remains. *)
Lemma file_in_sync_after_removing_second_dune :
  exists s',
    Disk.remove_book "dune" [Some 2] Written two_dunes = Done tt s'
    /\ ((books s' = books two_dunes /\ file s' = file two_dunes)
        \/ (in_sync Disk.json_dump s'
            /\ exists chosen,
                remove_object chosen (books two_dunes) = Some (books s'))).
Proof.
  eexists. split; [reflexivity|].
  exact (proj2 (file_in_sync_after_add_and_remove Disk.json_dump)
           "dune" [Some 2] two_dunes _ eq_refl).
Defined.

(** [remove_book] with no candidate, with one and with two. *)
Lemma remove_book_on_three_books :
  all_well_typed (books three_books) /\ distinct_objects (books three_books)
  /\ Disk.remove_book "Ulysses" [] Written three_books
     = Done tt (printing [Header "Remove a Book"; NoBookWithTitle] three_books)
  /\ Disk.remove_book "EMMA" [] Written three_books
     = Done tt
         (mkState [dune_a; dune_b]
            (Some (Disk.Json (PList [Book.to_dict dune_a; Book.to_dict dune_b])))
            3
            [Header "Remove a Book"; Animation "Saving your library";
             BookRemoved])
  /\ (exists out,
        Disk.remove_book "dune" [None; Some 0; Some 3] Written three_books
        = Fail EOFError (printing out three_books)).
Proof.
  destruct examples_well_typed as (_ & Hwt & _).
  destruct examples_distinct as (_ & Hnd & _).
  split; [exact Hwt|]. split; [exact Hnd|]. split; [|split].
  - exact (proj2 (remove_book_trichotomy Disk.json_dump "Ulysses" []
                    Written three_books Hwt Hnd)).
  - exact (proj2 (proj2 (remove_book_trichotomy Disk.json_dump "EMMA" []
                           Written three_books Hwt Hnd))).
  - apply (proj2 (proj2 (remove_book_trichotomy Disk.json_dump "dune"
                           [None; Some 0; Some 3] Written three_books
                           Hwt Hnd))).
    repeat constructor; simpl; unfold len; simpl; lia.
Defined.

(** The ambiguous removal: both Dunes are listed in catalogue order, and
    the choice of the second leaves the first. *)
Lemma remove_second_dune :
  all_well_typed (books two_dunes) /\ distinct_objects (books two_dunes)
  /\ filter (title_is "dune") (books two_dunes) = [dune_a; dune_b]
  /\ Disk.remove_book "dune" [Some 2] Written two_dunes
     = Done tt
         (mkState [dune_a]
            (Some (Disk.Json (PList [Book.to_dict dune_a]))) 2
            [Header "Remove a Book"; MultipleFound; Numbered 1 dune_a;
             Numbered 2 dune_b; Animation "Saving your library"; BookRemoved]).
Proof.
  destruct examples_well_typed as (Hwt & _).
  destruct examples_distinct as (Hnd & _).
  split; [exact Hwt|]. split; [exact Hnd|]. split; [reflexivity|].
  refine (proj1 (@remove_book_removes_chosen_object _ Disk.json_dump "dune" 2
                   [] Written dune_b two_dunes Hwt Hnd _ _ eq_refl)).
  - simpl. lia.
  - lia.
Defined.

(** Of two objects with the same values the chosen one goes: the other
    keeps its place. *)
Example remove_second_emma :
  Disk.remove_book "emma" [Some 2] Written emma_twice
  = Done tt
      (mkState [emma; dune_a]
         (Some (Disk.Json (PList [Book.to_dict emma; Book.to_dict dune_a]))) 4
         [Header "Remove a Book"; MultipleFound; Numbered 1 emma;
          Numbered 2 emma_again; Animation "Saving your library";
          BookRemoved]).
Proof. reflexivity. Qed.

(** Genres in the order SF, Fantasy, SF, Fantasy: SF 2, then Fantasy 2. *)
Lemma genre_counts_of_four_genres :
  books four_genres <> [] /\ all_well_typed (books four_genres)
  /\ (exists genre_counts,
        Disk.display_statistics four_genres
        = Done tt
            (printing ([Header "Library Statistics"; TotalBooks 4;
                        PercentageRead (percentage (books four_genres));
                        BooksByGenre]
                       ++ genre_lines genre_counts) four_genres)
        /\ descending genre_counts
        /\ (forall g1 g2 n,
               precedes (g1, n) (g2, n) genre_counts ->
               first_seen_before g1 g2 (map Book.genre (books four_genres))))
  /\ Disk.display_statistics four_genres
     = Done tt
         (printing [Header "Library Statistics"; TotalBooks 4;
                    PercentageRead (percentage (books four_genres));
                    BooksByGenre;
                    GenreCount (PStr "SF") 2; GenreCount (PStr "Fantasy") 2]
            four_genres).
Proof.
  destruct examples_well_typed as (_ & _ & _ & Hwt).
  assert (Hne : books four_genres <> []) by discriminate.
  split; [exact Hne|]. split; [exact Hwt|]. split; [|reflexivity].
  destruct (genre_counts_order four_genres Hne Hwt)
    as (genre_counts & Hrun & _ & _ & Hdesc & Hties).
  exists genre_counts. split; [exact Hrun|]. split; [exact Hdesc | exact Hties].
Defined.

(** The statistics of no book, of two Dunes, and of a genre that cannot
    be counted. *)
Lemma statistics_on_three_catalogues :
  Disk.display_statistics no_books
  = Done tt (printing [Header "Library Statistics"; NoBooks] no_books)
  /\ (len (books two_dunes) <> 0
      /\ exists out,
          console (final_state (Disk.display_statistics two_dunes))
          = console two_dunes
            ++ [Header "Library Statistics"; TotalBooks 2;
                PercentageRead (inject_Z 1 / inject_Z 2 * 100)%Q]
            ++ out)
  /\ (exists e s',
        Disk.display_statistics listed_genre = Fail e s'
        /\ e <> ZeroDivisionError).
Proof.
  split; [|split].
  - exact (proj1 (display_statistics_guards_division no_books) eq_refl).
  - apply (proj2 (proj2 (display_statistics_guards_division two_dunes))).
    discriminate.
  - exists TypeError,
      (printing [Header "Library Statistics"; TotalBooks 1;
                 PercentageRead (percentage (books listed_genre))]
         listed_genre).
    split; [reflexivity|].
    exact (proj1 (proj2 (display_statistics_guards_division listed_genre))
             _ _ eq_refl).
Defined.



(** A year that is a text passes [from_dict]. *)
Lemma from_dict_accepts_text_year :
  exists b,
    Book.from_dict 0 text_year = Ok b
    /\ Book.year b = PStr "nineteen sixty-five"
    /\ Book.well_typed b = false.
Proof. eexists. repeat split. Qed.

(** A file whose record has a text for its year is loaded, with no
    report: the catalogue is not empty and holds that record. *)
Lemma load_library_keeps_text_year :
  exists s',
    Disk.load_library (fresh (Some (Disk.Json (PList [text_year]))))
    = Done tt s'
    /\ books s' <> []
    /\ map Book.year (books s') = [PStr "nineteen sixty-five"]
    /\ forallb Book.well_typed (books s') = false
    /\ console s' = [Animation "Loading your library"].
Proof. eexists. repeat split. discriminate. Qed.

(** A file that holds a number, or a list with an item that is no
    mapping, makes [load_library] raise [TypeError]: the [except] clause
    names [JSONDecodeError] and [KeyError] only. *)
Example load_library_raises_on_other_documents :
  Disk.load_library (fresh (Some (Disk.Json (PInt 5))))
  = Fail TypeError (fresh (Some (Disk.Json (PInt 5))))
  /\ (exists s',
        Disk.load_library (fresh (Some (Disk.Json (PList [PStr "Dune"]))))
        = Fail TypeError s')
  /\ (exists s',
        Disk.load_library (fresh (Some (Disk.Json no_year)))
        = Fail TypeError s').
Proof. split; [reflexivity|]. split; eexists; reflexivity. Qed.

End Runs_on_the_disk.

(* ================================================================== *)
(** * More on removal *)
(* ================================================================== *)

Section More_removal.
Import LibraryManager Spec More.

Variable text : Type.
Variable json_dump : pyval -> text.

Implicit Type s : state text.

Lemma remove_object_split (x : Book.t) (l l' : list Book.t) :
  remove_object x l = Some l' ->
  exists l1 y l2,
    l = l1 ++ y :: l2 /\ l' = l1 ++ l2 /\ Book.oid y = Book.oid x.
Proof.
  revert l'. induction l as [|y l IH]; intros l' H; simpl in H.
  - discriminate H.
  - destruct (Nat.eqb_spec (Book.oid y) (Book.oid x)) as [E|E].
    + injection H as <-. now exists [], y, l.
    + destruct (remove_object x l) as [r|]; [|discriminate H].
      simpl in H. injection H as <-.
      destruct (IH r eq_refl) as (l1 & z & l2 & -> & -> & Hz).
      now exists (y :: l1), z, l2.
Qed.

(** X2. Whatever is typed, however the write goes and whether the method
    returns or raises, one call of [remove_book] takes at most one record
    out of the catalogue, and the others keep their order. *)
Theorem remove_book_takes_at_most_one (title : string)
  (inputs : list (option Z)) (w : write_outcome text) s :
  let remaining := books (final_state (remove_book json_dump title inputs w s)) in
  remaining = books s
  \/ exists l1 gone l2, books s = l1 ++ gone :: l2 /\ remaining = l1 ++ l2.
Proof.
  intro remaining.
  destruct (@remove_book_final _ json_dump title inputs w s _ eq_refl)
    as [_ [H|[chosen H]]].
  - now left.
  - right. apply remove_object_split in H as (l1 & y & l2 & H1 & H2 & _).
    now exists l1, y, l2.
Qed.

Lemma without_app (x : Book.t) (l1 l2 : list Book.t) :
  without x (l1 ++ l2) = without x l1 ++ without x l2.
Proof. unfold without. apply filter_app. Qed.

Lemma title_is_new (self : nat) (title author : string) (year : Z)
  (genre : string) (read : bool) :
  title_is title (new_record self title author year genre read) = true.
Proof. unfold title_is. simpl. apply String.eqb_refl. Qed.

(** X3. A record added under a title that no record of the catalogue has,
    case ignored, is the one [remove_book] takes out for that title, with
    no question asked: the catalogue is again what it was before the two
    calls, however the two writes go, and when the second write goes well
    the file holds that catalogue. *)
Theorem add_then_remove_restores (title author : string) (year : Z)
  (genre : string) (read : bool) (inputs : list (option Z))
  (w1 w2 : write_outcome text) s :
  all_well_typed (books s) ->
  well_formed s ->
  filter (title_is title) (books s) = [] ->
  exists added removed,
    add_book json_dump title author year genre read w1 s = Done tt added
    /\ remove_book json_dump title inputs w2 added = Done tt removed
    /\ books removed = books s
    /\ (w2 = Written -> in_sync json_dump removed).
Proof.
  intros Hwt Hwf Hnone.
  pose proof (add_book_well_formed json_dump title author year genre read w1 Hwf)
    as [Hnd _].
  rewrite add_book_run in Hnd |- *.
  set (new := Book.init (next_oid s) (PStr title) (PStr author) (PInt year)
                (PStr genre) (PBool read)) in *.
  set (added := printing [BookAdded] (saved json_dump w1 _)) in *.
  assert (Hbooks : books added = books s ++ [new]).
  { unfold added. simpl. now rewrite saved_books. }
  assert (Hwt' : all_well_typed (books added)).
  { rewrite Hbooks. apply Forall_app. split; [exact Hwt | repeat constructor]. }
  assert (Hfound : filter (title_is title) (books added) = [new]).
  { rewrite Hbooks, filter_app, Hnone. simpl.
    unfold new. change (Book.init ?a ?b ?c ?d ?e ?f)
      with (new_record a title author year genre read).
    now rewrite title_is_new. }
  assert (Hin : In new (books added)).
  { rewrite Hbooks. apply in_or_app. right. now left. }
  assert (Hwithout : without new (books added) = books s).
  { rewrite Hbooks, without_app. destruct Hwf as [_ Hlt].
    rewrite without_absent.
    - unfold without. simpl. rewrite Nat.eqb_refl. simpl. apply app_nil_r.
    - intro Habs. apply in_map_iff in Habs as (b & Hb & Hb').
      rewrite Forall_forall in Hlt. specialize (Hlt b Hb').
      simpl in Hb. lia. }
  exists added. eexists. split; [reflexivity|].
  rewrite (remove_book_cases json_dump title inputs w2 added Hwt').
  rewrite Hfound.
  unfold bind at 1, list_remove, bind at 1, get_books at 1.
  change (books (printing [Header "Remove a Book"] added)) with (books added).
  rewrite (@remove_object_without new (books added) Hnd Hin).
  unfold set_books at 1. unfold bind at 1. rewrite save_library_run, print_run.
  split; [reflexivity|]. simpl. rewrite saved_books. simpl.
  split; [exact Hwithout|]. intros ->. reflexivity.
Qed.

Lemma numbered_In (i k : Z) (b : Book.t) (l : list Book.t) :
  In (Numbered i b) (numbered k l)
  <-> exists n, nth_error l n = Some b /\ i = k + Z.of_nat n.
Proof.
  revert k. induction l as [|x l IH]; intro k; simpl.
  - split; [tauto | intros ([|n] & H & _); discriminate H].
  - rewrite IH. split.
    + intros [H|(n & Hn & ->)].
      * injection H as <- <-. exists 0%nat. split; [reflexivity | lia].
      * exists (S n). split; [exact Hn | lia].
    + intros ([|n] & Hn & ->); simpl in Hn.
      * injection Hn as <-. left. f_equal. lia.
      * right. exists n. split; [exact Hn | lia].
Qed.

(** X4. The number shown beside a candidate is the number that removes
    it: when [remove_book] has listed two candidates or more, typing the
    number of a line takes the record of that line, and no other, out of
    the catalogue. *)
Theorem number_shown_removes_that_record (title : string) (i : Z)
  (b : Book.t) (inputs : list (option Z)) (w : write_outcome text) s :
  all_well_typed (books s) ->
  distinct_objects (books s) ->
  let found_books := filter (title_is title) (books s) in
  (2 <= List.length found_books)%nat ->
  In (Numbered i b) (numbered 1 found_books) ->
  exists s',
    remove_book json_dump title (Some i :: inputs) w s = Done tt s'
    /\ books s' = without b (books s)
    /\ In b (books s)
    /\ (List.length (books s') + 1 = List.length (books s))%nat.
Proof.
  intros Hwt Hnd found_books Htwo Hline.
  apply numbered_In in Hline as (n & Hn & ->).
  assert (Hin : In b (books s)).
  { apply nth_error_In in Hn. unfold found_books in Hn.
    now apply filter_In in Hn. }
  rewrite remove_book_cases by assumption. fold found_books. cbv zeta.
  destruct found_books as [|first [|second rest]] eqn:Hfound;
    [simpl in Htwo; lia | simpl in Htwo; lia |].
  rewrite (@choose_and_remove_valid _ json_dump _ (1 + Z.of_nat n) inputs w b);
    auto; [| lia | now replace (Z.to_nat (1 + Z.of_nat n - 1)) with n by lia].
  eexists. split; [reflexivity|]. simpl. rewrite saved_books. simpl.
  split; [reflexivity|]. split; [exact Hin|]. now apply without_length.
Qed.

(** Answers that are no choice are each answered by one line, and the
    loop goes on with what is typed next. *)
Lemma choose_and_remove_skips (found_books : list Book.t)
  (junk : list (option Z)) (w : write_outcome text) :
  Forall (no_choice found_books) junk ->
  forall s, exists out,
    List.length out = List.length junk
    /\ forall rest,
        choose_and_remove json_dump found_books (junk ++ rest) w s
        = choose_and_remove json_dump found_books rest w (printing out s).
Proof.
  induction 1 as [|typed junk Hno _ IH]; intro s.
  - exists []. split; [reflexivity|]. intro rest. now rewrite printing_nil.
  - destruct typed as [n|]; simpl in Hno.
    + destruct (IH (printing [InvalidChoice] s)) as (out & Hlen & Hout).
      exists (InvalidChoice :: out). split; [simpl; now rewrite Hlen|].
      intro rest. simpl app. simpl choose_and_remove.
      unfold bind at 1, try_except. unfold bind at 1, ret at 1.
      replace ((1 <=? n) && (n <=? len found_books)) with false
        by (symmetry; apply andb_false_iff;
            destruct Hno; [left; apply Z.leb_gt | right; apply Z.leb_gt]; lia).
      unfold bind at 1. rewrite print_run. unfold ret at 1. cbv iota.
      rewrite Hout, printing_printing. reflexivity.
    + destruct (IH (printing [InvalidNumber] s)) as (out & Hlen & Hout).
      exists (InvalidNumber :: out). split; [simpl; now rewrite Hlen|].
      intro rest. specialize (Hout rest).
      rewrite printing_printing in Hout. exact Hout.
Qed.

(** X5. Answers that are no choice (no number, or a number that is no
    position in the list) do not end the question and change nothing:
    each is answered by one line, and the valid choice that follows
    removes the record it names, as if it had been typed at once. *)
Theorem invalid_choices_are_asked_again (title : string)
  (junk : list (option Z)) (choice : Z) (rest : list (option Z))
  (w : write_outcome text) (chosen : Book.t) s :
  all_well_typed (books s) ->
  distinct_objects (books s) ->
  let found_books := filter (title_is title) (books s) in
  (2 <= List.length found_books)%nat ->
  Forall (no_choice found_books) junk ->
  1 <= choice ->
  nth_error found_books (Z.to_nat (choice - 1)) = Some chosen ->
  exists out,
    List.length out = List.length junk
    /\ remove_book json_dump title (junk ++ Some choice :: rest) w s
       = Done tt
           (printing [BookRemoved]
              (saved json_dump w
                 (with_books (without chosen (books s))
                    (printing (Header "Remove a Book" :: MultipleFound
                               :: numbered 1 found_books ++ out) s)))).
Proof.
  intros Hwt Hnd found_books Htwo Hjunk Hone Hnth.
  assert (Hin : In chosen (books s)).
  { apply nth_error_In in Hnth. unfold found_books in Hnth.
    now apply filter_In in Hnth. }
  rewrite remove_book_cases by assumption. fold found_books. cbv zeta.
  destruct found_books as [|first [|second rest']] eqn:Hfound;
    [simpl in Htwo; lia | simpl in Htwo; lia |].
  rewrite !printing_printing.
  destruct (choose_and_remove_skips w Hjunk
              (printing ([Header "Remove a Book"]
                         ++ MultipleFound :: numbered 1 (first :: second :: rest'))
                 s)) as (out & Hlen & Hout).
  exists out. split; [exact Hlen|].
  rewrite Hout, printing_printing.
  rewrite (@choose_and_remove_valid _ json_dump _ choice rest w chosen); auto.
Qed.

Lemma select_raises (test : Book.t -> result bool) (e : exn)
  (l : list Book.t) :
  (forall x, test x = Raise e \/ exists keep, test x = Ok keep) ->
  Exists (fun x => test x = Raise e) l ->
  select test l = Raise e.
Proof.
  intros Htest H. induction l as [|x l IH]; [inversion H|].
  simpl. destruct (Htest x) as [Hx|[keep Hx]]; rewrite Hx; simpl.
  - reflexivity.
  - inversion H as [? ? Hx'|? ? Hl]; subst; [congruence|].
    now rewrite IH.
Qed.

(** X6. [remove_book] needs every title of the catalogue to be a text:
    with one record whose title is no text (from a file, since
    [load_library] checks no types), be it of another title than the one
    asked for, the method raises [AttributeError] after its header, for
    any title typed, and removes and writes nothing. *)
Theorem remove_book_needs_text_titles (title : string)
  (inputs : list (option Z)) (w : write_outcome text) s :
  Exists (fun b => is_text (Book.title b) = false) (books s) ->
  remove_book json_dump title inputs w s
  = Fail AttributeError (printing [Header "Remove a Book"] s).
Proof.
  intro H. unfold remove_book, bind at 1. unfold print_header.
  rewrite print_run. unfold bind at 1, get_books at 1. unfold bind at 1.
  change (books (printing [Header "Remove a Book"] s)) with (books s).
  rewrite (@select_raises _ AttributeError); [reflexivity | |].
  - intro x. destruct (Book.title x); simpl; eauto.
  - eapply Exists_impl; [|exact H]. simpl. intros b Hb.
    destruct (Book.title b); simpl; try reflexivity. discriminate Hb.
Qed.

End More_removal.

(* ================================================================== *)
(** * More on the catalogue and its file *)
(* ================================================================== *)

Section More_store.
Import LibraryManager Spec More.

Variable text : Type.
Variable json_dump : pyval -> text.
Variable json_load : text -> result pyval.

Implicit Type s : state text.

Lemma well_formed_printing (out : list message) s :
  well_formed s -> well_formed (printing out s).
Proof. intros [Hnd Hlt]. split; assumption. Qed.

Lemma well_formed_only_prints (m : M text unit) s :
  only_prints m -> well_formed s -> well_formed (final_state (m s)).
Proof.
  intros Hm Hwf. destruct (Hm s) as [out ->]. now apply well_formed_printing.
Qed.

(** X1. No object is twice in the catalogue, and every object of the
    catalogue is older than the next one to be made: this holds in a new
    manager, whatever the disk holds, and every method keeps it, whatever
    is typed, however a write goes and whether the method returns or
    raises. *)
Theorem identities_stay_distinct :
  (forall disk, well_formed (final_state (init json_load disk)))
  /\ (forall s,
         well_formed s ->
         well_formed (final_state (load_library json_load s))
         /\ (forall w, well_formed (final_state (save_library json_dump w s)))
         /\ (forall title author year genre read w,
                well_formed
                  (final_state
                     (add_book json_dump title author year genre read w s)))
         /\ (forall title inputs w,
                well_formed
                  (final_state (remove_book json_dump title inputs w s)))
         /\ (forall inputs typed,
                well_formed (final_state (search_books inputs typed s)))
         /\ well_formed (final_state (display_all_books s))
         /\ well_formed (final_state (display_statistics s))).
Proof.
  split; [intro disk; apply init_well_formed|].
  intros s Hwf.
  split; [now apply load_library_well_formed|].
  split; [intro w; rewrite save_library_run; destruct Hwf; now destruct w|].
  split; [intros; now apply add_book_well_formed|].
  split; [intros; now apply remove_book_well_formed|].
  split; [|split]; intros; apply well_formed_only_prints; try exact Hwf.
  - apply only_prints_search_books.
  - apply only_prints_display_all_books.
  - apply only_prints_display_statistics.
Qed.

(** X7. A write that fails is no failure of [add_book]: the method
    returns, the record is in the catalogue in memory, the failure and
    then the success are printed, and the file is what the failed write
    left.  The next [add_book] whose write goes well puts the whole
    catalogue, that record included, in the file. *)
Theorem failed_write_keeps_the_record (title author : string) (year : Z)
  (genre : string) (read : bool) (title2 author2 : string) (year2 : Z)
  (genre2 : string) (read2 : bool) (remains : option text) s :
  exists s1 s2,
    add_book json_dump title author year genre read (WriteFailed remains) s
    = Done tt s1
    /\ books s1
       = books s ++ [new_record (next_oid s) title author year genre read]
    /\ file s1 = remains
    /\ console s1
       = console s ++ [Header "Add a Book"; SaveFailed; BookAdded]
    /\ add_book json_dump title2 author2 year2 genre2 read2 Written s1
       = Done tt s2
    /\ books s2
       = books s
         ++ [new_record (next_oid s) title author year genre read;
             new_record (S (next_oid s)) title2 author2 year2 genre2 read2]
    /\ in_sync json_dump s2.
Proof.
  eexists. eexists. rewrite add_book_run.
  split; [reflexivity|]. split; [reflexivity|]. split; [reflexivity|].
  split; [simpl; now rewrite <- !app_assoc|].
  rewrite add_book_run. split; [reflexivity|].
  split; [simpl; now rewrite <- app_assoc | reflexivity].
Qed.

(** The comprehension of [load_library] on an item that is no mapping,
    after complete mappings: [TypeError]. *)
Lemma books_from_non_mapping (good : list pyval) (bad : pyval)
  (rest : list pyval) s :
  forallb complete_mapping good = true ->
  is_mapping bad = false ->
  exists n,
    books_from (good ++ bad :: rest) s
    = Fail TypeError (mkState (books s) (file s) n (console s)).
Proof.
  revert s. induction good as [|item good IH]; intros s Hgood Hbad.
  - exists (S (next_oid s)). simpl app. simpl books_from.
    unfold bind at 1, new_object at 1. unfold bind at 1.
    destruct bad; try discriminate Hbad; reflexivity.
  - simpl in Hgood. apply andb_true_iff in Hgood as [Hitem Hgood].
    destruct item as [| | | | |d]; try discriminate Hitem. simpl in Hitem.
    simpl app. simpl books_from. unfold bind at 1, new_object at 1.
    unfold bind at 1.
    pose proof (from_dict_mapping (next_oid s) d) as Hfd.
    destruct (Book.from_dict (next_oid s) (PDict d)) as [b|e];
      [|destruct Hfd; congruence].
    change (lift (Ok b) ?st) with (Done b st). cbv iota beta.
    unfold bind at 1.
    destruct (IH (mkState (books s) (file s) (S (next_oid s)) (console s))
                Hgood Hbad) as [n Hrun].
    simpl in Hrun. rewrite Hrun. now exists n.
Qed.

(** X8. What [load_library] does with a file that parses to something
    else than a list of mappings.  [null], a boolean or a number: it
    raises [TypeError]; a text or a mapping that is not empty, or a list
    in which an item that is no mapping comes before any mapping that
    lacks a key: it raises [TypeError] as well, and the catalogue in
    memory is the one of before.  The empty text and the empty mapping
    give the empty catalogue, as the empty list does. *)
Theorem load_library_on_other_documents (content : text) (data : pyval) s :
  file s = Some content ->
  json_load content = Ok data ->
  match data with
  | PNone | PBool _ | PInt _ =>
      load_library json_load s = Fail TypeError s
  | PStr EmptyString | PDict [] | PList [] =>
      load_library json_load s
      = Done tt (printing [Animation "Loading your library"] (with_books [] s))
  | PStr (String _ _) | PDict (_ :: _) =>
      exists n,
        load_library json_load s
        = Fail TypeError (mkState (books s) (file s) n (console s))
  | PList (first :: others) =>
      forall good bad rest,
        first :: others = good ++ bad :: rest ->
        forallb complete_mapping good = true ->
        is_mapping bad = false ->
        exists n,
          load_library json_load s
          = Fail TypeError (mkState (books s) (file s) n (console s))
  end.
Proof.
  intros Hfile Hparse.
  assert (Hrun : load_library json_load s
                 = try_except
                     (bind (lift (iterate data)) (fun items =>
                      bind (books_from items) (fun new_books =>
                      bind (set_books new_books) (fun _ =>
                      loading_animation "Loading your library"))))
                     is_JSONDecodeError_or_KeyError
                     (bind (print LoadFailed) (fun _ => set_books [])) s).
  { unfold load_library, bind at 1, get_file at 1. rewrite Hfile.
    unfold try_except, bind at 1. now rewrite Hparse. }
  rewrite Hrun. clear Hrun.
  assert (Hfirst : forall items good bad rest,
             items = good ++ bad :: rest ->
             forallb complete_mapping good = true ->
             is_mapping bad = false ->
             exists n,
               try_except
                 (bind (lift (Ok items)) (fun items =>
                  bind (books_from items) (fun new_books =>
                  bind (set_books new_books) (fun _ =>
                  loading_animation "Loading your library"))))
                 is_JSONDecodeError_or_KeyError
                 (bind (print LoadFailed) (fun _ => set_books [])) s
               = Fail TypeError (mkState (books s) (file s) n (console s))).
  { intros items good bad rest -> Hgood Hbad.
    destruct (@books_from_non_mapping good bad rest s Hgood Hbad) as [n Hn].
    exists n. unfold try_except, bind at 1.
    change (lift (Ok ?l) s) with (Done l s). cbv iota beta.
    unfold bind at 1. now rewrite Hn. }
  destruct data as [|b|z|[|c str]|[|item items]|[|[k v] d]];
    try reflexivity.
  - apply (Hfirst _ [] (PStr (String c EmptyString)) (chars str));
      reflexivity.
  - intros good bad rest H1 H2 H3. exact (Hfirst _ good bad rest H1 H2 H3).
  - apply (Hfirst _ [] (PStr k) (map (fun kv => PStr (fst kv)) d));
      reflexivity.
Qed.

(** X20. An exception of [open] or [json.load] on the file: the [except]
    clause of [load_library] takes [JSONDecodeError] and [KeyError], on
    which the catalogue is emptied and the failure reported; any other
    one ([UnicodeDecodeError] on bytes that are no text, [ValueError] on
    a number of too many digits, [RecursionError] on brackets nested too
    deep, [OSError] on a file that cannot be opened) leaves the method,
    with the catalogue as it was and nothing printed. *)
Theorem load_library_lets_other_exceptions_escape (content : text)
  (e : exn) s :
  file s = Some content ->
  json_load content = Raise e ->
  load_library json_load s
  = if is_JSONDecodeError_or_KeyError e
    then Done tt (with_books [] (printing [LoadFailed] s))
    else Fail e s.
Proof.
  intros Hfile Hparse.
  unfold load_library, bind at 1, get_file at 1. rewrite Hfile.
  unfold try_except, bind at 1. rewrite Hparse.
  change (lift (Raise e) s) with (@Fail text pyval e s). cbv iota beta.
  now destruct (is_JSONDecodeError_or_KeyError e).
Qed.

(** X9. Loading a file of mappings that all have the five keys and then
    saving rewrites each record as the mapping of its five entries, in the
    order [title], [author], [year], [genre], [read]: the records and
    their order stay, any other key of a record is lost.  When the records
    have just those five entries in that order, the file holds
    [json.dump] of the very list that was read: the same value, in the
    layout of [json.dump], which is the text of before when that text was
    itself [json.dump] of the list, as a file that [save_library] wrote
    is. *)
Theorem load_then_save_keeps_five_entries (content : text)
  (items : list pyval) s :
  file s = Some content ->
  json_load content = Ok (PList items) ->
  forallb complete_mapping items = true ->
  exists loaded saved_state,
    load_library json_load s = Done tt loaded
    /\ save_library json_dump Written loaded = Done tt saved_state
    /\ file saved_state = Some (json_dump (PList (map five_items items)))
    /\ (Forall (fun item => five_items item = item) items ->
        file saved_state = Some (json_dump (PList items))
        /\ (content = json_dump (PList items) ->
            file saved_state = file s)).
Proof.
  intros Hfile Hparse Hall.
  assert (Hmap : forallb is_mapping items = true).
  { rewrite forallb_forall in Hall |- *. intros x Hx. specialize (Hall x Hx).
    destruct x; try discriminate Hall. reflexivity. }
  pose proof (@load_library_mappings _ json_load content items s
                Hfile Hparse Hmap) as H.
  rewrite Hall in H. destruct H as (loaded & Hrun & Hf & _).
  exists loaded. eexists. split; [exact Hrun|].
  rewrite save_library_run. split; [reflexivity|].
  assert (Hdicts : map Book.to_dict (books loaded) = map five_items items).
  { set (of_fields := fun f : pyval * pyval * pyval * pyval * pyval =>
                        match f with
                        | (title, author, year, genre, read) =>
                            PDict [("title"%string, title);
                                   ("author"%string, author);
                                   ("year"%string, year);
                                   ("genre"%string, genre);
                                   ("read"%string, read)]
                        end).
    assert (H1 : map Book.to_dict (books loaded)
                 = map of_fields (map Book.fields (books loaded)))
      by (rewrite map_map; apply map_ext; reflexivity).
    rewrite H1, Hf, map_map. apply map_ext. reflexivity. }
  simpl. rewrite Hdicts. split; [reflexivity|].
  intro Hsame.
  assert (Hitems : map five_items items = items).
  { clear -Hsame. induction Hsame as [|item items Hitem _ IH]; [reflexivity|].
    simpl. now rewrite Hitem, IH. }
  rewrite Hitems. split; [reflexivity|].
  intros ->. now rewrite Hfile.
Qed.

(** X10. [add_book] and [remove_book] keep a catalogue of Book Records
    one: a record that [add_book] makes has a text for title, author and
    genre, an integer for the year and a boolean for the read status, and
    [remove_book] only takes records out. *)
Theorem mutations_keep_book_records s :
  all_well_typed (books s) ->
  (forall title author year genre read w,
      all_well_typed
        (books (final_state
                  (add_book json_dump title author year genre read w s))))
  /\ (forall title inputs w,
         all_well_typed
           (books (final_state (remove_book json_dump title inputs w s)))).
Proof.
  intro Hwt. split.
  - intros. rewrite add_book_run. simpl. rewrite saved_books. simpl.
    apply Forall_app. split; [exact Hwt | repeat constructor].
  - intros title inputs w.
    destruct (@remove_book_final _ json_dump title inputs w s _ eq_refl)
      as [_ [H|[chosen H]]].
    + now rewrite H.
    + apply remove_object_split in H as (l1 & y & l2 & H1 & H2 & _).
      rewrite H2. unfold all_well_typed in Hwt |- *. rewrite H1 in Hwt.
      apply Forall_app in Hwt as [Hl1 Hl2]. apply Forall_app.
      split; [exact Hl1 | now inversion Hl2].
Qed.

End More_store.

(* ================================================================== *)
(** * More on the queries *)
(* ================================================================== *)

Section More_queries.
Import LibraryManager Spec More.

Variable text : Type.
Variable json_dump : pyval -> text.

Implicit Type s : state text.

(** [search_books] once the field is chosen. *)
Lemma search_books_run (inputs : list (option Z)) (typed : string)
  (choice : Z) s asked :
  ask_field inputs (printing [Header "Search for a Book"; SearchBy] s)
  = Done choice asked ->
  search_books inputs typed s
  = match (if choice =? 1 then
             select (fun book =>
                       rbind (lower_method (Book.title book)) (fun t =>
                       Ok (str_in (lower typed) t))) (books s)
           else
             select (fun book =>
                       rbind (lower_method (Book.author book)) (fun a =>
                       Ok (str_in (lower typed) a))) (books s)) with
    | Ok results => Done tt (printing (search_report results) asked)
    | Raise e => Fail e asked
    end.
Proof.
  intro Hask.
  destruct (ask_field_done _ _ Hask) as [_ [out Hout]].
  unfold search_books, print_header, bind at 1. rewrite print_run.
  unfold bind at 1. rewrite print_run, printing_printing.
  unfold bind at 1. simpl app. rewrite Hask.
  unfold bind at 1, get_books at 1.
  assert (Hbooks : books asked = books s) by (now rewrite Hout).
  rewrite Hbooks. unfold bind at 1.
  match goal with
  | |- context [lift ?r asked] => destruct r as [results|e]
  end.
  - change (lift (Ok results) asked) with (Done results asked).
    cbv iota beta. destruct results as [|first rest].
    + apply print_run.
    + unfold bind. rewrite print_run, print_numbered_run, printing_printing.
      reflexivity.
  - reflexivity.
Qed.

Lemma string_app_nil_r (a : string) : (a ++ EmptyString)%string = a.
Proof. induction a as [|c a IH]; simpl; [reflexivity | now rewrite IH]. Qed.

Lemma str_in_refl (a : string) : str_in a a = true.
Proof.
  apply str_in_iff. exists EmptyString, EmptyString. simpl.
  now rewrite string_app_nil_r.
Qed.

(** X11. A record just added is found under its own title: a search by
    title for the title it was added with lists, in catalogue order, the
    records of before that match, and then the new record, last. *)
Theorem added_record_is_found (title author : string) (year : Z)
  (genre : string) (read : bool) (w : write_outcome text)
  (inputs : list (option Z)) s :
  all_well_typed (books s) ->
  exists added,
    add_book json_dump title author year genre read w s = Done tt added
    /\ forall asked,
        ask_field inputs
          (printing [Header "Search for a Book"; SearchBy] added)
        = Done 1 asked ->
        search_books inputs title added
        = Done tt
            (printing
               (MatchingBooks
                :: numbered 1
                     (filter (field_has 1 title) (books s)
                      ++ [new_record (next_oid s) title author year genre
                            read]))
               asked).
Proof.
  intro Hwt. rewrite add_book_run. eexists. split; [reflexivity|].
  intros asked Hask. rewrite (@search_books_run inputs title 1 _ asked Hask).
  match goal with
  | |- context [books ?st] => assert (Hbooks : books st = books s ++ [new_record (next_oid s) title author year genre read])
  end.
  { simpl. now rewrite saved_books. }
  rewrite Hbooks.
  rewrite (@field_test_total 1 title); 
    [|apply Forall_app; split; [exact Hwt | repeat constructor]].
  rewrite filter_app. simpl filter at 2.
  assert (Hnew : field_has 1 title
                   (new_record (next_oid s) title author year genre read)
                 = true) by (unfold field_has; simpl; apply str_in_refl).
  rewrite Hnew.
  destruct (filter (field_has 1 title) (books s)); reflexivity.
Qed.

(** X12. [search_books] needs the searched field to be a text in every
    record: with one record whose title (for a search by title) or author
    (by author) is no text, the method raises [AttributeError] once the
    field is chosen, whatever the term, and lists nothing. *)
Theorem search_books_needs_text_fields (inputs : list (option Z))
  (typed : string) (choice : Z) s asked :
  ask_field inputs (printing [Header "Search for a Book"; SearchBy] s)
  = Done choice asked ->
  Exists (fun b => is_text (searched_field choice b) = false) (books s) ->
  search_books inputs typed s = Fail AttributeError asked.
Proof.
  intros Hask H. rewrite (@search_books_run inputs typed choice s asked Hask).
  unfold searched_field in H.
  destruct (choice =? 1).
  - rewrite (@select_raises _ AttributeError); [reflexivity | |].
    + intro x. destruct (Book.title x); simpl; eauto.
    + eapply Exists_impl; [|exact H]. simpl. intros b Hb.
      destruct (Book.title b); simpl; try reflexivity. discriminate Hb.
  - rewrite (@select_raises _ AttributeError); [reflexivity | |].
    + intro x. destruct (Book.author x); simpl; eauto.
    + eapply Exists_impl; [|exact H]. simpl. intros b Hb.
      destruct (Book.author b); simpl; try reflexivity. discriminate Hb.
Qed.

Lemma ask_field_skips (junk : list (option Z)) :
  Forall refused_field junk ->
  forall s, exists out,
    List.length out = List.length junk
    /\ forall rest,
        ask_field (junk ++ rest) s = ask_field rest (printing out s).
Proof.
  induction 1 as [|typed junk Hno _ IH]; intro s.
  - exists []. split; [reflexivity|]. intro rest. now rewrite printing_nil.
  - destruct typed as [n|]; simpl in Hno.
    + destruct (IH (printing [EnterOneOrTwo] s)) as (out & Hlen & Hout).
      exists (EnterOneOrTwo :: out). split; [simpl; now rewrite Hlen|].
      intro rest. simpl.
      destruct (Z.eqb_spec n 1); [tauto|]. destruct (Z.eqb_spec n 2); [tauto|].
      simpl. unfold bind. rewrite print_run, Hout, printing_printing.
      reflexivity.
    + destruct (IH (printing [InvalidNumber] s)) as (out & Hlen & Hout).
      exists (InvalidNumber :: out). split; [simpl; now rewrite Hlen|].
      intro rest. simpl. unfold bind.
      rewrite print_run, Hout, printing_printing. reflexivity.
Qed.

(** X13. The question for the search field is asked until the answer is
    1 or 2: each other answer (no number, or another number) is answered
    by one line and changes nothing of the search that follows; when the
    input ends without a 1 or a 2 the method raises [EOFError] and has
    listed nothing. *)
Theorem search_field_is_asked_again (junk : list (option Z)) (choice : Z)
  (rest : list (option Z)) (typed : string) s :
  all_well_typed (books s) ->
  Forall refused_field junk ->
  (choice = 1 \/ choice = 2 ->
   exists out,
     List.length out = List.length junk
     /\ search_books (junk ++ Some choice :: rest) typed s
        = Done tt
            (printing
               ([Header "Search for a Book"; SearchBy] ++ out
                ++ search_report (filter (field_has choice typed) (books s)))
               s))
  /\ (exists out,
        List.length out = List.length junk
        /\ search_books junk typed s
           = Fail EOFError
               (printing ([Header "Search for a Book"; SearchBy] ++ out) s)).
Proof.
  intros Hwt Hjunk.
  destruct (ask_field_skips Hjunk
              (printing [Header "Search for a Book"; SearchBy] s))
    as (out & Hlen & Hout).
  split.
  - intro Hchoice. exists out. split; [exact Hlen|].
    assert (Hask : ask_field (junk ++ Some choice :: rest)
                     (printing [Header "Search for a Book"; SearchBy] s)
                   = Done choice
                       (printing out
                          (printing [Header "Search for a Book"; SearchBy] s))).
    { rewrite Hout. simpl.
      now destruct Hchoice as [-> | ->]. }
    rewrite (@search_books_run _ typed choice s _ Hask).
    simpl books. rewrite field_test_total by assumption.
    now rewrite !printing_printing.
  - exists out. split; [exact Hlen|].
    unfold search_books, print_header, bind at 1. rewrite print_run.
    unfold bind at 1. rewrite print_run, printing_printing.
    unfold bind at 1. simpl app.
    specialize (Hout []). rewrite app_nil_r in Hout. rewrite Hout.
    simpl. now rewrite printing_printing.
Qed.

Lemma nth_error_numbered (i : Z) (l : list Book.t) (k : nat) :
  nth_error (numbered i l) k
  = option_map (Numbered (i + Z.of_nat k)) (nth_error l k).
Proof.
  revert i k. induction l as [|b l IH]; intros i [|k]; simpl; try reflexivity.
  - now rewrite Z.add_0_r.
  - rewrite IH. do 2 f_equal. lia.
Qed.

Lemma numbered_length (i : Z) (l : list Book.t) :
  List.length (numbered i l) = List.length l.
Proof.
  revert i. induction l as [|b l IH]; intro i; simpl; [reflexivity|].
  now rewrite IH.
Qed.

(** X14. [display_all_books] returns, and after its header prints one
    line for each record, in catalogue order, the record in place [k]
    (from 0) under the number [k + 1]; for the empty catalogue it prints
    the line that says so. *)
Theorem display_all_books_lists_every_record s :
  exists lines,
    display_all_books s
    = Done tt (printing (Header "Your Library" :: lines) s)
    /\ (books s = [] -> lines = [LibraryEmpty])
    /\ (books s <> [] ->
        List.length lines = List.length (books s)
        /\ forall k,
            nth_error lines k
            = option_map (Numbered (Z.of_nat k + 1)) (nth_error (books s) k)).
Proof.
  unfold display_all_books, print_header, bind at 1. rewrite print_run.
  unfold bind at 1, get_books at 1.
  change (books (printing [Header "Your Library"] s)) with (books s).
  destruct (books s) as [|b bs] eqn:Hbooks.
  - exists [LibraryEmpty]. rewrite print_run, printing_printing.
    split; [reflexivity|]. split; [reflexivity | congruence].
  - exists (numbered 1 (b :: bs)).
    rewrite print_numbered_run, printing_printing.
    split; [reflexivity|]. split; [discriminate|]. intros _.
    split; [apply numbered_length|].
    intro k. rewrite nth_error_numbered. do 2 f_equal. lia.
Qed.

End More_queries.

(* ================================================================== *)
(** * More on the statistics *)
(* ================================================================== *)

Section More_statistics.
Import LibraryManager Spec More.

Variable text : Type.

Implicit Type s : state text.

Lemma read_count_bounds (bs : list Book.t) : 0 <= read_count bs <= len bs.
Proof.
  unfold read_count, len. split; [lia|].
  apply inj_le. apply filter_length_le.
Qed.

Lemma percentage_bounds (bs : list Book.t) :
  bs <> [] -> (0 <= percentage bs /\ percentage bs <= 100)%Q.
Proof.
  intro Hne. pose proof (read_count_bounds bs) as [H0 H1].
  unfold percentage. set (r := read_count bs) in *.
  assert (Hlen : 0 < len bs)
    by (unfold len; destruct bs; [congruence | simpl; lia]).
  destruct (len bs) as [|p|p] eqn:Hn; try lia.
  unfold Qle, Qdiv, Qmult, Qinv, inject_Z. simpl. split; nia.
Qed.

(** X15. The percentage that [display_statistics] prints for a catalogue
    that is not empty lies between 0 and 100. *)
Theorem percentage_is_between_0_and_100 s :
  books s <> [] ->
  exists p,
    In (PercentageRead p) (console (final_state (display_statistics s)))
    /\ p = percentage (books s)
    /\ (0 <= p /\ p <= 100)%Q.
Proof.
  intro Hne. exists (percentage (books s)).
  split; [|split; [reflexivity | now apply percentage_bounds]].
  rewrite display_statistics_run.
  destruct (Z.eqb_spec (len (books s)) 0) as [E|_].
  - exfalso. apply Hne. unfold len in E.
    destruct (books s); [reflexivity | simpl in E; lia].
  - destruct (count_genres (books s) []); simpl;
      apply in_or_app; right; simpl; tauto.
Qed.

Lemma total_count_set (d : list (pyval * Z)) (g : pyval) :
  total_count (counter_set d g (counter_get d g + 1)) = total_count d + 1.
Proof.
  unfold total_count. induction d as [|[k n] d IH]; simpl; [lia|].
  destruct (key_eqb k g); simpl; lia.
Qed.

Lemma counter_get_positive (d : list (pyval * Z)) (g : pyval) :
  Forall (fun item => 0 < snd item) d -> 0 <= counter_get d g.
Proof.
  induction 1 as [|[k n] d Hn _ IH]; simpl; [lia|].
  destruct (key_eqb k g); simpl in *; lia.
Qed.

Lemma counter_set_positive (d : list (pyval * Z)) (g : pyval) (n : Z) :
  0 < n ->
  Forall (fun item => 0 < snd item) d ->
  Forall (fun item => 0 < snd item) (counter_set d g n).
Proof.
  intros Hn. induction 1 as [|[k m] d Hm Hd IH]; simpl.
  - repeat constructor. exact Hn.
  - destruct (key_eqb k g); constructor; auto.
Qed.

Lemma count_genres_total (bs : list Book.t) (acc r : list (pyval * Z)) :
  count_genres bs acc = Ok r ->
  Forall (fun item => 0 < snd item) acc ->
  total_count r = total_count acc + len bs
  /\ Forall (fun item => 0 < snd item) r.
Proof.
  revert acc. induction bs as [|b bs IH]; intros acc H Hpos; simpl in H.
  - injection H as <-. unfold len. simpl. split; [lia | exact Hpos].
  - destruct (hashable (Book.genre b)); [|discriminate H].
    apply IH in H.
    + rewrite total_count_set in H. unfold len in *. simpl List.length.
      destruct H as [H Hr]. split; [lia | exact Hr].
    + apply counter_set_positive; [|exact Hpos].
      pose proof (counter_get_positive (Book.genre b) Hpos). lia.
Qed.

Lemma total_count_perm (l l' : list (pyval * Z)) :
  Permutation l l' -> total_count l = total_count l'.
Proof.
  unfold total_count. induction 1; simpl; lia.
Qed.

(** X16. When [display_statistics] returns on a catalogue that is not
    empty, the counts of its genre lines are all at least 1 and add up to
    the total it printed, the number of records. *)
Theorem genre_counts_add_up s s' :
  books s <> [] ->
  display_statistics s = Done tt s' ->
  exists genre_counts,
    console s'
    = console s
      ++ [Header "Library Statistics"; TotalBooks (len (books s));
          PercentageRead (percentage (books s)); BooksByGenre]
      ++ genre_lines genre_counts
    /\ total_count genre_counts = len (books s)
    /\ Forall (fun item => 1 <= snd item) genre_counts.
Proof.
  intros Hne. rewrite display_statistics_run.
  destruct (Z.eqb_spec (len (books s)) 0) as [E|_].
  - exfalso. apply Hne. unfold len in E.
    destruct (books s); [reflexivity | simpl in E; lia].
  - destruct (count_genres (books s) []) as [genres|e] eqn:Hcount;
      [|discriminate].
    intro H. injection H as <-.
    apply count_genres_total in Hcount as [Htotal Hpos]; [|constructor].
    exists (sorted_desc genres). split; [reflexivity|]. split.
    + rewrite (total_count_perm (sorted_desc_perm genres)), Htotal.
      unfold total_count. simpl. lia.
    + rewrite Forall_forall in Hpos |- *. intros item Hitem.
      apply (Permutation_in _ (sorted_desc_perm genres)) in Hitem.
      specialize (Hpos item Hitem). lia.
Qed.

Lemma count_genres_unhashable (bs : list Book.t) (acc : list (pyval * Z)) :
  Exists (fun b => hashable (Book.genre b) = false) bs ->
  count_genres bs acc = Raise TypeError.
Proof.
  intro H. revert acc. induction H as [b bs Hb|b bs _ IH]; intro acc; simpl.
  - now rewrite Hb.
  - destruct (hashable (Book.genre b)); [apply IH | reflexivity].
Qed.

(** X17. [display_statistics] needs genres that can be keys of a
    [dict]: with one record whose genre is a list or a mapping (from a
    file), it raises [TypeError] after it has printed the total and the
    percentage, and prints no genre line. *)
Theorem display_statistics_needs_hashable_genres s :
  Exists (fun b => hashable (Book.genre b) = false) (books s) ->
  display_statistics s
  = Fail TypeError
      (printing [Header "Library Statistics"; TotalBooks (len (books s));
                 PercentageRead (percentage (books s))] s).
Proof.
  intro H. rewrite display_statistics_run.
  rewrite (count_genres_unhashable [] H).
  destruct (Z.eqb_spec (len (books s)) 0) as [E|_]; [|reflexivity].
  exfalso. unfold len in E. destruct (books s); [inversion H | simpl in E; lia].
Qed.

End More_statistics.

(* ================================================================== *)
(** * The prompts of [add_book] *)
(* ================================================================== *)

Section More_prompts.
Import Spec More Prompts.
Local Open Scope string_scope.
Local Open Scope list_scope.
Local Open Scope Z_scope.

Lemma ask_year_refused (typed : option Z) (inputs : list (option Z)) :
  refused_year typed ->
  ask_year (typed :: inputs)
  = (InvalidYear :: fst (ask_year inputs), snd (ask_year inputs)).
Proof.
  intro H. simpl. destruct typed as [n|]; simpl in H |- *.
  - destruct (Z.ltb_spec n 0); [|lia]. simpl. now destruct (ask_year inputs).
  - now destruct (ask_year inputs).
Qed.

Lemma ask_year_accepted (year : Z) (inputs : list (option Z)) :
  0 <= year -> ask_year (Some year :: inputs) = ([], Ok year).
Proof. intro H. simpl. now destruct (Z.ltb_spec year 0); [lia|]. Qed.

(** X18. The year loop of [add_book] ends with the first answer that is
    an integer not below zero (zero is taken, whatever the line it prints
    says of positive years) and with no other: every answer before it was
    no integer or was below zero, and got one line of complaint.  When the
    input ends before such an answer the loop raises [EOFError]. *)
Theorem ask_year_takes_first_year_from_zero :
  (forall inputs out year,
      ask_year inputs = (out, Ok year) ->
      0 <= year
      /\ exists rejected rest,
          inputs = rejected ++ Some year :: rest
          /\ Forall refused_year rejected
          /\ out = repeat InvalidYear (List.length rejected))
  /\ (forall rejected,
         Forall refused_year rejected ->
         ask_year rejected
         = (repeat InvalidYear (List.length rejected), Raise EOFError)
         /\ forall year rest,
             0 <= year ->
             ask_year (rejected ++ Some year :: rest)
             = (repeat InvalidYear (List.length rejected), Ok year)).
Proof.
  split.
  - induction inputs as [|typed inputs IH]; intros out year H.
    + discriminate H.
    + assert (Hcases : refused_year typed
                       \/ exists n, typed = Some n /\ 0 <= n).
      { destruct typed as [n|]; [|now left]. simpl.
        destruct (Z.ltb_spec n 0); [left; lia | right; eauto]. }
      destruct Hcases as [Hno|(n & -> & Hn)].
      * rewrite (@ask_year_refused typed inputs Hno) in H.
        injection H as <- Hr.
        destruct (ask_year inputs) as [out' r] eqn:Hrun. simpl in Hr. subst r.
        destruct (IH out' year eq_refl) as (Hy & rejected & rest & -> & Hrej & ->).
        split; [exact Hy|]. exists (typed :: rejected), rest.
        split; [reflexivity|]. split; [now constructor | reflexivity].
      * rewrite (@ask_year_accepted n inputs Hn) in H. injection H as <- <-.
        split; [exact Hn|]. exists [], inputs. repeat split. constructor.
  - induction 1 as [|typed rejected Hno _ [IH1 IH2]].
    + split; [reflexivity|]. intros year rest Hy. now apply ask_year_accepted.
    + split.
      * rewrite (@ask_year_refused typed rejected Hno), IH1. reflexivity.
      * intros year rest Hy. simpl app.
        rewrite (@ask_year_refused typed _ Hno), (IH2 year rest Hy). reflexivity.
Qed.

Lemma ask_read_refused (line : string) (inputs : list string) :
  refused_answer line ->
  ask_read (line :: inputs)
  = (YesOrNo :: fst (ask_read inputs), snd (ask_read inputs)).
Proof.
  intros [Hyes Hno]. unfold answer in *. simpl.
  apply String.eqb_neq in Hyes, Hno. rewrite Hyes, Hno. simpl.
  now destruct (ask_read inputs).
Qed.

Lemma ask_read_accepted (line : string) (inputs : list string) :
  answer line = "yes" \/ answer line = "no" ->
  ask_read (line :: inputs) = ([], Ok (String.eqb (answer line) "yes")).
Proof.
  intro H. unfold answer in *. simpl.
  destruct H as [-> | ->]; reflexivity.
Qed.

Lemma is_space_lower_char (c : ascii) : is_space (lower_char c) = is_space c.
Proof. destruct c as [[] [] [] [] [] [] [] []]; reflexivity. Qed.

Lemma blank_lower (p : string) : blank (lower p) = blank p.
Proof.
  induction p as [|c p IH]; simpl; [reflexivity|].
  now rewrite is_space_lower_char, IH.
Qed.

Lemma lstrip_blank_app (p s : string) :
  blank p = true -> lstrip (p ++ s) = lstrip s.
Proof.
  induction p as [|c p IH]; simpl; intro H; [reflexivity|].
  apply andb_true_iff in H as [Hc Hp]. rewrite Hc. now apply IH.
Qed.

Lemma rstrip_blank (p : string) : blank p = true -> rstrip p = EmptyString.
Proof.
  induction p as [|c p IH]; simpl; intro H; [reflexivity|].
  apply andb_true_iff in H as [Hc Hp]. now rewrite (IH Hp), Hc.
Qed.

Lemma rstrip_app_blank (s p : string) :
  blank p = true -> rstrip (s ++ p) = rstrip s.
Proof.
  intro H. induction s as [|c s IH]; simpl.
  - now apply rstrip_blank.
  - now rewrite IH.
Qed.

Lemma lstrip_length (w : string) :
  (String.length (lstrip w) <= String.length w)%nat.
Proof.
  induction w as [|c w IH]; simpl; [lia|].
  destruct (is_space c); simpl; lia.
Qed.

(** The answer in a line that is a word between blanks, when the word in
    lower case neither starts nor ends with a space. *)
Lemma answer_of_padded (p1 word p2 : string) :
  blank p1 = true -> blank p2 = true ->
  lstrip (lower word) = lower word -> rstrip (lower word) = lower word ->
  lower word <> EmptyString ->
  answer (p1 ++ word ++ p2) = lower word.
Proof.
  intros H1 H2 Hl Hr Hne. unfold answer, strip.
  rewrite !lower_app.
  rewrite lstrip_blank_app by now rewrite blank_lower.
  assert (Hhead : lstrip (lower word ++ lower p2)
                  = (lower word ++ lower p2)%string).
  { destruct (lower word) as [|c w]; [congruence|]. simpl in Hl |- *.
    destruct (is_space c); [|reflexivity].
    exfalso. pose proof (lstrip_length w) as Hle.
    rewrite Hl in Hle. simpl in Hle. lia. }
  rewrite Hhead, rstrip_app_blank by now rewrite blank_lower.
  exact Hr.
Qed.

(** X19. The read loop of [add_book] ends with the first line whose
    lower-case form, spaces at both ends taken off, is [yes] or [no], and
    gives [True] for [yes]: every line before it was neither and got one
    line of complaint.  Case and spaces around the word do not matter.
    When the input ends before such a line the loop raises [EOFError]. *)
Theorem ask_read_takes_first_yes_or_no :
  (forall inputs out read,
      ask_read inputs = (out, Ok read) ->
      exists rejected line rest,
        inputs = rejected ++ line :: rest
        /\ Forall refused_answer rejected
        /\ (answer line = "yes" \/ answer line = "no")
        /\ read = String.eqb (answer line) "yes"
        /\ out = repeat YesOrNo (List.length rejected))
  /\ (forall rejected,
         Forall refused_answer rejected ->
         ask_read rejected
         = (repeat YesOrNo (List.length rejected), Raise EOFError)
         /\ forall p1 word p2 rest,
             blank p1 = true -> blank p2 = true ->
             (lower word = "yes"
              -> ask_read (rejected ++ (p1 ++ word ++ p2)%string :: rest)
                 = (repeat YesOrNo (List.length rejected), Ok true))
             /\ (lower word = "no"
                 -> ask_read (rejected ++ (p1 ++ word ++ p2)%string :: rest)
                    = (repeat YesOrNo (List.length rejected), Ok false))).
Proof.
  split.
  - induction inputs as [|line inputs IH]; intros out read H.
    + discriminate H.
    + destruct (string_dec (answer line) "yes") as [Hyes|Hyes];
        [|destruct (string_dec (answer line) "no") as [Hno|Hno]].
      * rewrite ask_read_accepted in H by now left.
        injection H as <- <-. exists [], line, inputs.
        repeat split; [constructor | now left].
      * rewrite ask_read_accepted in H by now right.
        injection H as <- <-. exists [], line, inputs.
        repeat split; [constructor | now right].
      * rewrite ask_read_refused in H by now split.
        injection H as <- Hr.
        destruct (ask_read inputs) as [out' r] eqn:Hrun. simpl in Hr. subst r.
        destruct (IH out' read eq_refl)
          as (rejected & l & rest & -> & Hrej & Hl & -> & ->).
        exists (line :: rejected), l, rest.
        split; [reflexivity|]. split; [constructor; [now split | exact Hrej]|].
        split; [exact Hl|]. split; reflexivity.
  - assert (Hword : forall p1 word p2 rest,
               blank p1 = true -> blank p2 = true ->
               (lower word = "yes" ->
                ask_read ((p1 ++ word ++ p2)%string :: rest) = ([], Ok true))
               /\ (lower word = "no" ->
                   ask_read ((p1 ++ word ++ p2)%string :: rest)
                   = ([], Ok false))).
    { intros p1 word p2 rest H1 H2. split; intro Hw.
      - assert (Ha : answer (p1 ++ word ++ p2) = "yes")
          by (rewrite answer_of_padded; rewrite ?Hw; auto; discriminate).
        rewrite ask_read_accepted by now left. now rewrite Ha.
      - assert (Ha : answer (p1 ++ word ++ p2) = "no")
          by (rewrite answer_of_padded; rewrite ?Hw; auto; discriminate).
        rewrite ask_read_accepted by now right. now rewrite Ha. }
    induction 1 as [|line rejected Hno _ [IH1 IH2]].
    + split; [reflexivity|]. intros. now apply Hword.
    + split.
      * rewrite (@ask_read_refused line rejected Hno), IH1. reflexivity.
      * intros p1 word p2 rest H1 H2. simpl app.
        rewrite (@ask_read_refused line _ Hno).
        destruct (IH2 p1 word p2 rest H1 H2) as [Hy Hn].
        split; intro Hw; [rewrite (Hy Hw) | rewrite (Hn Hw)]; reflexivity.
Qed.

End More_prompts.

(* ================================================================== *)
(** * More statements on concrete catalogues and files *)
(* ================================================================== *)

Section More_runs_on_the_disk.
Import LibraryManager Spec Examples More Prompts.
Local Open Scope string_scope.
Local Open Scope list_scope.
Local Open Scope Z_scope.

Lemma three_books_well_formed : well_formed three_books.
Proof.
  split; [apply examples_distinct|].
  repeat constructor.
Qed.

(** The three books keep distinct identities when one is added and when
    one is removed. *)
Lemma identities_of_three_books :
  well_formed three_books
  /\ well_formed
       (final_state
          (Disk.add_book "Emma" "Jane Austen" 1815 "Novel" true Written
             three_books))
  /\ well_formed
       (final_state (Disk.remove_book "dune" [Some 1] Written three_books)).
Proof.
  split; [exact three_books_well_formed|].
  destruct (proj2 (identities_stay_distinct Disk.json_dump Disk.json_load)
              three_books three_books_well_formed)
    as (_ & _ & Hadd & Hremove & _).
  split; [apply Hadd | apply Hremove].
Defined.

(** Ulysses added to the three books and removed again. *)
Lemma ulysses_added_and_removed :
  all_well_typed (books three_books) /\ well_formed three_books
  /\ filter (title_is "Ulysses") (books three_books) = []
  /\ exists added removed,
      Disk.add_book "Ulysses" "James Joyce" 1922 "Novel" false Written
        three_books = Done tt added
      /\ Disk.remove_book "Ulysses" [] Written added = Done tt removed
      /\ books removed = books three_books
      /\ in_sync Disk.json_dump removed.
Proof.
  destruct examples_well_typed as (_ & Hwt & _).
  split; [exact Hwt|]. split; [exact three_books_well_formed|].
  split; [reflexivity|].
  destruct (@add_then_remove_restores _ Disk.json_dump "Ulysses" "James Joyce"
              1922 "Novel" false [] Written Written three_books Hwt
              three_books_well_formed eq_refl)
    as (added & removed & Hadd & Hremove & Hbooks & Hsync).
  exists added, removed. repeat split; auto.
Defined.

(** The line [2. Dune by B] and the answer 2. *)
Lemma number_two_removes_second_dune :
  all_well_typed (books three_books) /\ distinct_objects (books three_books)
  /\ In (Numbered 2 dune_b)
       (numbered 1 (filter (title_is "DUNE") (books three_books)))
  /\ exists s',
      Disk.remove_book "DUNE" [Some 2] Written three_books = Done tt s'
      /\ books s' = [dune_a; emma].
Proof.
  destruct examples_well_typed as (_ & Hwt & _).
  destruct examples_distinct as (_ & Hnd & _).
  split; [exact Hwt|]. split; [exact Hnd|].
  assert (Hline : In (Numbered 2 dune_b)
                    (numbered 1 (filter (title_is "DUNE") (books three_books))))
    by (simpl; tauto).
  split; [exact Hline|].
  destruct (@number_shown_removes_that_record _ Disk.json_dump "DUNE" 2 dune_b
              [] Written three_books Hwt Hnd (le_n 2) Hline)
    as (s' & Hrun & Hbooks & _).
  exists s'. split; [exact Hrun | exact Hbooks].
Defined.

(** Three answers that are no choice, then the choice of the first Dune. *)
Lemma first_dune_after_three_wrong_answers :
  Forall (no_choice (filter (title_is "dune") (books three_books)))
    [None; Some 0; Some 3]
  /\ exists out : list message,
      List.length out = 3%nat
      /\ books (final_state
                  (Disk.remove_book "dune" [None; Some 0; Some 3; Some 1]
                     Written three_books))
         = [dune_b; emma].
Proof.
  destruct examples_well_typed as (_ & Hwt & _).
  destruct examples_distinct as (_ & Hnd & _).
  assert (Hjunk : Forall (no_choice (filter (title_is "dune")
                                       (books three_books)))
                    [None; Some 0; Some 3])
    by (repeat constructor; simpl; unfold len; simpl; lia).
  split; [exact Hjunk|].
  destruct (@invalid_choices_are_asked_again _ Disk.json_dump "dune"
              [None; Some 0; Some 3] 1 [] Written dune_a three_books Hwt Hnd
              (le_n 2) Hjunk (Z.le_refl 1) eq_refl)
    as (out & Hlen & Hrun).
  exists out. split; [exact Hlen|].
  unfold Disk.remove_book. simpl app in Hrun. rewrite Hrun. reflexivity.
Defined.

(** A title that is the number 1984 stops the removal of Dune. *)
Lemma numbered_title_stops_removal :
  Exists (fun b => is_text (Book.title b) = false) (books numbered_title)
  /\ Disk.remove_book "Dune" [] Written numbered_title
     = Fail AttributeError (printing [Header "Remove a Book"] numbered_title).
Proof.
  assert (H : Exists (fun b => is_text (Book.title b) = false)
                (books numbered_title))
    by (apply Exists_cons_tl; apply Exists_cons_hd; reflexivity).
  split; [exact H|].
  exact (@remove_book_needs_text_titles _ Disk.json_dump "Dune" [] Written
           numbered_title H).
Defined.

(** A file that holds a mapping, not a list of mappings. *)
Lemma load_library_on_a_single_record :
  exists n,
    Disk.load_library (fresh (Some (Disk.Json (Book.to_dict dune_a))))
    = Fail TypeError
        (mkState [] (Some (Disk.Json (Book.to_dict dune_a))) n []).
Proof.
  exact (@load_library_on_other_documents _ Disk.json_load
           (Disk.Json (Book.to_dict dune_a)) (Book.to_dict dune_a)
           (fresh (Some (Disk.Json (Book.to_dict dune_a)))) eq_refl eq_refl).
Defined.

(** The key [rating] of a record is gone from the file after a load and
    a save; the file of the two Dunes as [save_library] writes it is the
    same after a load and a save. *)
Lemma rating_is_lost :
  (exists loaded saved_state,
     Disk.load_library rated_disk = Done tt loaded
     /\ Disk.save_library Written loaded = Done tt saved_state
     /\ file saved_state
        = Some (Disk.Json (PList [Book.to_dict dune_a; Book.to_dict dune_b])))
  /\ (exists loaded saved_state,
        Disk.load_library
          (fresh (file (final_state (Disk.save_library Written two_dunes))))
        = Done tt loaded
        /\ Disk.save_library Written loaded = Done tt saved_state
        /\ file saved_state
           = file (final_state (Disk.save_library Written two_dunes))).
Proof.
  split.
  - destruct (@load_then_save_keeps_five_entries _ Disk.json_dump
                Disk.json_load
                (Disk.Json (PList [Book.to_dict dune_a; with_rating]))
                [Book.to_dict dune_a; with_rating] rated_disk
                eq_refl eq_refl eq_refl)
      as (loaded & saved_state & Hload & Hsave & Hfile & _).
    exists loaded, saved_state. split; [exact Hload|]. split; [exact Hsave|].
    exact Hfile.
  - destruct (@load_then_save_keeps_five_entries _ Disk.json_dump
                Disk.json_load
                (Disk.Json (PList [Book.to_dict dune_a; Book.to_dict dune_b]))
                [Book.to_dict dune_a; Book.to_dict dune_b]
                (fresh (file (final_state
                                (Disk.save_library Written two_dunes))))
                eq_refl eq_refl eq_refl)
      as (loaded & saved_state & Hload & Hsave & _ & Hsame).
    exists loaded, saved_state. split; [exact Hload|]. split; [exact Hsave|].
    refine (proj2 (Hsame _) eq_refl).
    repeat constructor.
Defined.

(** Bytes that are no text, a number of too many digits and brackets
    nested too deep each make [load_library] raise. *)
Lemma load_library_on_unreadable_files :
  Disk.load_library (fresh (Some Disk.NotText))
  = Fail UnicodeDecodeError (fresh (Some Disk.NotText))
  /\ Disk.load_library (fresh (Some Disk.LongNumber))
     = Fail ValueError (fresh (Some Disk.LongNumber))
  /\ Disk.load_library (fresh (Some Disk.TooDeep))
     = Fail RecursionError (fresh (Some Disk.TooDeep))
  /\ Disk.load_library (fresh (Some (Disk.NotJson "{")))
     = Done tt (with_books [] (printing [LoadFailed]
                                 (fresh (Some (Disk.NotJson "{"))))).
Proof.
  split; [|split; [|split]].
  - exact (@load_library_lets_other_exceptions_escape _ Disk.json_load
             Disk.NotText UnicodeDecodeError (fresh (Some Disk.NotText))
             eq_refl eq_refl).
  - exact (@load_library_lets_other_exceptions_escape _ Disk.json_load
             Disk.LongNumber ValueError (fresh (Some Disk.LongNumber))
             eq_refl eq_refl).
  - exact (@load_library_lets_other_exceptions_escape _ Disk.json_load
             Disk.TooDeep RecursionError (fresh (Some Disk.TooDeep))
             eq_refl eq_refl).
  - exact (@load_library_lets_other_exceptions_escape _ Disk.json_load
             (Disk.NotJson "{") JSONDecodeError
             (fresh (Some (Disk.NotJson "{"))) eq_refl eq_refl).
Defined.

(** The three books stay Book Records under an addition and a removal. *)
Lemma three_books_stay_book_records :
  all_well_typed (books three_books)
  /\ all_well_typed
       (books (final_state
                 (Disk.add_book "Emma" "Jane Austen" 1815 "Novel" true
                    Written three_books)))
  /\ all_well_typed
       (books (final_state
                 (Disk.remove_book "dune" [Some 1] Written three_books))).
Proof.
  destruct examples_well_typed as (_ & Hwt & _).
  split; [exact Hwt|].
  destruct (@mutations_keep_book_records _ Disk.json_dump three_books Hwt)
    as [Hadd Hremove].
  split; [apply Hadd | apply Hremove].
Defined.

(** A second Emma is found after the first. *)
Lemma second_emma_is_found :
  all_well_typed (books three_books)
  /\ exists added,
      Disk.add_book "Emma" "J. A." 1816 "Novel" false Written three_books
      = Done tt added
      /\ exists asked,
          Disk.search_books [Some 1] "Emma" added
          = Done tt
              (printing
                 [MatchingBooks; Numbered 1 emma;
                  Numbered 2 (new_record 3 "Emma" "J. A." 1816 "Novel" false)]
                 asked).
Proof.
  destruct examples_well_typed as (_ & Hwt & _).
  split; [exact Hwt|].
  destruct (@added_record_is_found _ Disk.json_dump "Emma" "J. A." 1816
              "Novel" false Written [Some 1] three_books Hwt)
    as (added & Hadd & Hsearch).
  exists added. split; [exact Hadd|].
  eexists. apply Hsearch. rewrite add_book_run in Hadd.
  injection Hadd as <-. reflexivity.
Defined.

(** A search by title on the catalogue with the title 1984. *)
Lemma numbered_title_stops_search :
  Exists (fun b => is_text (searched_field 1 b) = false) (books numbered_title)
  /\ Disk.search_books [Some 1] "dune" numbered_title
     = Fail AttributeError
         (printing [Header "Search for a Book"; SearchBy] numbered_title).
Proof.
  assert (H : Exists (fun b => is_text (searched_field 1 b) = false)
                (books numbered_title))
    by (apply Exists_cons_tl; apply Exists_cons_hd; reflexivity).
  split; [exact H|].
  exact (@search_books_needs_text_fields _ [Some 1] "dune" 1 numbered_title _
           eq_refl H).
Defined.

(** A search by author after two answers that are no field. *)
Lemma search_by_author_after_two_wrong_answers :
  all_well_typed (books three_books)
  /\ Forall refused_field [None; Some 7]
  /\ exists out : list message,
      List.length out = 2%nat
      /\ Disk.search_books [None; Some 7; Some 2] "AUSTEN" three_books
         = Done tt
             (printing
                ([Header "Search for a Book"; SearchBy] ++ out
                 ++ [MatchingBooks; Numbered 1 emma]) three_books).
Proof.
  destruct examples_well_typed as (_ & Hwt & _).
  assert (Hjunk : Forall refused_field [None; Some 7])
    by (repeat constructor; simpl; lia).
  split; [exact Hwt|]. split; [exact Hjunk|].
  exact (proj1 (@search_field_is_asked_again _ [None; Some 7] 2 [] "AUSTEN"
                  three_books Hwt Hjunk) (or_intror eq_refl)).
Defined.

(** The percentage of the two Dunes, one of them read. *)
Lemma percentage_of_two_dunes :
  books two_dunes <> []
  /\ exists p,
      In (PercentageRead p)
        (console (final_state (Disk.display_statistics two_dunes)))
      /\ (p == 50)%Q
      /\ (0 <= p /\ p <= 100)%Q.
Proof.
  assert (Hne : books two_dunes <> []) by discriminate.
  split; [exact Hne|].
  destruct (@percentage_is_between_0_and_100 _ two_dunes Hne)
    as (p & Hin & Hp & Hbounds).
  exists p. split; [exact Hin|]. split; [|exact Hbounds].
  rewrite Hp. reflexivity.
Defined.

(** The genre counts of the three books: SF 2 and Novel 1, 3 in all. *)
Lemma genre_counts_of_three_books_add_up :
  books three_books <> []
  /\ exists s' genre_counts,
      Disk.display_statistics three_books = Done tt s'
      /\ console s'
         = console three_books
           ++ [Header "Library Statistics"; TotalBooks 3;
               PercentageRead (percentage (books three_books)); BooksByGenre]
           ++ genre_lines genre_counts
      /\ total_count genre_counts = 3.
Proof.
  assert (Hne : books three_books <> []) by discriminate.
  split; [exact Hne|].
  assert (Hrun : Disk.display_statistics three_books
                 = Done tt (final_state (Disk.display_statistics three_books)))
    by reflexivity.
  destruct (@genre_counts_add_up _ three_books _ Hne Hrun)
    as (genre_counts & Hcon & Htotal & _).
  exists (final_state (Disk.display_statistics three_books)), genre_counts.
  split; [exact Hrun|]. split; [exact Hcon | exact Htotal].
Defined.

(** The statistics of a record whose genre is a list. *)
Lemma listed_genre_stops_statistics :
  Exists (fun b => hashable (Book.genre b) = false) (books listed_genre)
  /\ Disk.display_statistics listed_genre
     = Fail TypeError
         (printing [Header "Library Statistics"; TotalBooks 1;
                    PercentageRead (percentage (books listed_genre))]
            listed_genre).
Proof.
  assert (H : Exists (fun b => hashable (Book.genre b) = false)
                (books listed_genre))
    by (apply Exists_cons_hd; reflexivity).
  split; [exact H|].
  exact (@display_statistics_needs_hashable_genres _ listed_genre H).
Defined.

(** The year loop on: no number, -1, 0, 1999. *)
Lemma year_zero_after_two_wrong_answers :
  Forall refused_year [None; Some (-1)]
  /\ ask_year [None; Some (-1); Some 0; Some 1999]
     = ([InvalidYear; InvalidYear], Ok 0)
  /\ ask_year [None; Some (-1)]
     = ([InvalidYear; InvalidYear], Raise EOFError).
Proof.
  assert (H : Forall refused_year [None; Some (-1)])
    by (repeat constructor; simpl; lia).
  split; [exact H|].
  destruct (proj2 ask_year_takes_first_year_from_zero [None; Some (-1)] H)
    as [Heof Hyear].
  split; [exact (Hyear 0 [Some 1999] (Z.le_refl 0)) | exact Heof].
Defined.

(** The read loop on: maybe, then YES between spaces. *)
Lemma yes_in_capitals_between_spaces :
  Forall refused_answer ["maybe"]
  /\ ask_read ["maybe"; "  YES "; "no"] = ([YesOrNo], Ok true)
  /\ ask_read ["maybe"; " No"] = ([YesOrNo], Ok false).
Proof.
  assert (H : Forall refused_answer ["maybe"])
    by (repeat constructor; discriminate).
  split; [exact H|].
  destruct (proj2 ask_read_takes_first_yes_or_no ["maybe"] H) as [_ Hword].
  split.
  - exact (proj1 (Hword "  " "YES" " " ["no"] eq_refl eq_refl) eq_refl).
  - exact (proj2 (Hword " " "No" "" [] eq_refl eq_refl) eq_refl).
Defined.

End More_runs_on_the_disk.
